(** * Personal dashboard (Flask): derived views, store handlers and export

    A shallow embedding of [src/app.py].  Python integers are [Z], text is
    [string], database tables are row lists in rowid order, and the handlers
    run in a small state-and-exception monad over a [world] that holds the
    system clock, the random source and the committed database.  The parts
    of the Python library the handlers call ([datetime], [calendar],
    [float] arithmetic with [round], [str.replace], [csv.writer]) are
    embedded next to them. *)

From Stdlib Require Import String Ascii DecimalString.
From Stdlib Require Import ZArith List Bool Lia.
From Stdlib Require Import Permutation QArith Qabs.
From Stdlib Require Import PrimFloat FloatOps SpecFloat Uint63.
Import ListNotations.
Open Scope Z_scope.

(** ** Exceptions and results *)

Inductive exn : Type :=
| ValueError
| KeyError
| IndexError
| OverflowError
| IllegalMonthError
| NotFound.

Inductive result (A : Type) : Type :=
| Ok (a : A)
| Raise (e : exn).
Arguments Ok {A} a.
Arguments Raise {A} e.

Definition rbind {A B : Type} (r : result A) (k : A -> result B) : result B :=
  match r with
  | Ok a => k a
  | Raise e => Raise e
  end.

Definition is_ok {A : Type} (r : result A) : bool :=
  match r with Ok _ => true | Raise _ => false end.

(** Python list indexing [l[i]] for [0 <= i]; out of range raises. *)
Definition py_index {A : Type} (l : list A) (i : Z) : result A :=
  if i <? 0 then Raise IndexError
  else match nth_error l (Z.to_nat i) with
       | Some a => Ok a
       | None => Raise IndexError
       end.

(** ** The [datetime] module (CPython's [Lib/_pydatetime.py]) *)

Module Datetime.

Definition MINYEAR : Z := 1.
Definition MAXYEAR : Z := 9999.
Definition MAXORDINAL : Z := 3652059.

Definition DAYS_IN_MONTH : list Z :=
  [-1; 31; 28; 31; 30; 31; 30; 31; 31; 30; 31; 30; 31].
Definition DAYS_BEFORE_MONTH : list Z :=
  [-1; 0; 31; 59; 90; 120; 151; 181; 212; 243; 273; 304; 334].

Definition tbl (t : list Z) (i : Z) : Z := nth (Z.to_nat i) t (-1).

Definition is_leap (year : Z) : bool :=
  (year mod 4 =? 0) && (negb (year mod 100 =? 0) || (year mod 400 =? 0)).

Definition days_before_year (year : Z) : Z :=
  let y := year - 1 in
  y * 365 + y / 4 - y / 100 + y / 400.

Definition days_in_month (year month : Z) : Z :=
  if (month =? 2) && is_leap year then 29 else tbl DAYS_IN_MONTH month.

Definition days_before_month (year month : Z) : Z :=
  tbl DAYS_BEFORE_MONTH month
  + (if (2 <? month) && is_leap year then 1 else 0).

Definition ymd2ord (year month day : Z) : Z :=
  days_before_year year + days_before_month year month + day.

Definition DI400Y : Z := 146097.
Definition DI100Y : Z := 36524.
Definition DI4Y : Z := 1461.

Definition ord2ymd (n : Z) : Z * Z * Z :=
  let n := n - 1 in
  let n400 := n / DI400Y in
  let n := n mod DI400Y in
  let year := n400 * 400 + 1 in
  let n100 := n / DI100Y in
  let n := n mod DI100Y in
  let n4 := n / DI4Y in
  let n := n mod DI4Y in
  let n1 := n / 365 in
  let n := n mod 365 in
  let year := year + n100 * 100 + n4 * 4 + n1 in
  if (n1 =? 4) || (n100 =? 4) then (year - 1, 12, 31)
  else
    let leapyear := (n1 =? 3) && (negb (n4 =? 24) || (n100 =? 3)) in
    let month := Z.shiftr (n + 50) 5 in
    let preceding :=
      tbl DAYS_BEFORE_MONTH month
      + (if (2 <? month) && leapyear then 1 else 0) in
    if n <? preceding then
      let month := month - 1 in
      let preceding :=
        preceding
        - (tbl DAYS_IN_MONTH month
           + (if (month =? 2) && leapyear then 1 else 0)) in
      (year, month, n - preceding + 1)
    else (year, month, n - preceding + 1).

(** [date] and [datetime] objects; the constructors check the fields. *)
Record date : Type := mkdate { d_year : Z; d_month : Z; d_day : Z }.

Record datetime : Type := mkdatetime {
  year : Z; month : Z; day : Z;
  hour : Z; minute : Z; second : Z; microsecond : Z }.

Definition check_date_fields (y m d : Z) : bool :=
  (MINYEAR <=? y) && (y <=? MAXYEAR)
  && (1 <=? m) && (m <=? 12)
  && (1 <=? d) && (d <=? days_in_month y m).

Definition check_time_fields (h mi s us : Z) : bool :=
  (0 <=? h) && (h <=? 23) && (0 <=? mi) && (mi <=? 59)
  && (0 <=? s) && (s <=? 59) && (0 <=? us) && (us <=? 999999).

(** The constructors are those of the C implementation, which takes each
    argument as a C [int]: an argument that does not fit raises
    OverflowError, before the fields are checked. *)
Definition fits_c_int (z : Z) : bool :=
  (- 2147483648 <=? z) && (z <=? 2147483647).

Definition date_new (y m d : Z) : result date :=
  if negb (fits_c_int y && fits_c_int m && fits_c_int d) then Raise OverflowError
  else if check_date_fields y m d then Ok (mkdate y m d)
  else Raise ValueError.

(** [datetime(year, month, day)]: the time fields default to zero. *)
Definition datetime_new (y m d : Z) : result datetime :=
  if negb (fits_c_int y && fits_c_int m && fits_c_int d) then Raise OverflowError
  else if check_date_fields y m d then Ok (mkdatetime y m d 0 0 0 0)
  else Raise ValueError.

Definition valid_datetime (t : datetime) : bool :=
  check_date_fields (year t) (month t) (day t)
  && check_time_fields (hour t) (minute t) (second t) (microsecond t).

Definition to_date (t : datetime) : date :=
  mkdate (year t) (month t) (day t).

Definition date_toordinal (d : date) : Z :=
  ymd2ord (d_year d) (d_month d) (d_day d).

Definition toordinal (t : datetime) : Z :=
  ymd2ord (year t) (month t) (day t).

Definition date_fromordinal (n : Z) : date :=
  let '(y, m, d) := ord2ymd n in mkdate y m d.

(** [date + timedelta(days=k)]. *)
Definition date_add_days (d : date) (k : Z) : result date :=
  let o := date_toordinal d + k in
  if (0 <? o) && (o <=? MAXORDINAL) then Ok (date_fromordinal o)
  else Raise OverflowError.

(** [datetime + timedelta(days=k)]: the time of day is kept. *)
Definition add_days (t : datetime) (k : Z) : result datetime :=
  let o := toordinal t + k in
  if (0 <? o) && (o <=? MAXORDINAL) then
    let '(y, m, d) := ord2ymd o in
    Ok (mkdatetime y m d (hour t) (minute t) (second t) (microsecond t))
  else Raise OverflowError.

(** [t.replace(hour=.., minute=.., second=.., microsecond=..)]; an
    argument left out keeps the field. *)
Definition replace (t : datetime) (h mi s us : option Z) : datetime :=
  mkdatetime (year t) (month t) (day t)
    (match h with Some v => v | None => hour t end)
    (match mi with Some v => v | None => minute t end)
    (match s with Some v => v | None => second t end)
    (match us with Some v => v | None => microsecond t end).

(** Comparison is field by field, most significant first.  This is
    [datetime._cmp], and also the order of the ISO text SQLite stores for
    a DateTime column. *)
Fixpoint lex_compare (a b : list Z) : comparison :=
  match a, b with
  | x :: a', y :: b' =>
      match Z.compare x y with
      | Eq => lex_compare a' b'
      | c => c
      end
  | [], [] => Eq
  | [], _ :: _ => Lt
  | _ :: _, [] => Gt
  end.

Definition fields (t : datetime) : list Z :=
  [year t; month t; day t; hour t; minute t; second t; microsecond t].

Definition compare (a b : datetime) : comparison :=
  lex_compare (fields a) (fields b).

Definition leb (a b : datetime) : bool :=
  match compare a b with Gt => false | _ => true end.
(** [a == b]. *)
Definition eqb (a b : datetime) : bool :=
  match compare a b with Eq => true | _ => false end.
Definition ltb (a b : datetime) : bool :=
  match compare a b with Lt => true | _ => false end.

Definition date_fields (d : date) : list Z := [d_year d; d_month d; d_day d].
Definition date_leb (a b : date) : bool :=
  match lex_compare (date_fields a) (date_fields b) with
  | Gt => false | _ => true end.

(** [date.weekday()]: Monday is 0, Sunday is 6. *)
Definition date_weekday (d : date) : Z := (date_toordinal d + 6) mod 7.
Definition weekday (t : datetime) : Z := (toordinal t + 6) mod 7.

Definition DAYNAMES : list string :=
  ["Mon"; "Tue"; "Wed"; "Thu"; "Fri"; "Sat"; "Sun"]%string.

(** [t.strftime("%a")]. *)
Definition strftime_a (t : datetime) : string :=
  nth (Z.to_nat (weekday t)) DAYNAMES EmptyString.

End Datetime.

(** ** The [calendar] module (CPython's [Lib/calendar.py]) *)

Module Calendar.

Definition isleap (year : Z) : bool :=
  (year mod 4 =? 0) && (negb (year mod 100 =? 0) || (year mod 400 =? 0)).

Definition mdays : list Z := [0; 31; 28; 31; 30; 31; 30; 31; 31; 30; 31; 30; 31].

Definition month_name : list string :=
  [EmptyString; "January"; "February"; "March"; "April"; "May"; "June"; "July";
   "August"; "September"; "October"; "November"; "December"]%string.

(** [weekday(year, month, day)]: a year outside the range of [datetime]
    is replaced by one with the same calendar. *)
Definition weekday (year month day : Z) : result Z :=
  let year :=
    if (Datetime.MINYEAR <=? year) && (year <=? Datetime.MAXYEAR) then year
    else 2000 + year mod 400 in
  rbind (Datetime.date_new year month day)
        (fun d => Ok (Datetime.date_weekday d)).

Definition monthrange (year month : Z) : result (Z * Z) :=
  if negb ((1 <=? month) && (month <=? 12)) then Raise IllegalMonthError
  else
    rbind (weekday year month 1) (fun day1 =>
    let ndays :=
      Datetime.tbl mdays month
      + (if (month =? 2) && isleap year then 1 else 0) in
    Ok (day1, ndays)).

(** [range(a, b)] and [range(a, b, step)] for a positive step. *)
Definition range (a b : Z) : list Z :=
  map (fun k => a + Z.of_nat k) (seq 0 (Z.to_nat (b - a))).

Definition range_step (a b step : Z) : list Z :=
  map (fun k => a + Z.of_nat k * step)
      (seq 0 (Z.to_nat ((b - a + step - 1) / step))).

(** The slice [l[i:j]] for [0 <= i <= j]. *)
Definition slice {A : Type} (l : list A) (i j : Z) : list A :=
  firstn (Z.to_nat (j - i)) (skipn (Z.to_nat i) l).

Definition len {A : Type} (l : list A) : Z := Z.of_nat (List.length l).

(** [Calendar(firstweekday).itermonthdays(year, month)], as a list. *)
Definition itermonthdays (firstweekday year month : Z) : result (list Z) :=
  rbind (monthrange year month) (fun '(day1, ndays) =>
  let days_before := (day1 - firstweekday) mod 7 in
  let days_after := (firstweekday - day1 - ndays) mod 7 in
  Ok (repeat 0 (Z.to_nat days_before)
      ++ range 1 (ndays + 1)
      ++ repeat 0 (Z.to_nat days_after))).

(** [Calendar(firstweekday).monthdayscalendar(year, month)]:
    [[days[i:i+7] for i in range(0, len(days), 7)]]. *)
Definition monthdayscalendar (firstweekday year month : Z)
  : result (list (list Z)) :=
  rbind (itermonthdays firstweekday year month) (fun days =>
  Ok (map (fun i => slice days i (i + 7)) (range_step 0 (len days) 7))).

End Calendar.

(** ** [float] arithmetic and [round] *)

Module PyFloat.

(** [float(z)] for an integer below 2^53 in size, where it is exact. *)
Definition of_int (z : Z) : float :=
  if z <? 0 then PrimFloat.opp (PrimFloat.of_uint63 (Uint63.of_Z (- z)))
  else PrimFloat.of_uint63 (Uint63.of_Z z).

(** The integer nearest to [m * 2^e], ties to the even one. *)
Definition round_half_even (m : positive) (e : Z) : Z :=
  if 0 <=? e then Z.pos m * 2 ^ e
  else
    let d := 2 ^ (- e) in
    let q := Z.pos m / d in
    let r := Z.pos m mod d in
    match Z.compare (2 * r) d with
    | Lt => q
    | Gt => q + 1
    | Eq => if Z.even q then q else q + 1
    end.

(** [round(x)] with one argument: an [int], or an error at an infinity
    or a NaN. *)
Definition round (x : float) : result Z :=
  match Prim2SF x with
  | S754_zero _ => Ok 0
  | S754_finite s m e =>
      Ok (if s then - round_half_even m e else round_half_even m e)
  | S754_infinity _ => Raise OverflowError
  | S754_nan => Raise ValueError
  end.

End PyFloat.

(** ** Text: [str.replace], [str(int)], [strftime], [csv.writer] *)

Module PyStr.

Definition LF : ascii := "010"%char.
Definition CR : ascii := "013"%char.
Definition SPACE : ascii := " "%char.
Definition QUOTE : ascii := "034"%char.
Definition COMMA : ascii := ","%char.

Definition chr (c : ascii) : string := String c EmptyString.

(** [s.replace(old, new)] for a non-empty [old]: scan from the left, and
    at each occurrence of [old] emit [new] and step over the occurrence
    ([skip] counts the characters of it still to step over). *)
Fixpoint replace_from (old new : string) (skip : nat) (s : string) : string :=
  match s with
  | EmptyString => EmptyString
  | String c r =>
      match skip with
      | S k => replace_from old new k r
      | O =>
          if String.prefix old s
          then (new ++ replace_from old new (String.length old - 1) r)%string
          else String c (replace_from old new 0 r)
      end
  end.

Definition replace (s old new : string) : string := replace_from old new 0 s.

Definition contains (c : ascii) (s : string) : bool :=
  existsb (Ascii.eqb c) (list_ascii_of_string s).

(** [str(z)] for an [int]. *)
Definition of_int (z : Z) : string := NilZero.string_of_int (Z.to_int z).

(** A non-negative number in at least [w] digits, zero filled. *)
Definition zfill (w : nat) (z : Z) : string :=
  let s := of_int z in
  (string_of_list_ascii (repeat "0"%char (w - String.length s)) ++ s)%string.

(** [t.strftime('%Y-%m-%d %H:%M:%S')], [d.strftime('%Y-%m-%d')] and
    [t.strftime('%Y%m%d')].  The text is the C library's: [%Y] is the
    year as the GNU library writes it, without padding, so in four digits
    from the year 1000 on; the other fields are two digits. *)
Definition strftime_datetime (t : Datetime.datetime) : string :=
  (of_int (Datetime.year t) ++ "-" ++ zfill 2 (Datetime.month t) ++ "-"
   ++ zfill 2 (Datetime.day t) ++ " " ++ zfill 2 (Datetime.hour t) ++ ":"
   ++ zfill 2 (Datetime.minute t) ++ ":" ++ zfill 2 (Datetime.second t))%string.

Definition strftime_date (d : Datetime.date) : string :=
  (of_int (Datetime.d_year d) ++ "-" ++ zfill 2 (Datetime.d_month d) ++ "-"
   ++ zfill 2 (Datetime.d_day d))%string.

Definition strftime_compact (t : Datetime.datetime) : string :=
  (of_int (Datetime.year t) ++ zfill 2 (Datetime.month t)
   ++ zfill 2 (Datetime.day t))%string.

End PyStr.

Module Csv.
Import PyStr.

(** The default dialect quotes a field that holds the delimiter, the
    quote character or a character of the line terminator, and doubles
    the quote characters inside it. *)
Definition needs_quotes (s : string) : bool :=
  contains COMMA s || contains QUOTE s || contains CR s || contains LF s.

Fixpoint double_quotes (s : string) : string :=
  match s with
  | EmptyString => EmptyString
  | String c r =>
      if Ascii.eqb c QUOTE then String QUOTE (String QUOTE (double_quotes r))
      else String c (double_quotes r)
  end.

Definition field (s : string) : string :=
  if needs_quotes s then (chr QUOTE ++ double_quotes s ++ chr QUOTE)%string
  else s.

Definition CRLF : string := String CR (String LF EmptyString).

(** [writer.writerow(fields)] appends this line to the output. *)
Definition writerow (fields : list string) : string :=
  (String.concat "," (map field fields) ++ CRLF)%string.

End Csv.

(** ** [datetime.strptime(s, '%Y-%m-%d')]

    The format compiles to the regular expression
    [(\d\d\d\d)-(1[0-2]|0[1-9]|[1-9])-(3[01]|[12]\d|0[1-9]|[1-9]| [1-9])];
    the text must match it from the start and leave nothing unconverted,
    and the fields must make a date.  Text is over 8-bit characters, the
    code points below 256: the decimal digits [\d] matches among them
    are the ASCII ones. *)

Module Strptime.

Definition digit (c : ascii) : option Z :=
  let n := Z.of_nat (nat_of_ascii c) in
  if (48 <=? n) && (n <=? 57) then Some (n - 48) else None.

Definition digit_in (lo hi : Z) (c : ascii) : option Z :=
  match digit c with
  | Some v => if (lo <=? v) && (v <=? hi) then Some v else None
  | None => None
  end.

Definition re_Y (s : list ascii) : option (Z * list ascii) :=
  match s with
  | a :: b :: c :: d :: r =>
      match digit a, digit b, digit c, digit d with
      | Some a, Some b, Some c, Some d =>
          Some (a * 1000 + b * 100 + c * 10 + d, r)
      | _, _, _, _ => None
      end
  | _ => None
  end.

(** One alternative of two characters, or of one. *)
Definition alt2 (f g : ascii -> option Z) (s : list ascii)
  : list (Z * list ascii) :=
  match s with
  | a :: b :: r =>
      match f a, g b with
      | Some x, Some y => [(x * 10 + y, r)]
      | _, _ => []
      end
  | _ => []
  end.

Definition alt1 (f : ascii -> option Z) (s : list ascii)
  : list (Z * list ascii) :=
  match s with
  | a :: r => match f a with Some x => [(x, r)] | None => [] end
  | _ => []
  end.

Definition blank (c : ascii) : option Z :=
  if Ascii.eqb c " "%char then Some 0 else None.

(** The alternatives of a group, in the order the matcher tries them. *)
Definition re_m (s : list ascii) : list (Z * list ascii) :=
  alt2 (digit_in 1 1) (digit_in 0 2) s
  ++ alt2 (digit_in 0 0) (digit_in 1 9) s
  ++ alt1 (digit_in 1 9) s.

Definition re_d (s : list ascii) : list (Z * list ascii) :=
  alt2 (digit_in 3 3) (digit_in 0 1) s
  ++ alt2 (digit_in 1 2) (digit_in 0 9) s
  ++ alt2 (digit_in 0 0) (digit_in 1 9) s
  ++ alt1 (digit_in 1 9) s
  ++ alt2 blank (digit_in 1 9) s.

Definition dash (s : list ascii) : option (list ascii) :=
  match s with
  | c :: r => if Ascii.eqb c "-"%char then Some r else None
  | [] => None
  end.

(** The first alternative after which the rest of the expression matches. *)
Fixpoint first_match {A B : Type} (alts : list A) (k : A -> option B)
  : option B :=
  match alts with
  | [] => None
  | a :: alts' =>
      match k a with
      | Some b => Some b
      | None => first_match alts' k
      end
  end.

(** The match from the start of [s]: the three fields and the text left. *)
Definition re_match (s : list ascii) : option (Z * Z * Z * list ascii) :=
  match re_Y s with
  | None => None
  | Some (y, r) =>
      match dash r with
      | None => None
      | Some r =>
          first_match (re_m r) (fun '(m, r) =>
            match dash r with
            | None => None
            | Some r =>
                first_match (re_d r) (fun '(d, r) => Some (y, m, d, r))
            end)
      end
  end.

Definition strptime (s : string) : result Datetime.datetime :=
  match re_match (list_ascii_of_string s) with
  | None => Raise ValueError
  | Some (y, m, d, rest) =>
      match rest with
      | [] => Datetime.datetime_new y m d
      | _ :: _ => Raise ValueError
      end
  end.

End Strptime.

(** ** Database models

    One record per row, nullable columns as [option].  A table is the list
    of its rows in rowid order. *)

Module Todo.
Record t : Type := mk {
  id : Z; task : string; completed : bool;
  created_at : option Datetime.datetime }.
End Todo.

Module Note.
Record t : Type := mk {
  id : Z; title : string; content : option string; color : string;
  created_at : option Datetime.datetime;
  updated_at : option Datetime.datetime }.
End Note.

Module Event.
Record t : Type := mk {
  id : Z; title : string; description : option string;
  date : Datetime.date; time : option string; color : string;
  created_at : option Datetime.datetime }.
End Event.

Module PomodoroSession.
Record t : Type := mk {
  id : Z; duration : Z; completed : bool;
  created_at : option Datetime.datetime }.
End PomodoroSession.

Record database : Type := mkdb {
  todos : list Todo.t;
  notes : list Note.t;
  events : list Event.t;
  sessions : list PomodoroSession.t }.

Definition empty_db : database := mkdb [] [] [] [].

(** An INTEGER of SQLite is a signed 64-bit number, and the driver
    raises OverflowError for a Python integer outside it.  The tables of
    the model hold integers of [Z]: a handler that stores an integer of
    the request checks it against the range; a lookup by an id outside
    the range and a sum that leaves it are not modelled, and the theorems
    on ids that are not there and on sums state the range they are
    about. *)
Definition fits_int64 (z : Z) : bool :=
  (- 9223372036854775808 <=? z) && (z <=? 9223372036854775807).

(** [a == b] for two values of a nullable column. *)
Definition opt_eqb {A : Type} (eqb : A -> A -> bool) (a b : option A) : bool :=
  match a, b with
  | Some x, Some y => eqb x y
  | None, None => true
  | _, _ => false
  end.

(** The rowid SQLite gives a new row: one more than the largest in use. *)
Definition next_id (ids : list Z) : Z := fold_right Z.max 0 ids + 1.

(** [query.count()] and [query.filter(p).count()]. *)
Definition count {A : Type} (rows : list A) : Z := Z.of_nat (List.length rows).
Definition count_where {A : Type} (p : A -> bool) (rows : list A) : Z :=
  count (filter p rows).

(** SQL comparisons of a nullable DateTime column with a bound value: a
    NULL compares as unknown and the row is left out. *)
Definition col_ge (c : option Datetime.datetime) (v : Datetime.datetime) : bool :=
  match c with Some t => Datetime.leb v t | None => false end.
Definition col_lt (c : option Datetime.datetime) (v : Datetime.datetime) : bool :=
  match c with Some t => Datetime.ltb t v | None => false end.

(** [ORDER BY key]: a stable insertion sort; rows with equal keys stay in
    rowid order. *)
Fixpoint insert_by {A : Type} (le : A -> A -> bool) (x : A) (l : list A) : list A :=
  match l with
  | [] => [x]
  | y :: l' => if le x y then x :: l else y :: insert_by le x l'
  end.

Definition order_by {A : Type} (le : A -> A -> bool) (l : list A) : list A :=
  fold_right (insert_by le) [] l.

(** NULL sorts as the smallest value. *)
Definition opt_leb (a b : option Datetime.datetime) : bool :=
  match a, b with
  | None, _ => true
  | Some _, None => false
  | Some x, Some y => Datetime.leb x y
  end.

(** ** The world a request runs in *)

(** One reading of the system clock: [datetime.now()] is its local view,
    [datetime.utcnow()] the UTC one. *)
Record instant : Type := mkinstant {
  local : Datetime.datetime;
  utc : Datetime.datetime }.

Record world : Type := mkworld {
  clock : nat -> instant;   (* the successive readings of the clock *)
  ticks : nat;              (* how many have been taken *)
  entropy : nat -> Z;       (* the values the random source yields *)
  draws : nat;              (* how many have been drawn *)
  db : database }.          (* the committed database *)

(** State and exceptions.  An exception leaves the committed database as
    it was: every handler commits as its last write. *)
Definition M (A : Type) : Type := world -> result A * world.

Definition ret {A : Type} (a : A) : M A := fun w => (Ok a, w).

Definition bind {A B : Type} (c : M A) (k : A -> M B) : M B :=
  fun w =>
    match c w with
    | (Ok a, w') => k a w'
    | (Raise e, w') => (Raise e, w')
    end.

Definition lift {A : Type} (r : result A) : M A := fun w => (r, w).

Declare Scope py_scope.
Delimit Scope py_scope with py.
Notation "x <- c ;; k" := (bind c (fun x => k))
  (at level 61, c at next level, right associativity) : py_scope.
Notation "' p <- c ;; k" := (bind c (fun p => k))
  (at level 61, p pattern, c at next level, right associativity) : py_scope.
Open Scope py_scope.

Definition tick (w : world) : world :=
  mkworld (clock w) (S (ticks w)) (entropy w) (draws w) (db w).

Definition datetime_now : M Datetime.datetime :=
  fun w => (Ok (local (clock w (ticks w))), tick w).

Definition datetime_utcnow : M Datetime.datetime :=
  fun w => (Ok (utc (clock w (ticks w))), tick w).

Definition random_draw : M Z :=
  fun w => (Ok (entropy w (draws w)),
            mkworld (clock w) (ticks w) (entropy w) (S (draws w)) (db w)).

(** [random.randint(a, b)]: some integer of [a..b]. *)
Definition randint (a b : Z) : M Z :=
  r <- random_draw ;; ret (a + r mod (b - a + 1)).

(** [random.choice(seq)]. *)
Definition choice {A : Type} (l : list A) : M A :=
  r <- random_draw ;; lift (py_index l (r mod Calendar.len l)).

Definition get_db : M database := fun w => (Ok (db w), w).

Definition commit (d : database) : M unit :=
  fun w => (Ok tt, mkworld (clock w) (ticks w) (entropy w) (draws w) d).

(** [for x in xs: ...], collecting what each round produces. *)
Fixpoint for_each {A B : Type} (xs : list A) (body : A -> M B) : M (list B) :=
  match xs with
  | [] => ret []
  | x :: xs' => b <- body x ;; bs <- for_each xs' body ;; ret (b :: bs)
  end.

(** [Model.query.get_or_404(id)], for an id the database can hold. *)
Definition get_or_404 {A : Type} (key : A -> Z) (rows : list A) (i : Z) : M A :=
  match find (fun r => key r =? i) rows with
  | Some r => ret r
  | None => lift (Raise NotFound)
  end.

(** ** Mock weather ([get_mock_weather]) *)

Record condition_t : Type := mkcond {
  condition : string; icon : string; temp_range : Z * Z }.

Definition conditions : list condition_t :=
  [ mkcond "Sunny" "sun" (22, 32);
    mkcond "Partly Cloudy" "cloud-sun" (20, 28);
    mkcond "Cloudy" "cloud" (18, 25);
    mkcond "Light Rain" "cloud-rain" (16, 22);
    mkcond "Clear" "moon-stars" (18, 26) ]%string.

Record forecast_t : Type := mkforecast {
  fc_day : string; fc_high : Z; fc_low : Z; fc_icon : string }.

Record weather_t : Type := mkweather {
  w_location : string;
  w_temperature : Z;
  w_condition : string;
  w_icon : string;
  w_humidity : Z;
  w_wind : Z;
  w_forecast : list forecast_t }.

(** [temp_min + (temp_max - temp_min) * (0.5 + 0.5 * (1 - abs(14 - hour) / 14))]
    as Python evaluates it: [abs(14 - hour) / 14] is the true division of
    two integers, every other operation has a [float] operand and
    converts the integer one. *)
Definition temperature_at (temp_min temp_max hour : Z) : float :=
  (PyFloat.of_int temp_min
   + PyFloat.of_int (temp_max - temp_min)
     * (0.5 + 0.5 * (PyFloat.of_int 1
                     - PyFloat.of_int (Z.abs (14 - hour)) / PyFloat.of_int 14)))%float.

Definition get_mock_weather : M weather_t :=
  t <- datetime_now ;;
  let day_index := Datetime.day t mod Calendar.len conditions in
  weather <- lift (py_index conditions day_index) ;;
  let '(temp_min, temp_max) := temp_range weather in
  t <- datetime_now ;;
  let hour := Datetime.hour t in
  let temp := temperature_at temp_min temp_max hour in
  forecast <- for_each (Calendar.range 0 5) (fun i =>
    day_condition <-
      lift (py_index conditions ((day_index + i) mod Calendar.len conditions)) ;;
    t <- datetime_now ;;
    d <- lift (Datetime.add_days t i) ;;
    high <- randint (-2) 2 ;;
    low <- randint (-2) 2 ;;
    ret (mkforecast (Datetime.strftime_a d)
           (snd (temp_range day_condition) + high)
           (fst (temp_range day_condition) + low)
           (icon day_condition))) ;;
  temperature <- lift (PyFloat.round temp) ;;
  humidity <- randint 0 30 ;;
  wind <- randint 0 15 ;;
  ret (mkweather "Shenzhen, China" temperature (condition weather)
         (icon weather) (50 + humidity) (5 + wind) forecast).

(** ** Page routes *)

Definition MOTIVATIONAL_QUOTES : list (string * string) :=
  [ ("The only way to do great work is to love what you do.", "Steve Jobs");
    ("Innovation distinguishes between a leader and a follower.", "Steve Jobs");
    ("Stay hungry, stay foolish.", "Steve Jobs");
    ("The future belongs to those who believe in the beauty of their dreams.", "Eleanor Roosevelt");
    ("It is during our darkest moments that we must focus to see the light.", "Aristotle");
    ("The only impossible journey is the one you never begin.", "Tony Robbins");
    ("Success is not final, failure is not fatal: it is the courage to continue that counts.", "Winston Churchill");
    ("Believe you can and you're halfway there.", "Theodore Roosevelt");
    ("The best time to plant a tree was 20 years ago. The second best time is now.", "Chinese Proverb");
    ("Your limitation—it's only your imagination.", "Unknown");
    ("Push yourself, because no one else is going to do it for you.", "Unknown");
    ("Great things never come from comfort zones.", "Unknown");
    ("Dream it. Wish it. Do it.", "Unknown");
    ("Success doesn't just find you. You have to go out and get it.", "Unknown");
    ("The harder you work for something, the greater you'll feel when you achieve it.", "Unknown");
    ("Don't watch the clock; do what it does. Keep going.", "Sam Levenson");
    ("Everything you've ever wanted is on the other side of fear.", "George Addair");
    ("Hardships often prepare ordinary people for an extraordinary destiny.", "C.S. Lewis") ]%string.

Record weekly_entry : Type := mkweekly { wk_day : string; wk_sessions : Z }.

(** What [dashboard] hands to its template.  The three record lists it
    also passes (the newest todos and notes, the schedule) are plain reads
    of the store and are left out. *)
Record dashboard_ctx : Type := mkdashboard {
  dc_quote : string * string;
  dc_weather : weather_t;
  dc_total_todos : Z;
  dc_completed_todos : Z;
  dc_today_sessions : Z;
  dc_weekly_data : list weekly_entry;
  dc_current_date : Datetime.datetime }.

Definition dashboard : M dashboard_ctx :=
  quote <- choice MOTIVATIONAL_QUOTES ;;
  weather <- get_mock_weather ;;
  d <- get_db ;;
  let total_todos := count (todos d) in
  let completed_todos := count_where Todo.completed (todos d) in
  t <- datetime_now ;;
  let today_sessions :=
    count_where
      (fun s => col_ge (PomodoroSession.created_at s)
                  (Datetime.replace t (Some 0) (Some 0) (Some 0) None))
      (sessions d) in
  weekly_data <- for_each (Calendar.range 0 7) (fun i =>
    t <- datetime_now ;;
    day <- lift (Datetime.add_days t (- (6 - i))) ;;
    let day_start := Datetime.replace day (Some 0) (Some 0) (Some 0) (Some 0) in
    day_end <- lift (Datetime.add_days day_start 1) ;;
    let n :=
      count_where
        (fun s => col_ge (PomodoroSession.created_at s) day_start
                  && col_lt (PomodoroSession.created_at s) day_end)
        (sessions d) in
    ret (mkweekly (Datetime.strftime_a day) n)) ;;
  current_date <- datetime_now ;;
  ret (mkdashboard quote weather total_todos completed_todos today_sessions
         weekly_data current_date).

Record pomodoro_ctx : Type := mkpomodoro {
  today_sessions : Z; total_sessions : Z; total_hours : Z }.

(** [sum(PomodoroSession.duration)], or 0 for no row: the sum as an
    integer.  The query fails instead when a partial sum leaves the
    64-bit range, which is not modelled. *)
Definition sum_durations (rows : list PomodoroSession.t) : Z :=
  fold_right Z.add 0 (map PomodoroSession.duration rows).

Definition pomodoro : M pomodoro_ctx :=
  t <- datetime_now ;;
  let today_start := Datetime.replace t (Some 0) (Some 0) (Some 0) (Some 0) in
  d <- get_db ;;
  let today_sessions :=
    count_where (fun s => col_ge (PomodoroSession.created_at s) today_start)
      (sessions d) in
  let total_sessions := count (sessions d) in
  let total_minutes := sum_durations (sessions d) in
  let total_hours := total_minutes / 60 in
  ret (mkpomodoro today_sessions total_sessions total_hours).

Definition get_pomodoro_stats : M pomodoro_ctx :=
  t <- datetime_now ;;
  let today_start := Datetime.replace t (Some 0) (Some 0) (Some 0) (Some 0) in
  d <- get_db ;;
  let today_sessions :=
    count_where (fun s => col_ge (PomodoroSession.created_at s) today_start)
      (sessions d) in
  let total_sessions := count (sessions d) in
  let total_minutes := sum_durations (sessions d) in
  ret (mkpomodoro today_sessions total_sessions (total_minutes / 60)).

(** What [calendar_page] hands to its template.  The events of the month
    (a read of the store between the two bounds, grouped by date) are left
    out. *)
Record calendar_ctx : Type := mkcalendar {
  cal_year : Z;
  cal_month : Z;
  cal_month_name : string;
  cal_month_days : list (list Z);
  cal_first_day : Datetime.date;
  cal_last_day : Datetime.date;
  cal_today : Datetime.date }.

(** The month overflow handling of [calendar_page]. *)
Definition normalize_month (year month : Z) : Z * Z :=
  if 12 <? month then (year + 1, 1)
  else if month <? 1 then (year - 1, 12)
  else (year, month).

(** [year_arg] and [month_arg] are the query parameters that are present
    and convert to [int]; otherwise the default is taken, which is
    computed in either case. *)
Definition calendar_page (year_arg month_arg : option Z) : M calendar_ctx :=
  t <- datetime_now ;;
  let year := match year_arg with Some y => y | None => Datetime.year t end in
  t <- datetime_now ;;
  let month := match month_arg with Some m => m | None => Datetime.month t end in
  let '(year, month) := normalize_month year month in
  month_days <- lift (Calendar.monthdayscalendar 6 year month) ;;
  month_name <- lift (py_index Calendar.month_name month) ;;
  first <- lift (Datetime.datetime_new year month 1) ;;
  let first_day := Datetime.to_date first in
  last_day <-
    (if month =? 12 then
       next <- lift (Datetime.datetime_new (year + 1) 1 1) ;;
       lift (Datetime.date_add_days (Datetime.to_date next) (-1))
     else
       next <- lift (Datetime.datetime_new year (month + 1) 1) ;;
       lift (Datetime.date_add_days (Datetime.to_date next) (-1))) ;;
  today <- datetime_now ;;
  ret (mkcalendar year month month_name month_days first_day last_day
         (Datetime.to_date today)).

(** ** API routes

    A request body is a JSON object; a key it may carry is an [option]
    field here, holding a value of the column's type when the key is
    present. *)

Module TodoData.
Record t : Type := mk { task : option string }.
End TodoData.

Module NoteData.
Record t : Type := mk {
  title : option string; content : option string; color : option string }.
End NoteData.

Module EventData.
Record t : Type := mk {
  title : option string; description : option string;
  date : option string; time : option string; color : option string }.
End EventData.

Module PomodoroData.
Record t : Type := mk { duration : option Z }.
End PomodoroData.

(** [data.get(key, default)] and [data[key]]. *)
Definition dict_get {A : Type} (field : option A) (default : A) : A :=
  match field with Some v => v | None => default end.

Definition dict_item {A : Type} (field : option A) : result A :=
  match field with Some v => Ok v | None => Raise KeyError end.

Definition set_todos (d : database) (l : list Todo.t) : database :=
  mkdb l (notes d) (events d) (sessions d).
Definition set_notes (d : database) (l : list Note.t) : database :=
  mkdb (todos d) l (events d) (sessions d).
Definition set_events (d : database) (l : list Event.t) : database :=
  mkdb (todos d) (notes d) l (sessions d).
Definition set_sessions (d : database) (l : list PomodoroSession.t) : database :=
  mkdb (todos d) (notes d) (events d) l.

(** [db.session.add(row); db.session.commit()]: the INSERT takes the next
    rowid and fills each column left unset from its default, in column
    order; [default=datetime.utcnow] reads the clock then. *)
Definition add_todo (data : TodoData.t) : M (Todo.t * Z) :=
  let task := dict_get (TodoData.task data) EmptyString in
  d <- get_db ;;
  created_at <- datetime_utcnow ;;
  let todo := Todo.mk (next_id (map Todo.id (todos d))) task false (Some created_at) in
  _ <- commit (set_todos d (todos d ++ [todo])) ;;
  ret (todo, 201).

Definition insert_note (title : string) (content : option string) (color : string)
  : M Note.t :=
  d <- get_db ;;
  created_at <- datetime_utcnow ;;
  updated_at <- datetime_utcnow ;;
  let note :=
    Note.mk (next_id (map Note.id (notes d))) title content color
      (Some created_at) (Some updated_at) in
  _ <- commit (set_notes d (notes d ++ [note])) ;;
  ret note.

Definition add_note (data : NoteData.t) : M (Note.t * Z) :=
  note <- insert_note (dict_get (NoteData.title data) "Untitled"%string)
            (Some (dict_get (NoteData.content data) EmptyString))
            (dict_get (NoteData.color data) "primary"%string) ;;
  ret (note, 201).

Definition get_note (note_id : Z) : M Note.t :=
  d <- get_db ;;
  get_or_404 Note.id (notes d) note_id.

(** [note.updated_at = datetime.utcnow(); db.session.commit()].  The
    UPDATE carries the columns whose value has changed.  When the reading
    assigned equals the stored [updated_at] the column is left out of it:
    if another column has changed, [onupdate=datetime.utcnow] fills
    [updated_at] from a further reading of the clock, and if none has,
    there is no UPDATE at all.  The answer is the row as stored. *)
Definition update_note (note_id : Z) (data : NoteData.t) : M Note.t :=
  d <- get_db ;;
  note <- get_or_404 Note.id (notes d) note_id ;;
  let title := dict_get (NoteData.title data) (Note.title note) in
  let content :=
    match NoteData.content data with
    | Some c => Some c
    | None => Note.content note
    end in
  let color := dict_get (NoteData.color data) (Note.color note) in
  assigned <- datetime_utcnow ;;
  let store (updated_at : Datetime.datetime) : M Note.t :=
    let note' :=
      Note.mk (Note.id note) title content color (Note.created_at note)
        (Some updated_at) in
    _ <- commit (set_notes d
           (map (fun n => if Note.id n =? note_id then note' else n) (notes d))) ;;
    ret note' in
  if negb (opt_eqb Datetime.eqb (Note.updated_at note) (Some assigned)) then
    store assigned
  else if negb (String.eqb title (Note.title note))
          || negb (opt_eqb String.eqb content (Note.content note))
          || negb (String.eqb color (Note.color note)) then
    updated_at <- datetime_utcnow ;;
    store updated_at
  else ret note.

Definition delete_note (note_id : Z) : M unit :=
  d <- get_db ;;
  note <- get_or_404 Note.id (notes d) note_id ;;
  commit (set_notes d (filter (fun n => negb (Note.id n =? note_id)) (notes d))).

(** The Note part of [init_sample_data]. *)
Definition init_sample_notes : M unit :=
  d <- get_db ;;
  if count (notes d) =? 0 then
    _ <- insert_note "Flask Tips"%string
           (Some "Remember to use blueprints for larger applications. Keep routes organized!"%string)
           "primary"%string ;;
    _ <- insert_note "Meeting Notes"%string
           (Some "Discussed project timeline. Deadline is next Friday. Need to complete API integration."%string)
           "success"%string ;;
    _ <- insert_note "Ideas"%string
           (Some (String.concat (PyStr.chr PyStr.LF)
                    ["- Add dark mode"; "- Mobile responsive design";
                     "- Pomodoro timer"; "- Calendar integration"]%string))
           "warning"%string ;;
    ret tt
  else ret tt.

Definition add_event (data : EventData.t) : M (Event.t * Z) :=
  let title := dict_get (EventData.title data) "Untitled"%string in
  let description := dict_get (EventData.description data) EmptyString in
  text <- lift (dict_item (EventData.date data)) ;;
  parsed <- lift (Strptime.strptime text) ;;
  let date := Datetime.to_date parsed in
  let time := dict_get (EventData.time data) EmptyString in
  let color := dict_get (EventData.color data) "primary"%string in
  d <- get_db ;;
  created_at <- datetime_utcnow ;;
  let event :=
    Event.mk (next_id (map Event.id (events d))) title (Some description) date
      (Some time) color (Some created_at) in
  _ <- commit (set_events d (events d ++ [event])) ;;
  ret (event, 201).

(** The driver raises OverflowError for a duration that is not a 64-bit
    integer when the INSERT is executed: the default of [created_at] has
    been read by then, and nothing is stored. *)
Definition complete_pomodoro (data : PomodoroData.t) : M (PomodoroSession.t * Z) :=
  let duration := dict_get (PomodoroData.duration data) 25 in
  d <- get_db ;;
  created_at <- datetime_utcnow ;;
  if fits_int64 duration then
    let session :=
      PomodoroSession.mk (next_id (map PomodoroSession.id (sessions d)))
        duration true (Some created_at) in
    _ <- commit (set_sessions d (sessions d ++ [session])) ;;
    ret (session, 201)
  else lift (Raise OverflowError).

(** ** Export routes *)

Record csv_response : Type := mkcsv {
  body : string;
  content_type : string;
  content_disposition : string }.

(** [text.replace('\n', ' ').replace('\r', ' ') if text else '']. *)
Definition one_line (text : option string) : string :=
  match text with
  | Some s =>
      if (String.length s =? 0)%nat then EmptyString
      else PyStr.replace (PyStr.replace s (PyStr.chr PyStr.LF) " ")
             (PyStr.chr PyStr.CR) " "
  | None => EmptyString
  end.

Definition stamp_or_na (t : option Datetime.datetime) : string :=
  match t with
  | Some t => PyStr.strftime_datetime t
  | None => "N/A"%string
  end.

Definition note_row (note : Note.t) : list string :=
  [ PyStr.of_int (Note.id note);
    Note.title note;
    one_line (Note.content note);
    Note.color note;
    stamp_or_na (Note.created_at note);
    stamp_or_na (Note.updated_at note) ].

Definition event_row (event : Event.t) : list string :=
  [ PyStr.of_int (Event.id event);
    Event.title event;
    one_line (Event.description event);
    PyStr.strftime_date (Event.date event);
    match Event.time event with Some s => s | None => EmptyString end;
    Event.color event ].

Definition write_rows (header : list string) (rows : list (list string)) : string :=
  (Csv.writerow header ++ String.concat EmptyString (map Csv.writerow rows))%string.

(** [order_by(Note.updated_at.desc())]. *)
Definition notes_newest_first (l : list Note.t) : list Note.t :=
  order_by (fun a b => opt_leb (Note.updated_at b) (Note.updated_at a)) l.

Definition opt_string_leb (a b : option string) : bool :=
  match a, b with
  | None, _ => true
  | Some _, None => false
  | Some x, Some y => String.leb x y
  end.

(** [order_by(Event.date, Event.time)]. *)
Definition event_leb (a b : Event.t) : bool :=
  match Datetime.lex_compare (Datetime.date_fields (Event.date a))
          (Datetime.date_fields (Event.date b)) with
  | Lt => true
  | Gt => false
  | Eq => opt_string_leb (Event.time a) (Event.time b)
  end.

Definition export_notes_csv : M csv_response :=
  d <- get_db ;;
  let notes := notes_newest_first (notes d) in
  let output :=
    write_rows
      ["ID"; "Title"; "Content"; "Color"; "Created At"; "Updated At"]%string
      (map note_row notes) in
  t <- datetime_now ;;
  ret (mkcsv output "text/csv"
         ("attachment; filename=notes_" ++ PyStr.strftime_compact t ++ ".csv")%string).

Definition export_calendar_csv : M csv_response :=
  d <- get_db ;;
  let events := order_by event_leb (events d) in
  let output :=
    write_rows
      ["ID"; "Title"; "Description"; "Date"; "Time"; "Color"]%string
      (map event_row events) in
  t <- datetime_now ;;
  ret (mkcsv output "text/csv"
         ("attachment; filename=events_" ++ PyStr.strftime_compact t ++ ".csv")%string).
(** ** The remaining handlers of the store *)

(** The body of a PUT on a todo. *)
Module TodoPatch.
Record t : Type := mk { completed : option bool; task : option string }.
End TodoPatch.

(** [order_by(Todo.created_at.desc())]. *)
Definition todos_newest_first (l : list Todo.t) : list Todo.t :=
  order_by (fun a b => opt_leb (Todo.created_at b) (Todo.created_at a)) l.

Definition get_todos : M (list Todo.t) :=
  d <- get_db ;;
  ret (todos_newest_first (todos d)).

Definition update_todo (todo_id : Z) (data : TodoPatch.t) : M Todo.t :=
  d <- get_db ;;
  todo <- get_or_404 Todo.id (todos d) todo_id ;;
  let completed := dict_get (TodoPatch.completed data) (Todo.completed todo) in
  let task := dict_get (TodoPatch.task data) (Todo.task todo) in
  let todo' := Todo.mk (Todo.id todo) task completed (Todo.created_at todo) in
  _ <- commit (set_todos d
         (map (fun t => if Todo.id t =? todo_id then todo' else t) (todos d))) ;;
  ret todo'.

Definition delete_todo (todo_id : Z) : M unit :=
  d <- get_db ;;
  todo <- get_or_404 Todo.id (todos d) todo_id ;;
  commit (set_todos d (filter (fun t => negb (Todo.id t =? todo_id)) (todos d))).

(** [get_notes] and [notes_page] run the same query. *)
Definition get_notes : M (list Note.t) :=
  d <- get_db ;;
  ret (notes_newest_first (notes d)).

Definition notes_page : M (list Note.t) :=
  d <- get_db ;;
  ret (notes_newest_first (notes d)).

Definition get_event (event_id : Z) : M Event.t :=
  d <- get_db ;;
  get_or_404 Event.id (events d) event_id.

(** The fields are assigned in the order of the source; [strptime] may
    raise after the title and the description have been assigned, and
    then nothing is committed. *)
Definition update_event (event_id : Z) (data : EventData.t) : M Event.t :=
  d <- get_db ;;
  event <- get_or_404 Event.id (events d) event_id ;;
  let title := dict_get (EventData.title data) (Event.title event) in
  let description :=
    match EventData.description data with
    | Some s => Some s
    | None => Event.description event
    end in
  date <-
    match EventData.date data with
    | Some text =>
        parsed <- lift (Strptime.strptime text) ;;
        ret (Datetime.to_date parsed)
    | None => ret (Event.date event)
    end ;;
  let time :=
    match EventData.time data with
    | Some s => Some s
    | None => Event.time event
    end in
  let color := dict_get (EventData.color data) (Event.color event) in
  let event' :=
    Event.mk (Event.id event) title description date time color
      (Event.created_at event) in
  _ <- commit (set_events d
         (map (fun e => if Event.id e =? event_id then event' else e) (events d))) ;;
  ret event'.

Definition delete_event (event_id : Z) : M unit :=
  d <- get_db ;;
  event <- get_or_404 Event.id (events d) event_id ;;
  commit (set_events d (filter (fun e => negb (Event.id e =? event_id)) (events d))).

Definition get_quote : M (string * string) := choice MOTIVATIONAL_QUOTES.

Definition get_weather : M weather_t := get_mock_weather.

(** ** The events of a month ([calendar_page]) *)

(** [d.isoformat()] of a date: [YYYY-MM-DD], the year in four digits
    whatever the platform. *)
Definition date_isoformat (d : Datetime.date) : string :=
  (PyStr.zfill 4 (Datetime.d_year d) ++ "-" ++ PyStr.zfill 2 (Datetime.d_month d)
   ++ "-" ++ PyStr.zfill 2 (Datetime.d_day d))%string.

(** A [dict] with text keys: its items in insertion order. *)
Definition pydict (V : Type) : Type := list (string * V).

(** [d.get(k)], and [k in d] when it is not [None]. *)
Fixpoint dict_find {V : Type} (k : string) (d : pydict V) : option V :=
  match d with
  | [] => None
  | (k', v) :: d' => if String.eqb k k' then Some v else dict_find k d'
  end.

(** [d[k] = v]: an existing key keeps its place, a new one goes last. *)
Fixpoint dict_store {V : Type} (k : string) (v : V) (d : pydict V) : pydict V :=
  match d with
  | [] => [(k, v)]
  | (k', v') :: d' =>
      if String.eqb k k' then (k', v) :: d' else (k', v') :: dict_store k v d'
  end.

(** The filter and the order of the query. *)
Definition month_events (first_day last_day : Datetime.date)
           (rows : list Event.t) : list Event.t :=
  order_by event_leb
    (filter (fun e => Datetime.date_leb first_day (Event.date e)
                      && Datetime.date_leb (Event.date e) last_day) rows).

(** One round of the grouping loop: [events_by_date[date_str]] is looked
    up again after the key has been made sure of, and appended to.  The
    dictionary [event.to_dict()] builds is a field-by-field copy of the
    row; the row stands for it. *)
Definition group_event (by_date : pydict (list Event.t)) (event : Event.t)
  : result (pydict (list Event.t)) :=
  let date_str := date_isoformat (Event.date event) in
  let by_date :=
    match dict_find date_str by_date with
    | None => dict_store date_str [] by_date
    | Some _ => by_date
    end in
  rbind (match dict_find date_str by_date with
         | Some l => Ok l
         | None => Raise KeyError
         end)
        (fun l => Ok (dict_store date_str (l ++ [event]) by_date)).

Fixpoint group_events (by_date : pydict (list Event.t)) (events : list Event.t)
  : result (pydict (list Event.t)) :=
  match events with
  | [] => Ok by_date
  | event :: events' =>
      rbind (group_event by_date event) (fun d => group_events d events')
  end.

Definition events_by_date (first_day last_day : Datetime.date)
  : M (pydict (list Event.t)) :=
  d <- get_db ;;
  lift (group_events [] (month_events first_day last_day (events d))).

(** ** The todo export *)

Definition todo_row (todo : Todo.t) : list string :=
  [ PyStr.of_int (Todo.id todo);
    Todo.task todo;
    if Todo.completed todo then "Completed"%string else "Pending"%string;
    stamp_or_na (Todo.created_at todo) ].

Definition export_todos_csv : M csv_response :=
  d <- get_db ;;
  let todos := todos_newest_first (todos d) in
  let output :=
    write_rows ["ID"; "Task"; "Status"; "Created At"]%string
      (map todo_row todos) in
  t <- datetime_now ;;
  ret (mkcsv output "text/csv"
         ("attachment; filename=todos_" ++ PyStr.strftime_compact t ++ ".csv")%string).

(** ** Checks over a range of integers, by evaluation *)

Fixpoint check_from (k : nat) (i : Z) (f : Z -> bool) : bool :=
  match k with
  | O => true
  | S k' => f i && check_from k' (i + 1) f
  end.

(** The datetime at 00:00 of the day with ordinal [n]. *)
Definition midnight_of_ord (n : Z) : Datetime.datetime :=
  let '(y, m, d) := Datetime.ord2ymd n in Datetime.mkdatetime y m d 0 0 0 0.

(** ** The two halves of [ord2ymd] *)

(** Days before a month and in a month, by whether the year is leap. *)
Definition before_month (leap : bool) (m : Z) : Z :=
  Datetime.tbl Datetime.DAYS_BEFORE_MONTH m
  + (if (2 <? m) && leap then 1 else 0).

Definition in_month (leap : bool) (m : Z) : Z :=
  if (m =? 2) && leap then 29 else Datetime.tbl Datetime.DAYS_IN_MONTH m.

(** The month and the day [ord2ymd] finds for day [n] of a year, counted
    from 0. *)
Definition month_day (leapyear : bool) (n : Z) : Z * Z :=
  let month := Z.shiftr (n + 50) 5 in
  let preceding :=
    Datetime.tbl Datetime.DAYS_BEFORE_MONTH month
    + (if (2 <? month) && leapyear then 1 else 0) in
  if n <? preceding then
    let month := month - 1 in
    let preceding :=
      preceding
      - (Datetime.tbl Datetime.DAYS_IN_MONTH month
         + (if (month =? 2) && leapyear then 1 else 0)) in
    (month, n - preceding + 1)
  else (month, n - preceding + 1).

Definition month_day_ok (leap : bool) (n : Z) : bool :=
  let m := fst (month_day leap n) in
  let d := snd (month_day leap n) in
  (1 <=? m) && (m <=? 12) && (1 <=? d) && (d <=? in_month leap m)
  && (before_month leap m + d =? n + 1).

Definition months_ok (leap : bool) (m1 : Z) : bool :=
  (28 <=? in_month leap m1) && (in_month leap m1 <=? 31)
  && (0 <=? before_month leap m1)
  && (before_month leap m1 + in_month leap m1
      <=? (if leap then 366 else 365))
  && check_from 12 1 (fun m2 =>
       implb (m1 <? m2)
             (before_month leap m1 + in_month leap m1 <=? before_month leap m2)).

(** ** Text without line breaks *)

Fixpoint map_chars (f : ascii -> ascii) (s : string) : string :=
  match s with
  | EmptyString => EmptyString
  | String c r => String (f c) (map_chars f r)
  end.

Definition line_break (c : ascii) : bool :=
  Ascii.eqb c PyStr.LF || Ascii.eqb c PyStr.CR.

Definition space_for_break (c : ascii) : ascii :=
  if line_break c then PyStr.SPACE else c.

Definition substitute (a b c : ascii) : ascii := if Ascii.eqb c a then b else c.

(** The text [line1], a line feed, [line2]. *)
Definition line1_line2 : string :=
  ("line1" ++ PyStr.chr PyStr.LF ++ "line2")%string.

(** ** Runs of a handler *)

(** [runs c w a w']: from [w] the computation returns [a] and leaves [w']. *)
Definition runs {A : Type} (c : M A) (w : world) (a : A) (w' : world) : Prop :=
  c w = (Ok a, w').

(** [w'] is [w] after some clock readings and random draws. *)
Definition later (w w' : world) : Prop :=
  clock w' = clock w /\ entropy w' = entropy w /\ db w' = db w
  /\ (ticks w <= ticks w')%nat /\ (draws w <= draws w')%nat.

(** Every reading of the clock from [w] on satisfies [p]. *)
Definition reads (w : world) (p : Datetime.datetime -> Prop) : Prop :=
  forall k, (ticks w <= k)%nat -> p (local (clock w k)).

(** The temperature [get_mock_weather] shows on a day of the month at an
    hour. *)
Definition displayed_temperature (day hour : Z) : result Z :=
  rbind (py_index conditions (day mod Calendar.len conditions)) (fun c =>
    PyFloat.round
      (temperature_at (fst (temp_range c)) (snd (temp_range c)) hour)).

(** A clock reading on day-of-month [d] at hour [h], of a year before the
    last one. *)
Definition on_day_at_hour (d h : Z) (t : Datetime.datetime) : Prop :=
  Datetime.valid_datetime t = true /\ Datetime.year t < Datetime.MAXYEAR
  /\ Datetime.day t = d /\ Datetime.hour t = h.

(** The date of [d] with the time of day of [t]. *)
Definition at_time (d t : Datetime.datetime) : Datetime.datetime :=
  Datetime.mkdatetime (Datetime.year d) (Datetime.month d) (Datetime.day d)
    (Datetime.hour t) (Datetime.minute t) (Datetime.second t)
    (Datetime.microsecond t).

(** ** The temperature curve, in exact arithmetic *)

(** [0.5 + 0.5 * (1 - abs(14 - hour) / 14)] in [float]. *)
Definition hour_factor (hour : Z) : float :=
  (0.5 + 0.5 * (PyFloat.of_int 1
                - PyFloat.of_int (Z.abs (14 - hour)) / PyFloat.of_int 14))%float.

(** [min + (max - min) * (0.5 + 0.5 * (1 - |14 - h| / 14))] as a rational
    number. *)
Definition exact_temperature (temp_min temp_max hour : Z) : Q :=
  (inject_Z temp_min
   + inject_Z (temp_max - temp_min)
     * ((1 # 2) + (1 # 2) * (1 - inject_Z (Z.abs (14 - hour)) / 14)))%Q.

(** [T] is an integer nearest to [x]. *)
Definition nearest_integer (T : Z) (x : Q) : Prop :=
  (Qabs (inject_Z T - x) <= 1 # 2)%Q.

Definition nearest_integerb (T : Z) (x : Q) : bool :=
  Qle_bool (Qabs (inject_Z T - x)) (1 # 2).

Definition temperature_ok (i h : Z) : bool :=
  match py_index conditions i, displayed_temperature i h with
  | Ok c, Ok T =>
      let '(mn, mx) := temp_range c in
      nearest_integerb T (exact_temperature mn mx h)
      && (mn <=? T) && (T <=? mx) && (mn + mx <=? 2 * T)
      && implb (h =? 14) (T =? mx)
      && PrimFloat.leb 0.5 (hour_factor h) && PrimFloat.leb (hour_factor h) 1
  | _, _ => false
  end.

Definition falls_off_ok (i h1 h2 : Z) : bool :=
  match displayed_temperature i h1, displayed_temperature i h2 with
  | Ok T1, Ok T2 =>
      implb (Z.abs (14 - h1) <=? Z.abs (14 - h2)) (T2 <=? T1)
  | _, _ => false
  end.


(** ** Sample worlds *)

(** Monday 10 June 2024, 15:00. *)
Definition sample_now : Datetime.datetime :=
  Datetime.mkdatetime 2024 6 10 15 0 0 0.

(** A world whose clock stands at [sample_now], with a random source that
    starts at [seed], on the database [d]. *)
Definition sample_world (seed : Z) (d : database) : world :=
  mkworld (fun _ => mkinstant sample_now sample_now) 0
          (fun k => seed + Z.of_nat k) 0 d.

(** ** The life of the notes table *)

Inductive note_request : Type :=
| AddNote (data : NoteData.t)
| GetNote (note_id : Z)
| UpdateNote (note_id : Z) (data : NoteData.t)
| DeleteNote (note_id : Z)
| InitSampleNotes.

(** The world after a request has been served. *)
Definition serve (r : note_request) (w : world) : world :=
  match r with
  | AddNote data => snd (add_note data w)
  | GetNote i => snd (get_note i w)
  | UpdateNote i data => snd (update_note i data w)
  | DeleteNote i => snd (delete_note i w)
  | InitSampleNotes => snd (init_sample_notes w)
  end.

Definition serve_all (rs : list note_request) (w : world) : world :=
  fold_left (fun w r => serve r w) rs w.

(** [updated_at >= created_at], both set. *)
Definition note_in_order (n : Note.t) : Prop :=
  exists c u,
    Note.created_at n = Some c /\ Note.updated_at n = Some u
    /\ Datetime.leb c u = true.

(** The UTC clock never steps back. *)
Definition monotone_clock (w : world) : Prop :=
  forall i j, (i <= j)%nat ->
    Datetime.leb (utc (clock w i)) (utc (clock w j)) = true.

(** Every stored note is in order and was created no later than any
    reading of the clock still to come. *)
Definition notes_inv (w : world) : Prop :=
  forall n, In n (notes (db w)) ->
    exists c u,
      Note.created_at n = Some c /\ Note.updated_at n = Some u
      /\ Datetime.leb c u = true
      /\ forall k, (ticks w <= k)%nat ->
           Datetime.leb c (utc (clock w k)) = true.

(** The row [update_note] makes of a note and a request, with
    [updated_at] the reading [t]. *)
Definition note_with (note : Note.t) (data : NoteData.t)
           (t : Datetime.datetime) : Note.t :=
  Note.mk (Note.id note)
    (dict_get (NoteData.title data) (Note.title note))
    match NoteData.content data with
    | Some c => Some c
    | None => Note.content note
    end
    (dict_get (NoteData.color data) (Note.color note))
    (Note.created_at note) (Some t).

(** The request leaves the title, the content and the colour as they
    are stored. *)
Definition same_columns (note : Note.t) (data : NoteData.t) : Prop :=
  dict_get (NoteData.title data) (Note.title note) = Note.title note
  /\ match NoteData.content data with
     | Some c => Some c
     | None => Note.content note
     end = Note.content note
  /\ dict_get (NoteData.color data) (Note.color note) = Note.color note.

(** The world [k] readings of the clock later, with the rows of id [i]
    replaced by [note']. *)
Definition note_stored (w : world) (k : nat) (i : Z) (note' : Note.t) : world :=
  mkworld (clock w) (k + ticks w) (entropy w) (draws w)
    (set_notes (db w)
       (map (fun n => if Note.id n =? i then note' else n) (notes (db w)))).

(** A clock that advances one second per reading from [sample_now], for
    a minute. *)
Definition ticking_clock (k : nat) : instant :=
  let t := Datetime.mkdatetime 2024 6 10 15 0 (Z.min (Z.of_nat k) 59) 0 in
  mkinstant t t.

Definition ticking_world : world :=
  mkworld ticking_clock 0 (fun _ => 0) 0 empty_db.

Definition sample_note_requests : list note_request :=
  [ InitSampleNotes;
    AddNote (NoteData.mk (Some "Groceries"%string) None None);
    UpdateNote 2 (NoteData.mk None (Some "Moved to Monday."%string) None);
    DeleteNote 1 ].

(** A clock that is set back by an hour after its second reading. *)
Definition set_back_clock (k : nat) : instant :=
  let t := if (k <? 2)%nat then sample_now
           else Datetime.mkdatetime 2024 6 10 14 0 0 0 in
  mkinstant t t.

Definition set_back_world : world :=
  mkworld set_back_clock 0 (fun _ => 0) 0 empty_db.

(** A note is created, the clock is set back, the note is updated. *)
Definition set_back_requests : list note_request :=
  [ AddNote (NoteData.mk (Some "Groceries"%string) None None);
    UpdateNote 1 (NoteData.mk None (Some "Moved to Monday."%string) None) ].

(** ** Rejected requests *)

(** The request fails and the database is as before. *)
Definition rejected_unchanged {A : Type} (c : M A) (w : world) : Prop :=
  (exists e, fst (c w) = Raise e) /\ db (snd (c w)) = db w.

Definition event_on (text : string) : EventData.t :=
  EventData.mk (Some "Dentist"%string) None (Some text) (Some "09:30"%string) None.

(** ** The month grid *)

(** The days from the first of a month to the first of the next one. *)
Definition month_length (year month : Z) : Z :=
  (if month =? 12 then Datetime.ymd2ord (year + 1) 1 1
   else Datetime.ymd2ord year (month + 1) 1)
  - Datetime.ymd2ord year month 1.

(** The cell of a grid in row [r] and column [c]. *)
Definition cell (grid : list (list Z)) (r c : nat) : option Z :=
  match nth_error grid r with
  | Some row => nth_error row c
  | None => None
  end.

Definition is_day (c : Z) : bool := negb (c =? 0).

(** The year and month [calendar_page] works with: the query parameters,
    or the clock's where one is left out, after the overflow handling. *)
Definition requested (w : world) (year_arg month_arg : option Z) : Z * Z :=
  normalize_month
    (match year_arg with
     | Some y => y
     | None => Datetime.year (local (clock w (ticks w)))
     end)
    (match month_arg with
     | Some m => m
     | None => Datetime.month (local (clock w (S (ticks w))))
     end).

(** The months the date library has both bounds for. *)
Definition month_in_range (y m : Z) : Prop :=
  1 <= y <= 9999 /\ (y < 9999 \/ m < 12).

(** The spec's reading of the input: the month wraps by exactly one unit
    (month 13 is January of the next year, month 0 is December of the year
    before), and the pair is still invalid when the month is outside 1..12
    after that or the year is outside the range of the date type. *)
Definition spec_wrap_one_unit (year month : Z) : Z * Z :=
  if 12 <? month then (year + 1, month - 12)
  else if month <? 1 then (year - 1, month + 12)
  else (year, month).

Definition spec_still_invalid (year month : Z) : bool :=
  let '(y, m) := spec_wrap_one_unit year month in
  negb ((1 <=? m) && (m <=? 12)) || negb ((1 <=? y) && (y <=? 9999)).

(** ** Pomodoro sessions by day *)

(** [t.replace(hour=0, minute=0, second=0, microsecond=0)]. *)
Definition midnight (t : Datetime.datetime) : Datetime.datetime :=
  Datetime.replace t (Some 0) (Some 0) (Some 0) (Some 0).

(** The session was created at or after [a]; at or after [a] and before
    [b]. *)
Definition since (a : Datetime.datetime) (s : PomodoroSession.t) : bool :=
  col_ge (PomodoroSession.created_at s) a.







(** Two sessions: one of the morning of [sample_now]'s day, one of a week
    before. *)
Definition example_sessions : list PomodoroSession.t :=
  [ PomodoroSession.mk 1 25 true (Some (Datetime.mkdatetime 2024 6 10 9 0 0 0));
    PomodoroSession.mk 2 50 true (Some (Datetime.mkdatetime 2024 6 3 9 0 0 0)) ].

Definition example_world : world :=
  sample_world 0 (mkdb [] [] [] example_sessions).

(** A session recorded at midnight sharp, and a world whose clock stands
    half a second after 15:00 of that day. *)
Definition midnight_session : PomodoroSession.t :=
  PomodoroSession.mk 1 25 true (Some (Datetime.mkdatetime 2024 6 10 0 0 0 0)).

Definition half_second_world : world :=
  mkworld (fun _ => let t := Datetime.mkdatetime 2024 6 10 15 0 0 500000 in
                    mkinstant t t)
          0 (fun k => Z.of_nat k) 0 (mkdb [] [] [] [midnight_session]).
(** ** The life of the whole store *)

Inductive request : Type :=
| AddTodo (data : TodoData.t)
| UpdateTodo (todo_id : Z) (data : TodoPatch.t)
| DeleteTodo (todo_id : Z)
| OnNotes (r : note_request)
| AddEvent (data : EventData.t)
| UpdateEvent (event_id : Z) (data : EventData.t)
| DeleteEvent (event_id : Z)
| CompletePomodoro (data : PomodoroData.t).

(** The world after a request has been handled, whether it succeeded or
    raised. *)
Definition handle (r : request) (w : world) : world :=
  match r with
  | AddTodo data => snd (add_todo data w)
  | UpdateTodo i data => snd (update_todo i data w)
  | DeleteTodo i => snd (delete_todo i w)
  | OnNotes r => serve r w
  | AddEvent data => snd (add_event data w)
  | UpdateEvent i data => snd (update_event i data w)
  | DeleteEvent i => snd (delete_event i w)
  | CompletePomodoro data => snd (complete_pomodoro data w)
  end.

Definition handle_all (rs : list request) (w : world) : world :=
  fold_left (fun w r => handle r w) rs w.

(** No two rows of a table share an id. *)
Definition unique_ids (d : database) : Prop :=
  NoDup (map Todo.id (todos d)) /\ NoDup (map Note.id (notes d))
  /\ NoDup (map Event.id (events d))
  /\ NoDup (map PomodoroSession.id (sessions d)).

(** The computation raises [e] and leaves the world as it was: no write,
    no reading of the clock, no random draw. *)
Definition fails_untouched {A : Type} (c : M A) (w : world) (e : exn) : Prop :=
  c w = (Raise e, w).

(** No row of the table has the id. *)
Definition absent {A : Type} (key : A -> Z) (rows : list A) (i : Z) : Prop :=
  forall r, In r rows -> key r <> i.

Definition sample_requests : list request :=
  [ AddTodo (TodoData.mk (Some "Water the plants"%string));
    OnNotes InitSampleNotes;
    AddEvent (event_on "2024-06-12"%string);
    UpdateTodo 1 (TodoPatch.mk (Some true) None);
    AddEvent (event_on "12 June"%string);
    CompletePomodoro (PomodoroData.mk None);
    UpdateEvent 1 (EventData.mk None None (Some "2024-06-13"%string) None None);
    OnNotes (DeleteNote 2);
    AddTodo (TodoData.mk None);
    DeleteTodo 1;
    DeleteEvent 7 ].

(** ** The events of a month, by date *)

(** The key of [events_by_date] an event goes under is [k]. *)
Definition on_date (k : string) (e : Event.t) : bool :=
  String.eqb k (date_isoformat (Event.date e)).

(** What a [dict] of lists that holds no empty list has under a key whose
    elements are [l]. *)
Definition nonempty {A : Type} (l : list A) : option (list A) :=
  match l with
  | [] => None
  | _ :: _ => Some l
  end.

(** What the dictionary holds after the events [seen] have gone through
    the grouping loop: distinct keys, and under each key the events seen
    with that date. *)
Definition grouped (g : pydict (list Event.t)) (seen : list Event.t) : Prop :=
  NoDup (map fst g)
  /\ forall k, dict_find k g = nonempty (filter (on_date k) seen).

(** The event's date is in the closed range. *)
Definition in_date_range (first_day last_day : Datetime.date) (e : Event.t) : bool :=
  Datetime.date_leb first_day (Event.date e)
  && Datetime.date_leb (Event.date e) last_day.

(** Three events of June 2024 and one of July, stored out of order. *)
Definition sample_events : list Event.t :=
  [ Event.mk 1 "Review"%string None (Datetime.mkdate 2024 6 12)
      (Some "14:00"%string) "primary"%string None;
    Event.mk 2 "Holiday"%string None (Datetime.mkdate 2024 7 1) None
      "success"%string None;
    Event.mk 3 "Dentist"%string None (Datetime.mkdate 2024 6 12)
      (Some "09:30"%string) "warning"%string None;
    Event.mk 4 "Kickoff"%string None (Datetime.mkdate 2024 6 3)
      (Some "10:00"%string) "info"%string None ].

(** ** Date text read back *)

(** The four characters [zfill 4 y] are read by [re_Y] as [y]. *)
Definition year_text_ok (y : Z) : bool :=
  match list_ascii_of_string (PyStr.zfill 4 y) with
  | [a; b; c; d] =>
      match Strptime.re_Y [a; b; c; d] with
      | Some (v, []) => v =? y
      | _ => false
      end
  | _ => false
  end.

(** What [re_match] does after the year: the dash, the month, the dash
    and the day. *)
Definition after_year (r : list ascii) : option (Z * Z * list ascii) :=
  match Strptime.dash r with
  | None => None
  | Some r =>
      Strptime.first_match (Strptime.re_m r) (fun '(m, r) =>
        match Strptime.dash r with
        | None => None
        | Some r =>
            Strptime.first_match (Strptime.re_d r) (fun '(d, r) => Some (m, d, r))
        end)
  end.

Definition month_day_text_ok (m d : Z) : bool :=
  match after_year (list_ascii_of_string
                      ("-" ++ PyStr.zfill 2 m ++ "-" ++ PyStr.zfill 2 d)%string) with
  | Some (m', d', []) => (m' =? m) && (d' =? d)
  | _ => false
  end.

(** ** The forecast *)

(** The entry of the forecast [i] days ahead, on day-of-month [d]: the
    icon is the one of the condition [(d mod 5 + i) mod 5], the high and
    the low are within two degrees of its range, the low below the high. *)
Definition forecast_entry_ok (d i : Z) (f : forecast_t) : Prop :=
  exists c,
    py_index conditions
      ((d mod Calendar.len conditions + i) mod Calendar.len conditions) = Ok c
    /\ fc_icon f = icon c
    /\ snd (temp_range c) - 2 <= fc_high f <= snd (temp_range c) + 2
    /\ fst (temp_range c) - 2 <= fc_low f <= fst (temp_range c) + 2
    /\ fc_low f < fc_high f.

(** The name of the weekday [i] days after [now]. *)
Definition day_name_after (now : Datetime.datetime) (i : Z) : string :=
  nth (Z.to_nat ((Datetime.weekday now + i) mod 7)) Datetime.DAYNAMES EmptyString.

(** ** Pomodoro sessions, recorded and counted *)

(** A morning in Shenzhen: the local clock reads 07:00 on 10 June 2024
    while the UTC clock still reads 23:00 on 9 June. *)
Definition shenzhen_morning : world :=
  mkworld (fun _ => mkinstant (Datetime.mkdatetime 2024 6 10 7 0 0 0)
                              (Datetime.mkdatetime 2024 6 9 23 0 0 0))
          0 (fun _ => 0) 0 empty_db.

(** [sum(duration)] is added up by SQLite in a 64-bit integer, row by
    row, and the query fails with "integer overflow" when a partial sum
    leaves the range.  None does, in whatever order the rows are read,
    when the magnitudes of the durations add up within the range. *)
Definition total_magnitude (rows : list PomodoroSession.t) : Z :=
  fold_right Z.add 0 (map (fun s => Z.abs (PomodoroSession.duration s)) rows).

(** ** Line breaks in an export *)

(** How many times the character occurs in the text. *)
Fixpoint count_char (c : ascii) (s : string) : nat :=
  match s with
  | EmptyString => 0
  | String x r => (if Ascii.eqb x c then 1 else 0) + count_char c r
  end.

(** The occurrences in the fields of a row, and in a column of a table. *)
Definition count_in_row (c : ascii) (fields : list string) : nat :=
  list_sum (map (count_char c) fields).

Definition count_in_column {A : Type} (c : ascii) (column : A -> string)
           (rows : list A) : nat :=
  list_sum (map (fun r => count_char c (column r)) rows).

(** The time label of an event as the export writes it. *)
Definition time_text (e : Event.t) : string :=
  match Event.time e with Some s => s | None => EmptyString end.

(** A note whose title runs over two lines. *)
Definition two_line_title : Note.t :=
  Note.mk 1 ("Shopping" ++ PyStr.chr PyStr.LF ++ "list")%string
    (Some line1_line2) "primary"%string None None.

(** ** Listings in order *)

(** Every row comes before all the rows after it in the order [le]. *)
Fixpoint in_order {A : Type} (le : A -> A -> bool) (l : list A) : Prop :=
  match l with
  | [] => True
  | a :: l' => (forall b, In b l' -> le a b = true) /\ in_order le l'
  end.

(** [a] is listed before [b] when it was updated (created) no earlier;
    a row without the time goes last. *)
Definition note_newer (a b : Note.t) : bool :=
  opt_leb (Note.updated_at b) (Note.updated_at a).

Definition todo_newer (a b : Todo.t) : bool :=
  opt_leb (Todo.created_at b) (Todo.created_at a).

(** * Properties *)

Lemma check_from_spec (k : nat) (f : Z -> bool) :
  forall i, check_from k i f = true ->
  forall r, i <= r < i + Z.of_nat k -> f r = true.
Proof.
  induction k as [|k IH]; intros i H r Hr.
  - lia.
  - simpl in H. apply andb_true_iff in H. destruct H as [Hi Hrest].
    destruct (Z.eq_dec r i) as [->|Hne]; [assumption|].
    apply (IH (i + 1)); [assumption|lia].
Qed.

(** ** The proleptic Gregorian calendar of [datetime] *)

(** Evaluate the month tables at a literal month. *)
Ltac table_values :=
  cbv [Datetime.tbl Datetime.DAYS_IN_MONTH Datetime.DAYS_BEFORE_MONTH Calendar.mdays Z.to_nat
       Pos.to_nat Pos.iter_op Nat.add nth Z.eqb Z.ltb Z.compare Pos.compare
       Pos.compare_cont Pos.eqb andb] in *.

Section CalendarFacts.
Import Datetime.

Example ord2ymd_epoch : ord2ymd 1 = (1, 1, 1).
Proof. reflexivity. Qed.

Example ord2ymd_max : ord2ymd MAXORDINAL = (9999, 12, 31).
Proof. reflexivity. Qed.

Example ymd2ord_2024_06_10 : ymd2ord 2024 6 10 = 739047.
Proof. reflexivity. Qed.

Example ord2ymd_2024_02_29 : ord2ymd (ymd2ord 2024 2 29) = (2024, 2, 29).
Proof. reflexivity. Qed.

Lemma month_days_checked :
  check_from 365 0 (month_day_ok false) = true
  /\ check_from 365 0 (month_day_ok true) = true.
Proof. split; vm_cast_no_check (eq_refl true). Qed.

Lemma months_checked :
  check_from 12 1 (months_ok false) = true
  /\ check_from 12 1 (months_ok true) = true.
Proof. split; vm_cast_no_check (eq_refl true). Qed.

Lemma before_month_year (y m : Z) :
  days_before_month y m = before_month (is_leap y) m.
Proof. reflexivity. Qed.

Lemma in_month_year (y m : Z) : days_in_month y m = in_month (is_leap y) m.
Proof. reflexivity. Qed.

(** What the tables say about a month, and about two months in order. *)
Lemma months_facts (leap : bool) (m1 : Z) :
  1 <= m1 <= 12 ->
  28 <= in_month leap m1 <= 31
  /\ 0 <= before_month leap m1
  /\ before_month leap m1 + in_month leap m1 <= (if leap then 366 else 365)
  /\ forall m2, m1 < m2 <= 12 ->
       before_month leap m1 + in_month leap m1 <= before_month leap m2.
Proof.
  intros Hm.
  assert (H : months_ok leap m1 = true).
  { destruct leap;
      [apply (check_from_spec 12 _ 1 (proj2 months_checked))
      |apply (check_from_spec 12 _ 1 (proj1 months_checked))]; cbn; lia. }
  unfold months_ok in H.
  repeat (apply andb_true_iff in H; destruct H as [H ?]).
  repeat split; try lia.
  intros m2 Hm2.
  match goal with
  | Hc : check_from 12 1 _ = true |- _ =>
      pose proof (check_from_spec 12 _ 1 Hc m2 ltac:(cbn; lia)) as Hp
  end.
  cbv beta in Hp.
  replace (m1 <? m2) with true in Hp by (symmetry; lia).
  cbn [implb] in Hp. lia.
Qed.

(** The month and day of a day of the year. *)
Lemma month_day_facts (leap : bool) (n : Z) :
  0 <= n < 365 ->
  1 <= fst (month_day leap n) <= 12
  /\ 1 <= snd (month_day leap n) <= in_month leap (fst (month_day leap n))
  /\ before_month leap (fst (month_day leap n)) + snd (month_day leap n) = n + 1.
Proof.
  intros Hn.
  assert (H : month_day_ok leap n = true).
  { destruct leap;
      [apply (check_from_spec 365 _ 0 (proj2 month_days_checked))
      |apply (check_from_spec 365 _ 0 (proj1 month_days_checked))]; cbn; lia. }
  unfold month_day_ok in H. cbv zeta in H.
  repeat (apply andb_true_iff in H; destruct H as [H ?]). lia.
Qed.

End CalendarFacts.

Section YearPart.
Import Datetime.

(** [ord2ymd], with its quotients named: the special case of the last day
    of a leap cycle, and otherwise the year followed by [month_day]. *)
Lemma ord2ymd_split (n : Z) :
  ord2ymd n
  = let n400 := (n - 1) / 146097 in
    let n100 := ((n - 1) mod 146097) / 36524 in
    let n4 := (((n - 1) mod 146097) mod 36524) / 1461 in
    let n1 := ((((n - 1) mod 146097) mod 36524) mod 1461) / 365 in
    let doy := ((((n - 1) mod 146097) mod 36524) mod 1461) mod 365 in
    let year := n400 * 400 + 1 + n100 * 100 + n4 * 4 + n1 in
    if (n1 =? 4) || (n100 =? 4) then (year - 1, 12, 31)
    else
      let leap := (n1 =? 3) && (negb (n4 =? 24) || (n100 =? 3)) in
      (year, fst (month_day leap doy), snd (month_day leap doy)).
Proof.
  unfold ord2ymd, month_day, DI400Y, DI100Y, DI4Y. cbv zeta.
  destruct ((_ =? 4) || (_ =? 4)); [reflexivity|].
  match goal with
  | |- (if ?c then _ else _) = _ => destruct c
  end; reflexivity.
Qed.

(** The days before a year and its leap flag, from the digits of the
    year in the mixed base 400, 100, 4, 1. *)
Lemma year_digits (n400 n100 n4 n1 : Z) :
  0 <= n100 <= 3 -> 0 <= n4 <= 24 -> 0 <= n1 <= 3 ->
  days_before_year (n400 * 400 + 1 + n100 * 100 + n4 * 4 + n1)
  = 146097 * n400 + 36524 * n100 + 1461 * n4 + 365 * n1
  /\ is_leap (n400 * 400 + 1 + n100 * 100 + n4 * 4 + n1)
     = (n1 =? 3) && (negb (n4 =? 24) || (n100 =? 3)).
Proof.
  intros H100 H4 H1.
  set (y := n400 * 400 + 1 + n100 * 100 + n4 * 4 + n1).
  assert (Q4 : (y - 1) / 4 = 100 * n400 + 25 * n100 + n4).
  { symmetry. apply (Z.div_unique _ _ _ n1); unfold y; lia. }
  assert (Q100 : (y - 1) / 100 = 4 * n400 + n100).
  { symmetry. apply (Z.div_unique _ _ _ (4 * n4 + n1)); unfold y; lia. }
  assert (Q400 : (y - 1) / 400 = n400).
  { symmetry. apply (Z.div_unique _ _ _ (100 * n100 + 4 * n4 + n1)); unfold y; lia. }
  split.
  - unfold days_before_year. cbv zeta. rewrite Q4, Q100, Q400. unfold y. lia.
  - unfold is_leap.
    pose proof (Z.div_mod y 4 ltac:(lia)) as D4.
    pose proof (Z.mod_pos_bound y 4 ltac:(lia)) as B4.
    pose proof (Z.div_mod y 100 ltac:(lia)) as D100.
    pose proof (Z.mod_pos_bound y 100 ltac:(lia)) as B100.
    pose proof (Z.div_mod y 400 ltac:(lia)) as D400.
    pose proof (Z.mod_pos_bound y 400 ltac:(lia)) as B400.
    destruct (Z.eqb_spec (y mod 4) 0), (Z.eqb_spec (y mod 100) 0),
      (Z.eqb_spec (y mod 400) 0), (Z.eqb_spec n1 3), (Z.eqb_spec n4 24),
      (Z.eqb_spec n100 3); cbn [andb orb negb]; try reflexivity;
      exfalso; unfold y in *; lia.
Qed.

End YearPart.

Section OrdinalToDate.
Import Datetime.

(** [ord2ymd n] is a date of the calendar whose day number is [n]. *)
Lemma ord2ymd_spec (n : Z) :
  ymd2ord (fst (fst (ord2ymd n))) (snd (fst (ord2ymd n))) (snd (ord2ymd n)) = n
  /\ 1 <= snd (fst (ord2ymd n)) <= 12
  /\ 1 <= snd (ord2ymd n)
     <= days_in_month (fst (fst (ord2ymd n))) (snd (fst (ord2ymd n))).
Proof.
  rewrite ord2ymd_split. cbv zeta.
  pose proof (Z.div_mod (n - 1) 146097 ltac:(lia)) as D400.
  pose proof (Z.mod_pos_bound (n - 1) 146097 ltac:(lia)) as B400.
  set (n400 := (n - 1) / 146097) in *.
  set (r400 := (n - 1) mod 146097) in *.
  pose proof (Z.div_mod r400 36524 ltac:(lia)) as D100.
  pose proof (Z.mod_pos_bound r400 36524 ltac:(lia)) as B100.
  set (n100 := r400 / 36524) in *.
  set (r100 := r400 mod 36524) in *.
  pose proof (Z.div_mod r100 1461 ltac:(lia)) as D4.
  pose proof (Z.mod_pos_bound r100 1461 ltac:(lia)) as B4.
  set (n4 := r100 / 1461) in *.
  set (r4 := r100 mod 1461) in *.
  pose proof (Z.div_mod r4 365 ltac:(lia)) as D1.
  pose proof (Z.mod_pos_bound r4 365 ltac:(lia)) as B1.
  set (n1 := r4 / 365) in *.
  set (doy := r4 mod 365) in *.
  clearbody n400 r400 n100 r100 n4 r4 n1 doy.
  assert (H100 : 0 <= n100 <= 4) by lia.
  assert (H4 : 0 <= n4 <= 24) by lia.
  assert (H1 : 0 <= n1 <= 4) by lia.
  destruct (Z.eqb_spec n1 4) as [E1|E1]; cbn [orb].
  - (* the last day of a four-year cycle *)
    subst n1.
    destruct (year_digits n400 n100 n4 3 ltac:(lia) ltac:(lia) ltac:(lia))
      as [Hd Hl].
    replace (n400 * 400 + 1 + n100 * 100 + n4 * 4 + 4 - 1)
      with (n400 * 400 + 1 + n100 * 100 + n4 * 4 + 3) by lia.
    cbn [fst snd]. unfold ymd2ord.
    rewrite before_month_year, in_month_year, Hd, Hl.
    replace (n4 =? 24) with false by (symmetry; lia).
    change (3 =? 3) with true. cbn [andb orb negb].
    change (before_month true 12) with 335. change (in_month true 12) with 31.
    lia.
  - destruct (Z.eqb_spec n100 4) as [E100|E100].
    + (* the last day of a 400-year cycle *)
      subst n100.
      assert (n4 = 0 /\ n1 = 0) as [-> ->] by lia.
      destruct (year_digits n400 3 24 3 ltac:(lia) ltac:(lia) ltac:(lia))
        as [Hd Hl].
      replace (n400 * 400 + 1 + 4 * 100 + 0 * 4 + 0 - 1)
        with (n400 * 400 + 1 + 3 * 100 + 24 * 4 + 3) by lia.
      cbn [fst snd]. unfold ymd2ord.
      rewrite before_month_year, in_month_year, Hd, Hl.
      change ((3 =? 3) && (negb (24 =? 24) || (3 =? 3))) with true.
      change (before_month true 12) with 335. change (in_month true 12) with 31.
      lia.
    + destruct (year_digits n400 n100 n4 n1 ltac:(lia) ltac:(lia) ltac:(lia))
        as [Hd Hl].
      cbn [fst snd]. unfold ymd2ord.
      rewrite before_month_year, in_month_year, Hd, Hl.
      destruct (month_day_facts
                  ((n1 =? 3) && (negb (n4 =? 24) || (n100 =? 3))) doy B1)
        as (Hm & Hday & Hsum).
      lia.
Qed.

End OrdinalToDate.

Section DateOrder.
Import Datetime.

Lemma days_in_month_range (y m : Z) :
  1 <= m <= 12 -> 28 <= days_in_month y m <= 31.
Proof. intros Hm. rewrite in_month_year. now apply months_facts. Qed.

Lemma days_before_month_bounds (y m d : Z) :
  1 <= m <= 12 -> 1 <= d <= days_in_month y m ->
  1 <= days_before_month y m + d <= (if is_leap y then 366 else 365).
Proof.
  intros Hm Hd. rewrite before_month_year. rewrite in_month_year in Hd.
  destruct (months_facts (is_leap y) m Hm) as (_ & H0 & Hsum & _). lia.
Qed.

Lemma days_before_year_succ (y : Z) :
  days_before_year (y + 1) = days_before_year y + (if is_leap y then 366 else 365).
Proof.
  unfold days_before_year, is_leap. cbv zeta.
  replace (y + 1 - 1) with y by lia.
  pose proof (Z.div_mod y 4 ltac:(lia)). pose proof (Z.mod_pos_bound y 4 ltac:(lia)).
  pose proof (Z.div_mod y 100 ltac:(lia)). pose proof (Z.mod_pos_bound y 100 ltac:(lia)).
  pose proof (Z.div_mod y 400 ltac:(lia)). pose proof (Z.mod_pos_bound y 400 ltac:(lia)).
  pose proof (Z.div_mod (y - 1) 4 ltac:(lia)).
  pose proof (Z.mod_pos_bound (y - 1) 4 ltac:(lia)).
  pose proof (Z.div_mod (y - 1) 100 ltac:(lia)).
  pose proof (Z.mod_pos_bound (y - 1) 100 ltac:(lia)).
  pose proof (Z.div_mod (y - 1) 400 ltac:(lia)).
  pose proof (Z.mod_pos_bound (y - 1) 400 ltac:(lia)).
  destruct (Z.eqb_spec (y mod 4) 0), (Z.eqb_spec (y mod 100) 0),
    (Z.eqb_spec (y mod 400) 0); cbn [andb orb negb]; lia.
Qed.

Lemma days_before_year_le (y : Z) (k : nat) :
  days_before_year y + 365 * Z.of_nat k <= days_before_year (y + Z.of_nat k).
Proof.
  induction k as [|k IH].
  - replace (y + Z.of_nat 0) with y by lia. lia.
  - replace (y + Z.of_nat (S k)) with (y + Z.of_nat k + 1) by lia.
    rewrite days_before_year_succ.
    destruct (is_leap (y + Z.of_nat k)); lia.
Qed.

(** An earlier date of the calendar has a smaller day number. *)
Lemma ymd2ord_lt (y1 m1 d1 y2 m2 d2 : Z) :
  1 <= m1 <= 12 -> 1 <= d1 <= days_in_month y1 m1 ->
  1 <= m2 <= 12 -> 1 <= d2 <= days_in_month y2 m2 ->
  lex_compare [y1; m1; d1] [y2; m2; d2] = Lt ->
  ymd2ord y1 m1 d1 < ymd2ord y2 m2 d2.
Proof.
  intros Hm1 Hd1 Hm2 Hd2. cbn [lex_compare].
  pose proof (days_before_month_bounds y1 m1 d1 Hm1 Hd1) as Hb1.
  pose proof (days_before_month_bounds y2 m2 d2 Hm2 Hd2) as Hb2.
  unfold ymd2ord.
  destruct (Z.compare_spec y1 y2) as [->|Hy|Hy]; try discriminate.
  - destruct (Z.compare_spec m1 m2) as [->|Hm|Hm]; try discriminate.
    + destruct (Z.compare_spec d1 d2); try discriminate. lia.
    + intros _. rewrite !before_month_year. rewrite !in_month_year in *.
      destruct (months_facts (is_leap y2) m1 Hm1) as (_ & _ & _ & Hnext).
      specialize (Hnext m2 ltac:(lia)). lia.
  - intros _.
    pose proof (days_before_year_le (y1 + 1) (Z.to_nat (y2 - (y1 + 1)))) as Hle.
    rewrite Z2Nat.id in Hle by lia.
    replace (y1 + 1 + (y2 - (y1 + 1))) with y2 in Hle by lia.
    rewrite days_before_year_succ in Hle.
    destruct (is_leap y1); lia.
Qed.

Lemma lex_compare_eq3 (y1 m1 d1 y2 m2 d2 : Z) :
  lex_compare [y1; m1; d1] [y2; m2; d2] = Eq -> (y1, m1, d1) = (y2, m2, d2).
Proof.
  cbn [lex_compare].
  destruct (Z.compare_spec y1 y2); try discriminate.
  destruct (Z.compare_spec m1 m2); try discriminate.
  destruct (Z.compare_spec d1 d2); try discriminate.
  intros _. congruence.
Qed.

Lemma lex_compare_gt3 (y1 m1 d1 y2 m2 d2 : Z) :
  lex_compare [y1; m1; d1] [y2; m2; d2] = Gt ->
  lex_compare [y2; m2; d2] [y1; m1; d1] = Lt.
Proof.
  cbn [lex_compare]. rewrite (Z.compare_antisym y1 y2),
    (Z.compare_antisym m1 m2), (Z.compare_antisym d1 d2).
  destruct (y1 ?= y2), (m1 ?= m2), (d1 ?= d2); cbn; congruence.
Qed.

(** Two dates of the calendar with the same day number are the same. *)
Lemma ymd2ord_inj (y1 m1 d1 y2 m2 d2 : Z) :
  1 <= m1 <= 12 -> 1 <= d1 <= days_in_month y1 m1 ->
  1 <= m2 <= 12 -> 1 <= d2 <= days_in_month y2 m2 ->
  ymd2ord y1 m1 d1 = ymd2ord y2 m2 d2 -> (y1, m1, d1) = (y2, m2, d2).
Proof.
  intros Hm1 Hd1 Hm2 Hd2 Heq.
  destruct (lex_compare [y1; m1; d1] [y2; m2; d2]) eqn:E.
  - now apply lex_compare_eq3.
  - pose proof (ymd2ord_lt _ _ _ _ _ _ Hm1 Hd1 Hm2 Hd2 E). lia.
  - apply lex_compare_gt3 in E.
    pose proof (ymd2ord_lt _ _ _ _ _ _ Hm2 Hd2 Hm1 Hd1 E). lia.
Qed.

(** [toordinal] undoes [fromordinal], at every day number. *)
Lemma ymd2ord_ord2ymd (n : Z) :
  let '(y, m, d) := ord2ymd n in ymd2ord y m d = n.
Proof.
  pose proof (ord2ymd_spec n) as (H & _).
  destruct (ord2ymd n) as [[y m] d]. exact H.
Qed.

(** [fromordinal] undoes [toordinal], at every date of the calendar. *)
Lemma ord2ymd_ymd2ord (y m d : Z) :
  1 <= m <= 12 -> 1 <= d <= days_in_month y m ->
  ord2ymd (ymd2ord y m d) = (y, m, d).
Proof.
  intros Hm Hd.
  pose proof (ord2ymd_spec (ymd2ord y m d)) as (H & Hm' & Hd').
  destruct (ord2ymd (ymd2ord y m d)) as [[y' m'] d']. cbn [fst snd] in *.
  now apply ymd2ord_inj.
Qed.


Lemma toordinal_midnight_of_ord (n : Z) : toordinal (midnight_of_ord n) = n.
Proof.
  unfold midnight_of_ord, toordinal. pose proof (ymd2ord_ord2ymd n) as H.
  destruct (ord2ymd n) as [[y m] d]. exact H.
Qed.


(** The day number of a date of the years 2 to 9998 leaves room for a
    week before it and a week after it. *)
Lemma ymd2ord_bounds (y m d : Z) :
  check_date_fields y m d = true ->
  1 <= ymd2ord y m d <= MAXORDINAL
  /\ (1 < y -> 6 < ymd2ord y m d)
  /\ (y < 9999 -> ymd2ord y m d + 4 < MAXORDINAL).
Proof.
  unfold check_date_fields, MINYEAR, MAXYEAR. intros H.
  repeat (apply andb_true_iff in H; destruct H as [H ?]).
  assert (Hm : 1 <= m <= 12) by lia.
  assert (Hd : 1 <= d <= days_in_month y m) by lia.
  pose proof (days_before_month_bounds y m d Hm Hd) as Hb.
  assert (Hy : 1 <= y <= 9999) by lia.
  unfold ymd2ord, days_before_year, MAXORDINAL. cbv zeta.
  pose proof (Z.div_mod (y - 1) 4 ltac:(lia)).
  pose proof (Z.mod_pos_bound (y - 1) 4 ltac:(lia)).
  pose proof (Z.div_mod (y - 1) 100 ltac:(lia)).
  pose proof (Z.mod_pos_bound (y - 1) 100 ltac:(lia)).
  pose proof (Z.div_mod (y - 1) 400 ltac:(lia)).
  pose proof (Z.mod_pos_bound (y - 1) 400 ltac:(lia)).
  destruct (Z.eq_dec y 9999) as [->|Hne].
  - change (is_leap 9999) with false in Hb.
    change ((9999 - 1) / 4) with 2499.
    change ((9999 - 1) / 100) with 99. change ((9999 - 1) / 400) with 24.
    repeat split; intros; lia.
  - destruct (is_leap y); repeat split; intros; lia.
Qed.

End DateOrder.

(** ** The order of datetimes *)

Section DatetimeOrder.
Import Datetime.

Lemma lex_compare_refl (a : list Z) : lex_compare a a = Eq.
Proof.
  induction a as [|x a IH]; simpl; [reflexivity|].
  now rewrite Z.compare_refl.
Qed.

Lemma lex_compare_antisym (a b : list Z) :
  lex_compare b a = CompOpp (lex_compare a b).
Proof.
  revert b. induction a as [|x a IH]; intros [|y b]; simpl; try reflexivity.
  rewrite (Z.compare_antisym x y).
  destruct (x ?= y); simpl; auto.
Qed.

Lemma lex_compare_lt_trans (a b c : list Z) :
  lex_compare a b = Lt -> lex_compare b c = Lt -> lex_compare a c = Lt.
Proof.
  revert b c. induction a as [|x a IH]; intros [|y b] [|z c]; simpl;
    try discriminate; try reflexivity.
  destruct (Z.compare_spec x y), (Z.compare_spec y z), (Z.compare_spec x z);
    intros; subst; try discriminate; try lia; eauto.
Qed.

Lemma lex_compare_eq_l (a b c : list Z) :
  lex_compare a b = Eq -> lex_compare a c = lex_compare b c.
Proof.
  revert b c. induction a as [|x a IH]; intros [|y b] [|z c]; simpl;
    try discriminate; try reflexivity.
  destruct (Z.compare_spec x y); try discriminate. subst.
  intros H. destruct (y ?= z); auto.
Qed.

Lemma lex_compare_eq_r (a b c : list Z) :
  lex_compare b c = Eq -> lex_compare a b = lex_compare a c.
Proof.
  intros H.
  rewrite (lex_compare_antisym b a), (lex_compare_antisym c a).
  f_equal. now apply lex_compare_eq_l.
Qed.


Lemma ltb_leb (a b : datetime) : ltb a b = true -> leb a b = true.
Proof. unfold ltb, leb. destruct (compare a b); congruence. Qed.

Lemma ltb_negb_leb (a b : datetime) : ltb a b = negb (leb b a).
Proof.
  unfold ltb, leb, compare.
  rewrite (lex_compare_antisym (fields a) (fields b)).
  destruct (lex_compare (fields a) (fields b)); reflexivity.
Qed.

Lemma leb_trans (a b c : datetime) :
  leb a b = true -> leb b c = true -> leb a c = true.
Proof.
  unfold leb, compare. intros Hab Hbc.
  destruct (lex_compare (fields a) (fields b)) eqn:E1; try discriminate.
  - now rewrite (lex_compare_eq_l _ _ _ E1).
  - destruct (lex_compare (fields b) (fields c)) eqn:E2; try discriminate.
    + now rewrite <- (lex_compare_eq_r _ _ _ E2), E1.
    + now rewrite (lex_compare_lt_trans _ _ _ E1 E2).
Qed.



End DatetimeOrder.

(** ** Reasoning about runs *)

Section Runs.

Lemma runs_ret {A : Type} (a : A) (w : world) : runs (ret a) w a w.
Proof. reflexivity. Qed.

Lemma runs_bind {A B : Type} (c : M A) (k : A -> M B) (w w1 w2 : world)
      (a : A) (b : B) :
  runs c w a w1 -> runs (k a) w1 b w2 -> runs (bind c k) w b w2.
Proof. unfold runs, bind. intros -> H. exact H. Qed.

Lemma runs_lift {A : Type} (r : result A) (a : A) (w : world) :
  r = Ok a -> runs (lift r) w a w.
Proof. intros ->. reflexivity. Qed.

Lemma runs_now (w : world) :
  runs datetime_now w (local (clock w (ticks w))) (tick w).
Proof. reflexivity. Qed.

Lemma runs_utcnow (w : world) :
  runs datetime_utcnow w (utc (clock w (ticks w))) (tick w).
Proof. reflexivity. Qed.


Lemma runs_randint (a b : Z) (w : world) :
  exists v w', runs (randint a b) w v w' /\ later w w'
               /\ v = a + entropy w (draws w) mod (b - a + 1).
Proof.
  eexists _, _. split; [reflexivity|]. split; [|reflexivity].
  unfold later. cbn. repeat split; auto.
Qed.

Lemma later_refl (w : world) : later w w.
Proof. unfold later. repeat split; auto. Qed.

Lemma later_trans (w1 w2 w3 : world) :
  later w1 w2 -> later w2 w3 -> later w1 w3.
Proof.
  unfold later. intros (?&?&?&?&?) (?&?&?&?&?).
  repeat split; try congruence; lia.
Qed.

Lemma later_tick (w : world) : later w (tick w).
Proof. unfold later, tick. cbn. repeat split; auto. Qed.

Lemma reads_later (w w' : world) (p : Datetime.datetime -> Prop) :
  later w w' -> reads w p -> reads w' p.
Proof.
  unfold later, reads. intros (Hc&_&_&Ht&_) H k Hk.
  rewrite Hc. apply H. lia.
Qed.

Lemma reads_now (w : world) (p : Datetime.datetime -> Prop) :
  reads w p -> p (local (clock w (ticks w))).
Proof. intros H. apply H. lia. Qed.

(** A loop whose every round runs, keeps the invariant [I] and produces
    a value related to its element by [R]. *)
Lemma runs_for_each {A B : Type} (I : world -> Prop) (R : A -> B -> Prop)
      (body : A -> M B) (xs : list A) :
  (forall x w, In x xs -> I w ->
               exists b w', runs (body x) w b w' /\ I w' /\ R x b) ->
  forall w, I w ->
  exists bs w', runs (for_each xs body) w bs w' /\ I w' /\ Forall2 R xs bs.
Proof.
  induction xs as [|x xs IH]; intros Hbody w Hw.
  - exists [], w. repeat split; auto. 
  - destruct (Hbody x w (or_introl eq_refl) Hw) as (b & w1 & Hr & Hw1 & Hb).
    destruct (IH (fun y w Hy => Hbody y w (or_intror Hy)) w1 Hw1)
      as (bs & w2 & Hrs & Hw2 & Hbs).
    exists (b :: bs), w2. repeat split; auto.
    cbn [for_each]. eapply runs_bind; [exact Hr|].
    eapply runs_bind; [exact Hrs|]. apply runs_ret.
Qed.


End Runs.

(** ** Mock weather *)

Section Weather.
Import Datetime.

Lemma add_days_ok (t : datetime) (k : Z) :
  0 < toordinal t + k <= MAXORDINAL ->
  add_days t k = Ok (at_time (midnight_of_ord (toordinal t + k)) t).
Proof.
  intros H. unfold add_days, at_time, midnight_of_ord.
  replace ((0 <? toordinal t + k) && (toordinal t + k <=? MAXORDINAL))
    with true by (symmetry; apply andb_true_iff; split; lia).
  destruct (ord2ymd (toordinal t + k)) as [[y m] d]. reflexivity.
Qed.

Lemma valid_datetime_ordinal (t : datetime) :
  valid_datetime t = true ->
  1 <= toordinal t <= MAXORDINAL
  /\ (1 < year t -> 6 < toordinal t)
  /\ (year t < 9999 -> toordinal t + 4 < MAXORDINAL).
Proof.
  unfold valid_datetime. intros H. apply andb_true_iff in H.
  destruct H as [H _]. exact (ymd2ord_bounds _ _ _ H).
Qed.

Lemma py_index_conditions (j : Z) :
  exists c, py_index conditions (j mod Calendar.len conditions) = Ok c.
Proof.
  change (Calendar.len conditions) with 5.
  pose proof (Z.mod_pos_bound j 5 ltac:(lia)) as Hj.
  assert (Hc : j mod 5 = 0 \/ j mod 5 = 1 \/ j mod 5 = 2 \/ j mod 5 = 3
               \/ j mod 5 = 4) by lia.
  destruct Hc as [-> | [-> | [-> | [-> | ->]]]]; eexists; reflexivity.
Qed.

Lemma in_range (a b x : Z) : In x (Calendar.range a b) -> a <= x < b.
Proof.
  unfold Calendar.range. intros H. apply in_map_iff in H.
  destruct H as (k & <- & Hk). apply in_seq in Hk. lia.
Qed.

Lemma get_mock_weather_runs (w : world) (d h : Z) (c : condition_t) (T : Z) :
  reads w (on_day_at_hour d h) ->
  py_index conditions (d mod Calendar.len conditions) = Ok c ->
  displayed_temperature d h = Ok T ->
  exists r w',
    runs get_mock_weather w r w' /\ later w w'
    /\ w_temperature r = T /\ w_condition r = condition c
    /\ w_icon r = icon c.
Proof.
  intros Hreads Hc HT.
  unfold displayed_temperature in HT. rewrite Hc in HT. cbn [rbind] in HT.
  pose proof (reads_now _ _ Hreads) as (_ & _ & Hd0 & _).
  assert (Hl1 : later w (tick w)) by apply later_tick.
  pose proof (reads_now _ _ (reads_later _ _ _ Hl1 Hreads)) as (_ & _ & _ & Hh1).
  assert (Hl2 : later w (tick (tick w))).
  { eapply later_trans; [exact Hl1|apply later_tick]. }
  destruct (runs_for_each (later w) (fun _ _ => True)
    (fun i =>
       day_condition <-
         lift (py_index conditions ((d mod Calendar.len conditions + i)
                                    mod Calendar.len conditions)) ;;
       t <- datetime_now ;;
       d <- lift (Datetime.add_days t i) ;;
       high <- randint (-2) 2 ;;
       low <- randint (-2) 2 ;;
       ret (mkforecast (Datetime.strftime_a d)
              (snd (temp_range day_condition) + high)
              (fst (temp_range day_condition) + low)
              (icon day_condition)))
    (Calendar.range 0 5)) with (w := tick (tick w))
    as (fc & w3 & Hfc & Hl3 & _); [|exact Hl2|].
  { intros i w1 Hi Hw1. apply in_range in Hi.
    destruct (py_index_conditions (d mod Calendar.len conditions + i)) as [dc Hdc].
    pose proof (reads_now _ _ (reads_later _ _ _ Hw1 Hreads)) as (Hv & Hy & _ & _).
    pose proof (valid_datetime_ordinal _ Hv) as (Ho & _ & Ho4).
    unfold MAXYEAR in Hy. specialize (Ho4 Hy).
    destruct (runs_randint (-2) 2 (tick w1)) as (hi & w2 & Hhi & Hl2' & _).
    destruct (runs_randint (-2) 2 w2) as (lo & w2' & Hlo & Hl2'' & _).
    eexists _, w2'. split; [|split; [|exact I]].
    - eapply runs_bind; [apply runs_lift; exact Hdc|].
      eapply runs_bind; [apply runs_now|].
      eapply runs_bind; [apply runs_lift; apply add_days_ok; lia|].
      eapply runs_bind; [exact Hhi|].
      eapply runs_bind; [exact Hlo|]. apply runs_ret.
    - eapply later_trans; [exact Hw1|].
      eapply later_trans; [apply later_tick|].
      eapply later_trans; eassumption. }
  destruct (runs_randint 0 30 w3) as (hum & w4 & Hhum & Hl4 & _).
  destruct (runs_randint 0 15 w4) as (wind & w5 & Hwind & Hl5 & _).
  eexists _, w5. split; [|split].
  - unfold get_mock_weather.
    eapply runs_bind; [apply runs_now|]. rewrite Hd0.
    eapply runs_bind; [apply runs_lift; exact Hc|].
    destruct (temp_range c) as [temp_min temp_max].
    eapply runs_bind; [apply runs_now|]. rewrite Hh1.
    eapply runs_bind; [exact Hfc|].
    eapply runs_bind; [apply runs_lift; exact HT|].
    eapply runs_bind; [exact Hhum|].
    eapply runs_bind; [exact Hwind|]. apply runs_ret.
  - eapply later_trans; [exact Hl3|]. eapply later_trans; eassumption.
  - cbn. auto.
Qed.
End Weather.

Section WeatherClaims.
Import Datetime.

Lemma temperatures_checked :
  check_from 5 0 (fun i =>
    check_from 24 0 (fun h =>
      temperature_ok i h
      && check_from 24 0 (fun h' => falls_off_ok i h h'))) = true.
Proof. vm_cast_no_check (eq_refl true). Qed.

Lemma temperature_table (i h : Z) :
  0 <= i < 5 -> 0 <= h <= 23 ->
  temperature_ok i h = true
  /\ forall h', 0 <= h' <= 23 -> falls_off_ok i h h' = true.
Proof.
  intros Hi Hh.
  pose proof (check_from_spec 5 _ 0 temperatures_checked i ltac:(cbn; lia)) as H1.
  pose proof (check_from_spec 24 _ 0 H1 h ltac:(cbn; lia)) as H2.
  apply andb_true_iff in H2. destruct H2 as [H2 H3]. split; [exact H2|].
  intros h' Hh'. exact (check_from_spec 24 _ 0 H3 h' ltac:(cbn; lia)).
Qed.

Lemma displayed_temperature_mod (d h : Z) :
  displayed_temperature d h = displayed_temperature (d mod 5) h.
Proof.
  unfold displayed_temperature. change (Calendar.len conditions) with 5.
  now rewrite Z.mod_mod by lia.
Qed.

Lemma valid_datetime_hour (t : datetime) :
  valid_datetime t = true -> 0 <= hour t <= 23.
Proof.
  unfold valid_datetime, check_time_fields. intros H.
  repeat (apply andb_true_iff in H; destruct H as [H ?]).
  repeat match goal with
         | H : (_ && _) = true |- _ => apply andb_true_iff in H; destruct H
         end. lia.
Qed.

(** What the table says about one day of the month and one hour. *)
Lemma temperature_facts (d h : Z) :
  0 <= h <= 23 ->
  exists c T,
    py_index conditions (d mod Calendar.len conditions) = Ok c
    /\ displayed_temperature d h = Ok T
    /\ nearest_integer T
         (exact_temperature (fst (temp_range c)) (snd (temp_range c)) h)
    /\ fst (temp_range c) <= T <= snd (temp_range c)
    /\ fst (temp_range c) + snd (temp_range c) <= 2 * T
    /\ (h = 14 -> T = snd (temp_range c))
    /\ PrimFloat.leb 0.5 (hour_factor h) = true
    /\ PrimFloat.leb (hour_factor h) 1 = true
    /\ forall h' T', 0 <= h' <= 23 ->
         displayed_temperature d h' = Ok T' ->
         Z.abs (14 - h) <= Z.abs (14 - h') -> T' <= T.
Proof.
  intros Hh.
  pose proof (Z.mod_pos_bound d 5 ltac:(lia)) as Hi.
  destruct (temperature_table (d mod 5) h Hi Hh) as [Hok Hfall].
  unfold temperature_ok in Hok.
  rewrite <- (displayed_temperature_mod d h) in Hok.
  change (Calendar.len conditions) with 5.
  destruct (py_index conditions (d mod 5)) as [c|] eqn:Ec; [|discriminate].
  destruct (displayed_temperature d h) as [T|] eqn:ET; [|discriminate].
  destruct (temp_range c) as [mn mx] eqn:Er.
  repeat (apply andb_true_iff in Hok; destruct Hok as [Hok ?]).
  exists c, T. rewrite Er. cbn [fst snd].
  repeat split; try lia; auto.
  - unfold nearest_integer. now apply Qle_bool_iff.
  - intros h' T' Hh' ET' Hle.
    specialize (Hfall h' Hh'). unfold falls_off_ok in Hfall.
    rewrite <- !displayed_temperature_mod in Hfall.
    rewrite ET, ET' in Hfall.
    replace (Z.abs (14 - h) <=? Z.abs (14 - h')) with true in Hfall
      by (symmetry; apply Z.leb_le; exact Hle).
    cbn [implb] in Hfall. lia.
Qed.


Lemma sample_world_reads (seed : Z) (db0 : database) :
  reads (sample_world seed db0) (on_day_at_hour 10 15).
Proof. intros k _. repeat split. Qed.

End WeatherClaims.

(** C6.  Two invocations of the weather generator on the same day of the
    month and within the same hour return the same condition name, the
    same icon and the same rounded temperature, whatever the random source
    yields; the humidity, the wind and the forecast highs and lows can
    differ between two such invocations. *)
Theorem weather_stable_within_hour :
  (forall (w1 w2 : world) (d h : Z),
      reads w1 (on_day_at_hour d h) -> reads w2 (on_day_at_hour d h) ->
      exists r1 w1' r2 w2',
        runs get_mock_weather w1 r1 w1' /\ runs get_mock_weather w2 r2 w2'
        /\ w_condition r1 = w_condition r2
        /\ w_icon r1 = w_icon r2
        /\ w_temperature r1 = w_temperature r2)
  /\ (exists r1 w1' r2 w2',
        runs get_mock_weather (sample_world 0 empty_db) r1 w1'
        /\ runs get_mock_weather (sample_world 3 empty_db) r2 w2'
        /\ w_humidity r1 <> w_humidity r2
        /\ w_wind r1 <> w_wind r2
        /\ map fc_high (w_forecast r1) <> map fc_high (w_forecast r2)
        /\ map fc_low (w_forecast r1) <> map fc_low (w_forecast r2)).
Proof.
  split.
  - intros w1 w2 d h H1 H2.
    pose proof (reads_now _ _ H1) as (Hv & _ & _ & Hh).
    pose proof (valid_datetime_hour _ Hv) as Hrange. rewrite Hh in Hrange.
    destruct (temperature_facts d h Hrange) as (c & T & Hc & HT & _).
    destruct (get_mock_weather_runs w1 d h c T H1 Hc HT)
      as (r1 & w1' & Hr1 & _ & Ht1 & Hc1 & Hi1).
    destruct (get_mock_weather_runs w2 d h c T H2 Hc HT)
      as (r2 & w2' & Hr2 & _ & Ht2 & Hc2 & Hi2).
    exists r1, w1', r2, w2'. repeat split; auto; congruence.
  - eexists _, _, _, _. unfold runs.
    split; [lazy; reflexivity|]. split; [lazy; reflexivity|].
    cbn. repeat split; discriminate.
Qed.

Lemma weather_stable_within_hour_witness :
  exists r1 w1' r2 w2',
    runs get_mock_weather (sample_world 0 empty_db) r1 w1'
    /\ runs get_mock_weather (sample_world 3 empty_db) r2 w2'
    /\ w_condition r1 = w_condition r2
    /\ w_icon r1 = w_icon r2
    /\ w_temperature r1 = w_temperature r2.
Proof.
  apply (proj1 weather_stable_within_hour _ _ 10 15);
    intros k Hk; repeat split.
Defined.

(** C7.  At every hour of the day the displayed temperature is an integer
    nearest to min + (max - min) * (0.5 + 0.5 * (1 - |14 - h| / 14)) over
    the range of the day's condition; at hour 14 it is the maximum of the
    range, two hours equally far from 14 show the same temperature, and an
    hour farther from 14 never shows a higher one. *)
Theorem temperature_follows_hour_curve (d h : Z) :
  0 <= h <= 23 ->
  exists c T,
    py_index conditions (d mod Calendar.len conditions) = Ok c
    /\ displayed_temperature d h = Ok T
    /\ (forall w, reads w (on_day_at_hour d h) ->
          exists r w', runs get_mock_weather w r w' /\ w_temperature r = T)
    /\ nearest_integer T
         (exact_temperature (fst (temp_range c)) (snd (temp_range c)) h)
    /\ (h = 14 -> T = snd (temp_range c))
    /\ (forall h' T', 0 <= h' <= 23 -> displayed_temperature d h' = Ok T' ->
          (Z.abs (14 - h') = Z.abs (14 - h) -> T' = T)
          /\ (Z.abs (14 - h) <= Z.abs (14 - h') -> T' <= T)).
Proof.
  intros Hh.
  destruct (temperature_facts d h Hh)
    as (c & T & Hc & HT & Hnear & _ & _ & H14 & _ & _ & Hfall).
  exists c, T. repeat split; auto.
  - intros w Hw.
    destruct (get_mock_weather_runs w d h c T Hw Hc HT) as (r & w' & Hr & _ & Ht & _).
    now exists r, w'.
  - intros Heq.
    destruct (temperature_facts d h' H)
      as (c' & T'' & _ & HT'' & _ & _ & _ & _ & _ & _ & Hfall').
    assert (T'' = T') by congruence. subst T''.
    pose proof (Hfall h' T' H H0 ltac:(lia)).
    pose proof (Hfall' h T Hh HT ltac:(lia)). lia.
  - intros Hle. exact (Hfall h' T' H H0 Hle).
Qed.

Lemma temperature_follows_hour_curve_witness :
  exists c T,
    py_index conditions (10 mod Calendar.len conditions) = Ok c
    /\ displayed_temperature 10 15 = Ok T
    /\ (forall w, reads w (on_day_at_hour 10 15) ->
          exists r w', runs get_mock_weather w r w' /\ w_temperature r = T)
    /\ nearest_integer T
         (exact_temperature (fst (temp_range c)) (snd (temp_range c)) 15)
    /\ (15 = 14 -> T = snd (temp_range c))
    /\ (forall h' T', 0 <= h' <= 23 -> displayed_temperature 10 h' = Ok T' ->
          (Z.abs (14 - h') = Z.abs (14 - 15) -> T' = T)
          /\ (Z.abs (14 - 15) <= Z.abs (14 - h') -> T' <= T)).
Proof. apply (temperature_follows_hour_curve 10 15). lia. Defined.

(** C10.  On every day of the month and at every hour of the day the
    rounded temperature lies within the range of the day's condition and
    is not below the midpoint of that range; the hour factor
    0.5 + 0.5 * (1 - |14 - h| / 14) lies between 0.5 and 1. *)
Theorem temperature_within_range (d h : Z) :
  0 <= h <= 23 ->
  exists c T,
    py_index conditions (d mod Calendar.len conditions) = Ok c
    /\ displayed_temperature d h = Ok T
    /\ (forall w, reads w (on_day_at_hour d h) ->
          exists r w', runs get_mock_weather w r w' /\ w_temperature r = T)
    /\ fst (temp_range c) <= T <= snd (temp_range c)
    /\ fst (temp_range c) + snd (temp_range c) <= 2 * T
    /\ temperature_at (fst (temp_range c)) (snd (temp_range c)) h
       = (PyFloat.of_int (fst (temp_range c))
          + PyFloat.of_int (snd (temp_range c) - fst (temp_range c))
            * hour_factor h)%float
    /\ PrimFloat.leb 0.5 (hour_factor h) = true
    /\ PrimFloat.leb (hour_factor h) 1 = true.
Proof.
  intros Hh.
  destruct (temperature_facts d h Hh)
    as (c & T & Hc & HT & _ & Hin & Hmid & _ & Hlo & Hhi & _).
  exists c, T. repeat split; auto; try lia.
  intros w Hw.
  destruct (get_mock_weather_runs w d h c T Hw Hc HT) as (r & w' & Hr & _ & Ht & _).
  now exists r, w'.
Qed.

Lemma temperature_within_range_witness :
  exists c T,
    py_index conditions (31 mod Calendar.len conditions) = Ok c
    /\ displayed_temperature 31 0 = Ok T
    /\ (forall w, reads w (on_day_at_hour 31 0) ->
          exists r w', runs get_mock_weather w r w' /\ w_temperature r = T)
    /\ fst (temp_range c) <= T <= snd (temp_range c)
    /\ fst (temp_range c) + snd (temp_range c) <= 2 * T
    /\ temperature_at (fst (temp_range c)) (snd (temp_range c)) 0
       = (PyFloat.of_int (fst (temp_range c))
          + PyFloat.of_int (snd (temp_range c) - fst (temp_range c))
            * hour_factor 0)%float
    /\ PrimFloat.leb 0.5 (hour_factor 0) = true
    /\ PrimFloat.leb (hour_factor 0) 1 = true.
Proof. apply (temperature_within_range 31 0). lia. Defined.

(** ** Notes: creation and update times *)

Section NotesLife.

Lemma notes_inv_in_order (w : world) :
  notes_inv w -> forall n, In n (notes (db w)) -> note_in_order n.
Proof.
  intros H n Hn. destruct (H n Hn) as (c & u & Hc & Hu & Hle & _).
  exists c, u. auto.
Qed.

Lemma insert_note_inv (title : string) (content : option string)
      (color : string) (w : world) :
  monotone_clock w -> notes_inv w ->
  notes_inv (snd (insert_note title content color w))
  /\ clock (snd (insert_note title content color w)) = clock w.
Proof.
  intros Hm Hinv. cbn. split; [|reflexivity].
  intros n Hn. cbn in Hn. apply in_app_iff in Hn. destruct Hn as [Hn|[<-|[]]].
  - destruct (Hinv n Hn) as (c & u & Hc & Hu & Hle & Hk).
    exists c, u. repeat split; auto. intros k Hk'. apply Hk. cbn in Hk'. lia.
  - eexists _, _. cbn. repeat split.
    + apply Hm. lia.
    + intros k Hk. apply Hm. cbn in Hk. lia.
Qed.

Lemma add_note_inv (data : NoteData.t) (w : world) :
  monotone_clock w -> notes_inv w ->
  notes_inv (snd (add_note data w)) /\ clock (snd (add_note data w)) = clock w.
Proof.
  intros Hm Hinv.
  exact (insert_note_inv (dict_get (NoteData.title data) "Untitled"%string)
           (Some (dict_get (NoteData.content data) EmptyString))
           (dict_get (NoteData.color data) "primary"%string) w Hm Hinv).
Qed.

Lemma get_note_world (i : Z) (w : world) : snd (get_note i w) = w.
Proof.
  unfold get_note, bind, get_db, get_or_404.
  destruct (find _ _); reflexivity.
Qed.

Lemma datetime_eqb_eq (a b : Datetime.datetime) :
  Datetime.eqb a b = true <-> a = b.
Proof.
  split.
  - destruct a, b. unfold Datetime.eqb, Datetime.compare, Datetime.fields.
    cbn [Datetime.lex_compare Datetime.year Datetime.month Datetime.day
         Datetime.hour Datetime.minute Datetime.second Datetime.microsecond].
    repeat match goal with
           | |- context [?x ?= ?y] =>
               destruct (Z.compare_spec x y); try discriminate
           end.
    intros _. congruence.
  - intros ->. unfold Datetime.eqb, Datetime.compare.
    now rewrite lex_compare_refl.
Qed.

Lemma opt_eqb_eq {A : Type} (eqb : A -> A -> bool) (a b : option A) :
  (forall x y, eqb x y = true <-> x = y) ->
  opt_eqb eqb a b = true <-> a = b.
Proof.
  intros H. destruct a as [x|], b as [y|]; cbn; try (split; congruence).
  rewrite H. split; congruence.
Qed.

Lemma update_note_found (i : Z) (data : NoteData.t) (w : world) (note : Note.t) :
  find (fun r => Note.id r =? i) (notes (db w)) = Some note ->
  (Note.updated_at note <> Some (utc (clock w (ticks w)))
   /\ update_note i data w
      = (Ok (note_with note data (utc (clock w (ticks w)))),
         note_stored w 1 i (note_with note data (utc (clock w (ticks w))))))
  \/ (Note.updated_at note = Some (utc (clock w (ticks w)))
      /\ ~ same_columns note data
      /\ update_note i data w
         = (Ok (note_with note data (utc (clock w (S (ticks w))))),
            note_stored w 2 i (note_with note data (utc (clock w (S (ticks w)))))))
  \/ (Note.updated_at note = Some (utc (clock w (ticks w)))
      /\ same_columns note data
      /\ note_with note data (utc (clock w (ticks w))) = note
      /\ update_note i data w = (Ok note, tick w)).
Proof.
  intros Ef. unfold update_note, bind, get_db, get_or_404. rewrite Ef.
  unfold ret, datetime_utcnow, commit. cbv beta iota zeta.
  change (ticks (tick w)) with (S (ticks w)). change (clock (tick w)) with (clock w).
  destruct (opt_eqb Datetime.eqb (Note.updated_at note)
              (Some (utc (clock w (ticks w))))) eqn:E; cbn [negb].
  2:{ left. split; [|reflexivity].
      intros H. apply (opt_eqb_eq _ _ _ datetime_eqb_eq) in H. congruence. }
  apply (opt_eqb_eq _ _ _ datetime_eqb_eq) in E. right.
  destruct (String.eqb (dict_get (NoteData.title data) (Note.title note))
              (Note.title note)) eqn:Et; cbn [negb orb].
  2:{ left. split; [exact E|]. split; [|reflexivity].
      intros (H & _). apply String.eqb_eq in H. congruence. }
  destruct (opt_eqb String.eqb
              match NoteData.content data with
              | Some c => Some c
              | None => Note.content note
              end (Note.content note)) eqn:Ec; cbn [negb orb].
  2:{ left. split; [exact E|]. split; [|reflexivity].
      intros (_ & H & _). apply (opt_eqb_eq _ _ _ String.eqb_eq) in H. congruence. }
  destruct (String.eqb (dict_get (NoteData.color data) (Note.color note))
              (Note.color note)) eqn:Ek; cbn [negb orb].
  2:{ left. split; [exact E|]. split; [|reflexivity].
      intros (_ & _ & H). apply String.eqb_eq in H. congruence. }
  right. apply String.eqb_eq in Et, Ek.
  apply (opt_eqb_eq _ _ _ String.eqb_eq) in Ec.
  split; [exact E|]. split; [now repeat split|]. split; [|reflexivity].
  unfold note_with. rewrite Et, Ec, Ek, <- E. now destruct note.
Qed.

Lemma note_stored_inv (w : world) (j k : nat) (i : Z) (note : Note.t)
      (data : NoteData.t) :
  notes_inv w -> In note (notes (db w)) -> (j < k)%nat ->
  notes_inv (note_stored w k i (note_with note data (utc (clock w (j + ticks w))))).
Proof.
  intros Hinv Hin Hjk n Hn. cbn in Hn. apply in_map_iff in Hn.
  destruct Hn as (n0 & Hn0 & Hin0).
  destruct (Note.id n0 =? i).
  - subst n. destruct (Hinv note Hin) as (c & u & Hc & Hu & Hle & Hk).
    exists c, (utc (clock w (j + ticks w))). cbn. repeat split; auto.
    + apply Hk. lia.
    + intros k' Hk'. apply Hk. lia.
  - subst n0. destruct (Hinv n Hin0) as (c' & u' & Hc' & Hu' & Hle' & Hk').
    exists c', u'. repeat split; auto. intros k'' Hk''. apply Hk'. cbn in Hk''. lia.
Qed.

Lemma update_note_inv (i : Z) (data : NoteData.t) (w : world) :
  notes_inv w ->
  notes_inv (snd (update_note i data w))
  /\ clock (snd (update_note i data w)) = clock w.
Proof.
  intros Hinv.
  destruct (find (fun r => Note.id r =? i) (notes (db w))) as [note|] eqn:Ef.
  2:{ unfold update_note, bind, get_db, get_or_404. rewrite Ef. cbn. auto. }
  pose proof (find_some _ _ Ef) as [Hin _].
  destruct (update_note_found i data w note Ef)
    as [(_ & ->)|[(_ & _ & ->)|(_ & _ & _ & ->)]]; cbn [snd];
    (split; [|reflexivity]).
  - apply (note_stored_inv w 0 1); auto.
  - apply (note_stored_inv w 1 2); auto.
  - intros n Hn. destruct (Hinv n Hn) as (c & u & Hc & Hu & Hle & Hk).
    exists c, u. repeat split; auto. intros k Hk'. apply Hk. cbn in Hk'. lia.
Qed.

Lemma delete_note_inv (i : Z) (w : world) :
  notes_inv w ->
  notes_inv (snd (delete_note i w))
  /\ clock (snd (delete_note i w)) = clock w.
Proof.
  intros Hinv. unfold delete_note, bind, get_db, get_or_404.
  destruct (find (fun r => Note.id r =? i) (notes (db w))) as [note|] eqn:Ef.
  2:{ cbn. auto. }
  cbn. split; [|reflexivity].
  intros n Hn. cbn in Hn. apply filter_In in Hn. destruct Hn as [Hn _].
  exact (Hinv n Hn).
Qed.

Lemma monotone_clock_same (w w' : world) :
  clock w' = clock w -> monotone_clock w -> monotone_clock w'.
Proof. unfold monotone_clock. intros -> H. exact H. Qed.

Lemma bind_keeps {A B : Type} (P : world -> Prop) (c : M A) (k : A -> M B)
      (w : world) :
  P (snd (c w)) -> (forall a w1, P w1 -> P (snd (k a w1))) ->
  P (snd (bind c k w)).
Proof.
  unfold bind. intros Hc Hk. destruct (c w) as [[a|e] w1]; cbn in *; auto.
Qed.

Lemma init_sample_notes_inv (w : world) :
  monotone_clock w -> notes_inv w ->
  notes_inv (snd (init_sample_notes w))
  /\ clock (snd (init_sample_notes w)) = clock w.
Proof.
  intros Hm Hinv.
  set (P := fun w' : world => notes_inv w' /\ clock w' = clock w).
  assert (Hins : forall t c k w1, P w1 -> P (snd (insert_note t c k w1))).
  { intros t c k w1 [H1 C1].
    destruct (insert_note_inv t c k w1 (monotone_clock_same _ _ C1 Hm) H1)
      as [H2 C2].
    split; [exact H2|congruence]. }
  assert (Hw : P w) by (split; auto).
  change (P (snd (init_sample_notes w))). unfold init_sample_notes.
  apply bind_keeps; [exact Hw|]. intros d w1 H1.
  destruct (count (notes d) =? 0); [|exact H1].
  apply bind_keeps; [apply Hins; exact H1|].
  intros _ w2 H2.
  apply bind_keeps; [apply Hins; exact H2|].
  intros _ w3 H3.
  apply bind_keeps; [apply Hins; exact H3|].
  intros _ w4 H4. exact H4.
Qed.

Lemma serve_inv (r : note_request) (w : world) :
  monotone_clock w -> notes_inv w ->
  notes_inv (serve r w) /\ monotone_clock (serve r w).
Proof.
  intros Hm Hinv.
  assert (H : notes_inv (serve r w) /\ clock (serve r w) = clock w).
  { destruct r as [data|i|i data|i|]; cbn [serve].
    - now apply add_note_inv.
    - rewrite get_note_world. auto.
    - now apply update_note_inv.
    - now apply delete_note_inv.
    - now apply init_sample_notes_inv. }
  destruct H as [H C]. split; [exact H|].
  exact (monotone_clock_same _ _ C Hm).
Qed.

Lemma serve_all_inv (rs : list note_request) (w : world) :
  monotone_clock w -> notes_inv w ->
  notes_inv (serve_all rs w) /\ monotone_clock (serve_all rs w).
Proof.
  revert w. induction rs as [|r rs IH]; intros w Hm Hinv; [cbn; auto|].
  cbn [serve_all fold_left].
  destruct (serve_inv r w Hm Hinv) as [H1 H2].
  exact (IH (serve r w) H2 H1).
Qed.

Lemma find_map_replace (i : Z) (note' : Note.t) (l : list Note.t) (note : Note.t) :
  Note.id note' = i ->
  find (fun r => Note.id r =? i) l = Some note ->
  find (fun r => Note.id r =? i)
       (map (fun n => if Note.id n =? i then note' else n) l) = Some note'.
Proof.
  intros Hid. induction l as [|x l IH]; [discriminate|].
  cbn [find map]. destruct (Note.id x =? i) eqn:E.
  - intros _. rewrite Hid, Z.eqb_refl. reflexivity.
  - rewrite E. exact IH.
Qed.


Lemma get_note_find (i : Z) (w : world) (note : Note.t) :
  fst (get_note i w) = Ok note ->
  find (fun r => Note.id r =? i) (notes (db w)) = Some note.
Proof.
  unfold get_note, bind, get_db, get_or_404.
  destruct (find _ _) as [n|]; cbn; congruence.
Qed.

Lemma ticking_clock_monotone : monotone_clock ticking_world.
Proof.
  intros i j Hij. unfold Datetime.leb, Datetime.compare. cbn.
  destruct (Z.compare_spec (Z.min (Z.of_nat i) 59) (Z.min (Z.of_nat j) 59));
    try reflexivity. lia.
Qed.

End NotesLife.

(** C9, counterexample.  The clock is set back by an hour between the
    creation of a note and its update: the note is then stored with
    [updated_at] an hour before [created_at]. *)
Lemma note_updated_before_created_after_clock_set_back :
  exists note,
    fst (get_note 1 (serve_all set_back_requests set_back_world)) = Ok note
    /\ In note (notes (db (serve_all set_back_requests set_back_world)))
    /\ Note.created_at note = Some (Datetime.mkdatetime 2024 6 10 15 0 0 0)
    /\ Note.updated_at note = Some (Datetime.mkdatetime 2024 6 10 14 0 0 0)
    /\ ~ note_in_order note.
Proof.
  eexists. split; [reflexivity|]. split; [left; reflexivity|].
  split; [reflexivity|]. split; [reflexivity|].
  intros (c & u & Hc & Hu & Hle). cbn in Hc, Hu.
  injection Hc as <-. injection Hu as <-. discriminate Hle.
Qed.

(** C9, as amended.  With a UTC clock that never steps back, every note
    stored after any sequence of requests has [updated_at >= created_at]:
    a note just created has it, [created_at] being read before
    [updated_at]; and an update returns the note as stored, with the
    [created_at] it had and with [updated_at] a reading of the clock
    taken during the request: the reading the handler assigns when it
    differs from the stored [updated_at], and otherwise that reading or
    the next one; again not before [created_at]. *)
Theorem note_updated_at_not_before_created_at
        (w : world) (rs : list note_request) :
  monotone_clock w -> notes (db w) = [] ->
  (forall n, In n (notes (db (serve_all rs w))) -> note_in_order n)
  /\ (forall data, exists note,
        fst (add_note data (serve_all rs w)) = Ok (note, 201)
        /\ In note (notes (db (snd (add_note data (serve_all rs w)))))
        /\ Note.created_at note
           = Some (utc (clock (serve_all rs w) (ticks (serve_all rs w))))
        /\ Note.updated_at note
           = Some (utc (clock (serve_all rs w) (S (ticks (serve_all rs w)))))
        /\ note_in_order note)
  /\ (forall i data note,
        fst (get_note i (serve_all rs w)) = Ok note ->
        exists note',
          fst (update_note i data (serve_all rs w)) = Ok note'
          /\ fst (get_note i (snd (update_note i data (serve_all rs w))))
             = Ok note'
          /\ Note.id note' = Note.id note
          /\ Note.created_at note' = Note.created_at note
          /\ (Note.updated_at note'
              = Some (utc (clock (serve_all rs w) (ticks (serve_all rs w))))
              \/ Note.updated_at note'
                 = Some (utc (clock (serve_all rs w)
                                (S (ticks (serve_all rs w))))))
          /\ (Note.updated_at note
              <> Some (utc (clock (serve_all rs w) (ticks (serve_all rs w)))) ->
              Note.updated_at note'
              = Some (utc (clock (serve_all rs w) (ticks (serve_all rs w)))))
          /\ note_in_order note').
Proof.
  intros Hm Hempty.
  assert (Hinv0 : notes_inv w) by (intros n Hn; rewrite Hempty in Hn; destruct Hn).
  destruct (serve_all_inv rs w Hm Hinv0) as [Hinv Hmono].
  set (w' := serve_all rs w) in *.
  split; [|split].
  - exact (notes_inv_in_order w' Hinv).
  - intros data.
    destruct (add_note_inv data w' Hmono Hinv) as [Hinv' _].
    eexists. split; [reflexivity|].
    assert (Hin : In (Note.mk (next_id (map Note.id (notes (db w'))))
                        (dict_get (NoteData.title data) "Untitled"%string)
                        (Some (dict_get (NoteData.content data) EmptyString))
                        (dict_get (NoteData.color data) "primary"%string)
                        (Some (utc (clock w' (ticks w'))))
                        (Some (utc (clock w' (S (ticks w'))))))
                     (notes (db (snd (add_note data w'))))).
    { cbn. apply in_app_iff. right. left. reflexivity. }
    split; [exact Hin|]. split; [reflexivity|]. split; [reflexivity|].
    exact (notes_inv_in_order _ Hinv' _ Hin).
  - intros i data note Hget. apply get_note_find in Hget.
    destruct (update_note_inv i data w' Hinv) as [Hinv' _].
    pose proof (find_some _ _ Hget) as [Hin Hid]. apply Z.eqb_eq in Hid.
    assert (Hstored : forall k t,
               In (note_with note data t)
                  (notes (db (note_stored w' k i (note_with note data t))))).
    { intros k t. cbn. apply in_map_iff. exists note. split; [|exact Hin].
      rewrite Hid, Z.eqb_refl. reflexivity. }
    assert (Hfound : forall k t,
               fst (get_note i (note_stored w' k i (note_with note data t)))
               = Ok (note_with note data t)).
    { intros k t. unfold get_note, bind, get_db, get_or_404. cbn.
      erewrite find_map_replace; [reflexivity|exact Hid|exact Hget]. }
    destruct (update_note_found i data w' note Hget)
      as [(Hne & E)|[(He & _ & E)|(He & _ & _ & E)]];
      rewrite E in *; cbn [fst snd] in *.
    + exists (note_with note data (utc (clock w' (ticks w')))).
      split; [reflexivity|]. split; [apply Hfound|].
      split; [reflexivity|]. split; [reflexivity|]. split; [now left|].
      split; [reflexivity|].
      exact (notes_inv_in_order _ Hinv' _ (Hstored _ _)).
    + exists (note_with note data (utc (clock w' (S (ticks w'))))).
      split; [reflexivity|]. split; [apply Hfound|].
      split; [reflexivity|]. split; [reflexivity|]. split; [now right|].
      split; [intros Hne; now elim Hne|].
      exact (notes_inv_in_order _ Hinv' _ (Hstored _ _)).
    + exists note. split; [reflexivity|]. split.
      { unfold get_note, bind, get_db, get_or_404. cbn [tick db].
        now rewrite Hget. }
      split; [reflexivity|]. split; [reflexivity|]. split; [now left|].
      split; [intros Hne; now elim Hne|].
      exact (notes_inv_in_order _ Hinv' _ Hin).
Qed.

Lemma note_updated_at_not_before_created_at_witness :
  (forall n, In n (notes (db (serve_all sample_note_requests ticking_world))) ->
             note_in_order n)
  /\ (forall i data note,
        fst (get_note i (serve_all sample_note_requests ticking_world)) = Ok note ->
        exists note',
          fst (update_note i data (serve_all sample_note_requests ticking_world))
          = Ok note'
          /\ Note.created_at note' = Note.created_at note
          /\ note_in_order note').
Proof.
  destruct (note_updated_at_not_before_created_at ticking_world
              sample_note_requests ticking_clock_monotone eq_refl)
    as (Hall & _ & Hupd).
  split; [exact Hall|].
  intros i data note Hget.
  destruct (Hupd i data note Hget) as (note' & H1 & _ & _ & H4 & _ & _ & H7).
  exists note'. auto.
Defined.

(** ** Create requests *)

Section CreateRequests.

Section Bounds.
Import Strptime.

Lemma digit_range (c : ascii) (v : Z) : digit c = Some v -> 0 <= v <= 9.
Proof.
  unfold digit. destruct (_ && _) eqn:E; [|discriminate].
  intros [= <-]. lia.
Qed.

Lemma digit_in_range (lo hi : Z) (c : ascii) (v : Z) :
  digit_in lo hi c = Some v -> 0 <= v <= 9.
Proof.
  unfold digit_in. destruct (digit c) as [x|] eqn:E; [|discriminate].
  destruct (_ && _); [|discriminate]. intros [= <-]. exact (digit_range _ _ E).
Qed.

Lemma blank_range (c : ascii) (v : Z) : blank c = Some v -> 0 <= v <= 9.
Proof. unfold blank. destruct (Ascii.eqb _ _); [|discriminate]. intros [= <-]. lia. Qed.

Lemma alt2_range (f g : ascii -> option Z) (s : list ascii) (x : Z) (r : list ascii) :
  (forall c v, f c = Some v -> 0 <= v <= 9) ->
  (forall c v, g c = Some v -> 0 <= v <= 9) ->
  In (x, r) (alt2 f g s) -> 0 <= x <= 99.
Proof.
  intros Hf Hg. unfold alt2. destruct s as [|a [|b s]]; try (intros []).
  destruct (f a) as [u|] eqn:Ea; [|intros []].
  destruct (g b) as [v|] eqn:Eb; [|intros []].
  intros [[= <- <-]|[]]. specialize (Hf _ _ Ea). specialize (Hg _ _ Eb). lia.
Qed.

Lemma alt1_range (f : ascii -> option Z) (s : list ascii) (x : Z) (r : list ascii) :
  (forall c v, f c = Some v -> 0 <= v <= 9) ->
  In (x, r) (alt1 f s) -> 0 <= x <= 99.
Proof.
  intros Hf. unfold alt1. destruct s as [|a s]; try (intros []).
  destruct (f a) as [u|] eqn:Ea; [|intros []].
  intros [[= <- <-]|[]]. specialize (Hf _ _ Ea). lia.
Qed.

Lemma re_m_range (s : list ascii) (x : Z) (r : list ascii) :
  In (x, r) (re_m s) -> 0 <= x <= 99.
Proof.
  unfold re_m. rewrite !in_app_iff.
  intros [H|[H|H]];
    first [ eapply alt2_range in H; [exact H|apply digit_in_range|apply digit_in_range]
          | eapply alt1_range in H; [exact H|apply digit_in_range] ].
Qed.

Lemma re_d_range (s : list ascii) (x : Z) (r : list ascii) :
  In (x, r) (re_d s) -> 0 <= x <= 99.
Proof.
  unfold re_d. rewrite !in_app_iff.
  intros [H|[H|[H|[H|H]]]];
    first [ eapply alt2_range in H; [exact H|apply digit_in_range|apply digit_in_range]
          | eapply alt1_range in H; [exact H|apply digit_in_range]
          | eapply alt2_range in H; [exact H|apply blank_range|apply digit_in_range] ].
Qed.

Lemma first_match_some {A B : Type} (alts : list A) (k : A -> option B) (b : B) :
  first_match alts k = Some b -> exists a, In a alts /\ k a = Some b.
Proof.
  induction alts as [|a alts IH]; [discriminate|]. cbn [first_match].
  destruct (k a) as [b'|] eqn:E.
  - intros [= <-]. exists a. split; [now left|exact E].
  - intros H. destruct (IH H) as (a' & Hin & Ha'). exists a'. split; [now right|exact Ha'].
Qed.

Lemma re_match_range (s : list ascii) (y m d : Z) (rest : list ascii) :
  re_match s = Some (y, m, d, rest) ->
  0 <= y <= 9999 /\ 0 <= m <= 99 /\ 0 <= d <= 99.
Proof.
  unfold re_match. destruct (re_Y s) as [[y0 r0]|] eqn:Ey; [|discriminate].
  destruct (dash r0) as [r1|]; [|discriminate].
  intros H. apply first_match_some in H. destruct H as ([m0 r2] & Hm & H).
  destruct (dash r2) as [r3|]; [|discriminate].
  apply first_match_some in H. destruct H as ([d0 r4] & Hd & H).
  injection H as <- <- <- <-.
  apply re_m_range in Hm. apply re_d_range in Hd.
  split; [|split; assumption].
  unfold re_Y in Ey. destruct s as [|a [|b [|c [|e s]]]]; try discriminate.
  destruct (digit a) as [va|] eqn:Ea; [|discriminate].
  destruct (digit b) as [vb|] eqn:Eb; [|discriminate].
  destruct (digit c) as [vc|] eqn:Ec; [|discriminate].
  destruct (digit e) as [ve|] eqn:Ee; [|discriminate].
  injection Ey as <- <-.
  apply digit_range in Ea, Eb, Ec, Ee. lia.
Qed.

End Bounds.

Lemma datetime_new_fitting (y m d : Z) (e : exn) :
  Datetime.fits_c_int y && Datetime.fits_c_int m && Datetime.fits_c_int d = true ->
  Datetime.datetime_new y m d = Raise e -> e = ValueError.
Proof.
  unfold Datetime.datetime_new. intros ->. cbn [negb].
  destruct (Datetime.check_date_fields y m d); congruence.
Qed.

Lemma strptime_raises (text : string) (e : exn) :
  Strptime.strptime text = Raise e -> e = ValueError.
Proof.
  unfold Strptime.strptime.
  destruct (Strptime.re_match _) as [[[[y m] d] [|c rest]]|] eqn:E;
    try congruence.
  apply re_match_range in E. apply datetime_new_fitting.
  unfold Datetime.fits_c_int. lia.
Qed.
Example strptime_malformed :
  Strptime.strptime "2024-13-45" = Raise ValueError
  /\ Strptime.strptime "2024-02-30" = Raise ValueError
  /\ Strptime.strptime "10/06/2024" = Raise ValueError
  /\ Strptime.strptime "tomorrow" = Raise ValueError
  /\ Strptime.strptime EmptyString = Raise ValueError.
Proof. repeat split. Qed.

Example strptime_well_formed :
  Strptime.strptime "2024-06-10" = Ok (Datetime.mkdatetime 2024 6 10 0 0 0 0)
  /\ Strptime.strptime "2024-6-1" = Ok (Datetime.mkdatetime 2024 6 1 0 0 0 0).
Proof. repeat split. Qed.

End CreateRequests.

(** C2, counterexample.  A todo whose task is empty or absent and a
    pomodoro session of zero or negative duration are not rejected: each
    request succeeds and adds a record. *)
Lemma invalid_create_not_rejected :
  count (todos (db (snd (add_todo (TodoData.mk (Some EmptyString))
                           (sample_world 0 empty_db))))) = 1
  /\ count (sessions (db (snd (complete_pomodoro (PomodoroData.mk (Some 0))
                                 (sample_world 0 empty_db))))) = 1
  /\ ~ rejected_unchanged (add_todo (TodoData.mk (Some EmptyString)))
        (sample_world 0 empty_db)
  /\ ~ rejected_unchanged (add_todo (TodoData.mk None)) (sample_world 0 empty_db)
  /\ ~ rejected_unchanged (complete_pomodoro (PomodoroData.mk (Some 0)))
        (sample_world 0 empty_db)
  /\ ~ rejected_unchanged (complete_pomodoro (PomodoroData.mk (Some (-5))))
        (sample_world 0 empty_db).
Proof.
  split; [reflexivity|]. split; [reflexivity|].
  repeat split; intros [[e He] _]; cbn in He; discriminate He.
Qed.

(** C2, as amended.  A create-event request whose date is absent or
    malformed fails before any mutation, with the library's KeyError or
    ValueError, and leaves the world as it was.  A create-todo request
    whose task is the empty text or is absent is accepted and stored with
    the empty text.  A completed pomodoro whose duration fits a signed
    64-bit integer is accepted, zero and negative durations included,
    and stored as given; one whose duration does not fit fails with the
    driver's OverflowError and stores nothing. *)
Theorem create_rejects_only_bad_event_date :
  (forall (w : world) (data : EventData.t),
      EventData.date data = None ->
      add_event data w = (Raise KeyError, w)
      /\ rejected_unchanged (add_event data) w)
  /\ (forall (w : world) (data : EventData.t) (text : string) (e : exn),
        EventData.date data = Some text ->
        Strptime.strptime text = Raise e ->
        add_event data w = (Raise ValueError, w)
        /\ rejected_unchanged (add_event data) w)
  /\ (forall (w : world) (data : TodoData.t),
        dict_get (TodoData.task data) EmptyString = EmptyString ->
        exists todo,
          fst (add_todo data w) = Ok (todo, 201)
          /\ Todo.task todo = EmptyString
          /\ todos (db (snd (add_todo data w))) = todos (db w) ++ [todo])
  /\ (forall (w : world) (data : PomodoroData.t),
        fits_int64 (dict_get (PomodoroData.duration data) 25) = true ->
        exists session,
          fst (complete_pomodoro data w) = Ok (session, 201)
          /\ PomodoroSession.duration session
             = dict_get (PomodoroData.duration data) 25
          /\ sessions (db (snd (complete_pomodoro data w)))
             = sessions (db w) ++ [session])
  /\ (forall (w : world) (data : PomodoroData.t),
        fits_int64 (dict_get (PomodoroData.duration data) 25) = false ->
        fst (complete_pomodoro data w) = Raise OverflowError
        /\ db (snd (complete_pomodoro data w)) = db w).
Proof.
  split; [|split; [|split; [|split]]].
  - intros w data Hd.
    assert (H : add_event data w = (Raise KeyError, w)).
    { unfold add_event, bind, lift, dict_item. rewrite Hd. reflexivity. }
    split; [exact H|]. unfold rejected_unchanged. rewrite H. cbn. eauto.
  - intros w data text e Hd He.
    pose proof (strptime_raises _ _ He). subst e.
    assert (H : add_event data w = (Raise ValueError, w)).
    { unfold add_event, bind, lift, dict_item. rewrite Hd, He. reflexivity. }
    split; [exact H|]. unfold rejected_unchanged. rewrite H. cbn. eauto.
  - intros w data Ht. eexists. split; [reflexivity|]. split; [exact Ht|reflexivity].
  - intros w data Hfit. unfold complete_pomodoro, bind, get_db, datetime_utcnow.
    rewrite Hfit. eexists. repeat split.
  - intros w data Hfit. unfold complete_pomodoro, bind, get_db, datetime_utcnow.
    rewrite Hfit. split; reflexivity.
Qed.

Lemma create_rejects_only_bad_event_date_witness :
  add_event (event_on "2024-13-45") (sample_world 0 empty_db)
  = (Raise ValueError, sample_world 0 empty_db)
  /\ rejected_unchanged (add_event (event_on "2024-13-45"))
       (sample_world 0 empty_db).
Proof.
  apply (proj1 (proj2 create_rejects_only_bad_event_date)
           (sample_world 0 empty_db) (event_on "2024-13-45") "2024-13-45"%string
           ValueError); reflexivity.
Defined.

(** ** CSV export *)

Section ExportText.
Import PyStr.

(** Replacing a one-character text by another works character by
    character. *)
Lemma replace_chr (s : string) (a b : ascii) :
  replace s (chr a) (chr b) = map_chars (substitute a b) s.
Proof.
  unfold replace. induction s as [|c r IH]; [reflexivity|].
  cbn [replace_from String.prefix chr map_chars]. unfold substitute at 1.
  destruct (ascii_dec a c) as [->|Hne].
  - rewrite Ascii.eqb_refl.
    replace (String.prefix EmptyString r) with true by (destruct r; reflexivity).
    cbn. now rewrite IH.
  - destruct (Ascii.eqb c a) eqn:E.
    + apply Ascii.eqb_eq in E. congruence.
    + now rewrite IH.
Qed.

Lemma map_chars_compose (f g : ascii -> ascii) (s : string) :
  map_chars g (map_chars f s) = map_chars (fun c => g (f c)) s.
Proof. induction s as [|c r IH]; simpl; congruence. Qed.

Lemma map_chars_ext (f g : ascii -> ascii) (s : string) :
  (forall c, f c = g c) -> map_chars f s = map_chars g s.
Proof. intros H. induction s as [|c r IH]; simpl; congruence. Qed.

Lemma one_line_spec (text : string) :
  one_line (Some text) = map_chars space_for_break text.
Proof.
  unfold one_line. destruct text as [|c r]; [reflexivity|].
  cbn [String.length Nat.eqb].
  change " "%string with (chr SPACE).
  rewrite !replace_chr, map_chars_compose.
  apply map_chars_ext. intros x.
  unfold substitute, space_for_break, line_break.
  destruct (Ascii.eqb x LF) eqn:E1; [reflexivity|].
  destruct (Ascii.eqb x CR); reflexivity.
Qed.

Lemma contains_map_chars (x : ascii) (f : ascii -> ascii) (s : string) :
  (forall c, Ascii.eqb x (f c) = false) -> contains x (map_chars f s) = false.
Proof.
  intros H. unfold contains.
  induction s as [|c r IH]; [reflexivity|].
  cbn [map_chars list_ascii_of_string existsb]. now rewrite H, IH.
Qed.

Lemma contains_app (x : ascii) (s t : string) :
  contains x (s ++ t) = contains x s || contains x t.
Proof.
  unfold contains. induction s as [|c r IH]; [reflexivity|].
  cbn [append list_ascii_of_string existsb]. rewrite IH.
  now rewrite orb_assoc.
Qed.

Lemma contains_double_quotes (x : ascii) (s : string) :
  contains x s = false -> contains x (Csv.double_quotes s) = false.
Proof.
  unfold contains. induction s as [|c r IH]; [reflexivity|].
  cbn [Csv.double_quotes list_ascii_of_string existsb].
  intros H. apply orb_false_iff in H. destruct H as [Hc Hr].
  destruct (Ascii.eqb c QUOTE) eqn:E.
  - apply Ascii.eqb_eq in E. subst c.
    cbn [list_ascii_of_string existsb]. now rewrite Hc, IH.
  - cbn [list_ascii_of_string existsb]. now rewrite Hc, IH.
Qed.

Lemma contains_field (x : ascii) (s : string) :
  Ascii.eqb x QUOTE = false ->
  contains x s = false -> contains x (Csv.field s) = false.
Proof.
  intros Hq Hs. unfold Csv.field. destruct (Csv.needs_quotes s); [|exact Hs].
  rewrite !contains_app, (contains_double_quotes _ _ Hs).
  unfold contains, chr. cbn [list_ascii_of_string existsb]. now rewrite Hq.
Qed.

Lemma one_line_no_break (x : ascii) (text : option string) :
  line_break x = true -> contains x (one_line text) = false.
Proof.
  intros Hx. destruct text as [s|]; [|reflexivity].
  rewrite one_line_spec. apply contains_map_chars. intros c.
  unfold space_for_break.
  destruct (line_break c) eqn:Ec.
  - unfold line_break in Hx.
    destruct (Ascii.eqb x SPACE) eqn:E; [|reflexivity].
    apply Ascii.eqb_eq in E. subst x. discriminate.
  - destruct (Ascii.eqb x c) eqn:E; [|reflexivity].
    apply Ascii.eqb_eq in E. congruence.
Qed.

End ExportText.

Section OrderBy.
Context {A : Type} (le : A -> A -> bool).

Lemma insert_by_perm (x : A) (l : list A) :
  Permutation (insert_by le x l) (x :: l).
Proof.
  induction l as [|y l IH]; simpl; [reflexivity|].
  destruct (le x y); [reflexivity|].
  rewrite IH. apply perm_swap.
Qed.

Lemma order_by_perm (l : list A) : Permutation (order_by le l) l.
Proof.
  induction l as [|x l IH]; simpl; [reflexivity|].
  rewrite insert_by_perm. now constructor.
Qed.
End OrderBy.


(** C8.  The content field of an exported note and the description field
    of an exported event are the stored text with every CR and every LF
    replaced by one space: the field holds no line break, neither before
    nor after the CSV encoding, every stored row is exported once, and
    the content [line1], LF, [line2] is exported as [line1 line2]. *)
Theorem csv_export_replaces_line_breaks :
  (forall text : option string,
     PyStr.contains PyStr.LF (one_line text) = false
     /\ PyStr.contains PyStr.CR (one_line text) = false
     /\ PyStr.contains PyStr.LF (Csv.field (one_line text)) = false
     /\ PyStr.contains PyStr.CR (Csv.field (one_line text)) = false)
  /\ (forall text : string,
        one_line (Some text) = map_chars space_for_break text)
  /\ (forall note : Note.t,
        nth_error (note_row note) 2 = Some (one_line (Note.content note)))
  /\ (forall event : Event.t,
        nth_error (event_row event) 2 = Some (one_line (Event.description event)))
  /\ (forall w : world, exists resp,
        fst (export_notes_csv w) = Ok resp
        /\ body resp
           = write_rows
               ["ID"; "Title"; "Content"; "Color"; "Created At"; "Updated At"]%string
               (map note_row (notes_newest_first (notes (db w))))
        /\ Permutation (notes_newest_first (notes (db w))) (notes (db w)))
  /\ (forall w : world, exists resp,
        fst (export_calendar_csv w) = Ok resp
        /\ body resp
           = write_rows
               ["ID"; "Title"; "Description"; "Date"; "Time"; "Color"]%string
               (map event_row (order_by event_leb (events (db w))))
        /\ Permutation (order_by event_leb (events (db w))) (events (db w)))
  /\ one_line (Some line1_line2) = "line1 line2"%string
  /\ Csv.field (one_line (Some line1_line2)) = "line1 line2"%string.
Proof.
  repeat split.
  - now apply one_line_no_break.
  - now apply one_line_no_break.
  - apply contains_field; [reflexivity|]. now apply one_line_no_break.
  - apply contains_field; [reflexivity|]. now apply one_line_no_break.
  - apply one_line_spec.
  - intros w. eexists. split; [reflexivity|]. split; [reflexivity|].
    apply order_by_perm.
  - intros w. eexists. split; [reflexivity|]. split; [reflexivity|].
    apply order_by_perm.
Qed.

(** ** The calendar page *)

Section Lists.
Context {A : Type}.

Lemma firstn_add (a b : nat) (l : list A) :
  firstn (a + b) l = firstn a l ++ firstn b (skipn a l).
Proof.
  revert l. induction a as [|a IH]; intros l; [reflexivity|].
  destruct l as [|x l]; cbn.
  - now rewrite firstn_nil.
  - now rewrite IH.
Qed.

Lemma skipn_add (a b : nat) (l : list A) :
  skipn (a + b) l = skipn b (skipn a l).
Proof.
  revert l. induction a as [|a IH]; intros l; [reflexivity|].
  destruct l as [|x l]; cbn.
  - now rewrite skipn_nil.
  - apply IH.
Qed.

(** Cutting a list into [k] consecutive pieces of [n] elements, from the
    piece number [s] on. *)
Lemma pieces_concat (n : nat) (l : list A) (k s : nat) :
  List.concat (map (fun j => firstn n (skipn (j * n) l)) (seq s k))
  = firstn (k * n) (skipn (s * n) l).
Proof.
  revert s. induction k as [|k IH]; intros s; [reflexivity|].
  cbn [seq map List.concat]. rewrite IH.
  replace (S k * n)%nat with (n + k * n)%nat by lia.
  rewrite firstn_add. f_equal. f_equal.
  replace (S s * n)%nat with (s * n + n)%nat by lia.
  now rewrite skipn_add.
Qed.

Lemma pieces_length (n : nat) (l : list A) (k s : nat) :
  ((s + k) * n <= List.length l)%nat ->
  Forall (fun row => List.length row = n)
         (map (fun j => firstn n (skipn (j * n) l)) (seq s k)).
Proof.
  intros H. apply Forall_forall. intros row Hrow.
  apply in_map_iff in Hrow. destruct Hrow as (j & <- & Hj).
  apply in_seq in Hj. rewrite length_firstn, length_skipn. nia.
Qed.

Lemma concat_cell (n : nat) (g : list (list A)) (r c : nat) :
  Forall (fun row => List.length row = n) g -> (c < n)%nat ->
  nth_error (List.concat g) (r * n + c)
  = match nth_error g r with
    | Some row => nth_error row c
    | None => None
    end.
Proof.
  intros Hg Hc. revert r. induction Hg as [|row g Hrow Hg IH]; intros r.
  - destruct r; cbn; now rewrite ?nth_error_nil.
  - destruct r as [|r]; cbn [List.concat nth_error].
    + rewrite nth_error_app1 by lia. reflexivity.
    + rewrite nth_error_app2 by (cbn; lia).
      replace (S r * n + c - List.length row)%nat with (r * n + c)%nat by (cbn; lia).
      apply IH.
Qed.

End Lists.
Section CalendarGrid.
Import Datetime.

Lemma mdays_days_in_month (y m : Z) :
  1 <= m <= 12 ->
  tbl Calendar.mdays m + (if (m =? 2) && Calendar.isleap y then 1 else 0)
  = days_in_month y m.
Proof.
  intros Hm. unfold days_in_month. change (Calendar.isleap y) with (is_leap y).
  assert (Hc : m = 1 \/ m = 2 \/ m = 3 \/ m = 4 \/ m = 5 \/ m = 6 \/ m = 7
               \/ m = 8 \/ m = 9 \/ m = 10 \/ m = 11 \/ m = 12) by lia.
  destruct (is_leap y);
    repeat (destruct Hc as [-> | Hc]; [reflexivity|]); subst; reflexivity.
Qed.

Lemma check_date_fields_true (y m d : Z) :
  1 <= y <= 9999 -> 1 <= m <= 12 -> 1 <= d <= days_in_month y m ->
  check_date_fields y m d = true.
Proof.
  intros Hy Hm Hd. unfold check_date_fields, MINYEAR, MAXYEAR.
  repeat (apply andb_true_iff; split); lia.
Qed.

Lemma check_date_fields_year (y m d : Z) :
  ~ 1 <= y <= 9999 -> check_date_fields y m d = false.
Proof.
  intros Hy. unfold check_date_fields, MINYEAR, MAXYEAR.
  destruct (1 <=? y) eqn:E1; [|reflexivity].
  destruct (y <=? 9999) eqn:E2; [|reflexivity]. lia.
Qed.

Lemma valid_fields_fit (y m d : Z) :
  check_date_fields y m d = true ->
  fits_c_int y && fits_c_int m && fits_c_int d = true.
Proof.
  intros H. unfold check_date_fields, MINYEAR, MAXYEAR in H.
  repeat (apply andb_true_iff in H; destruct H as [H ?]).
  pose proof (days_in_month_range y m ltac:(lia)).
  unfold fits_c_int. repeat (apply andb_true_iff; split); lia.
Qed.

Lemma date_new_valid (y m d : Z) :
  check_date_fields y m d = true -> date_new y m d = Ok (mkdate y m d).
Proof.
  intros H. unfold date_new. now rewrite (valid_fields_fit y m d H), H.
Qed.

Lemma datetime_new_valid (y m d : Z) :
  check_date_fields y m d = true ->
  datetime_new y m d = Ok (mkdatetime y m d 0 0 0 0).
Proof.
  intros H. unfold datetime_new. now rewrite (valid_fields_fit y m d H), H.
Qed.

Lemma calendar_weekday_ok (y m d : Z) :
  1 <= y <= 9999 -> 1 <= m <= 12 -> 1 <= d <= days_in_month y m ->
  Calendar.weekday y m d = Ok (date_weekday (mkdate y m d)).
Proof.
  intros Hy Hm Hd. unfold Calendar.weekday, MINYEAR, MAXYEAR.
  replace ((1 <=? y) && (y <=? 9999)) with true
    by (symmetry; apply andb_true_iff; split; lia).
  now rewrite date_new_valid by (now apply check_date_fields_true).
Qed.

(** The first weekday and the number of days of a month, for any year. *)
Lemma monthrange_ok (y m : Z) :
  1 <= m <= 12 ->
  exists day1,
    Calendar.monthrange y m = Ok (day1, days_in_month y m)
    /\ 0 <= day1 < 7
    /\ (1 <= y <= 9999 -> day1 = date_weekday (mkdate y m 1)).
Proof.
  intros Hm. unfold Calendar.monthrange.
  replace ((1 <=? m) && (m <=? 12)) with true
    by (symmetry; apply andb_true_iff; split; lia).
  cbn [negb]. rewrite mdays_days_in_month by exact Hm.
  unfold Calendar.weekday, MINYEAR, MAXYEAR.
  destruct ((1 <=? y) && (y <=? 9999)) eqn:Ey.
  - apply andb_true_iff in Ey.
    pose proof (days_in_month_range y m Hm).
    rewrite date_new_valid by (apply check_date_fields_true; lia). cbn [rbind].
    eexists. split; [reflexivity|]. split; [|reflexivity].
    unfold date_weekday. apply Z.mod_pos_bound. lia.
  - pose proof (Z.mod_pos_bound y 400 ltac:(lia)).
    pose proof (days_in_month_range (2000 + y mod 400) m Hm).
    rewrite date_new_valid by (apply check_date_fields_true; lia). cbn [rbind].
    eexists. split; [reflexivity|]. split.
    + unfold date_weekday. apply Z.mod_pos_bound. lia.
    + intros Hy. apply andb_false_iff in Ey. lia.
Qed.

Lemma range_length (a b : Z) : length (Calendar.range a b) = Z.to_nat (b - a).
Proof. unfold Calendar.range. now rewrite length_map, length_seq. Qed.

(** The rows of the grid are the consecutive sevens of the days. *)
Lemma monthdayscalendar_rows (days : list Z) (k : nat) :
  length days = (k * 7)%nat ->
  map (fun i => Calendar.slice days i (i + 7))
      (Calendar.range_step 0 (Calendar.len days) 7)
  = map (fun j => firstn 7 (skipn (j * 7) days)) (seq 0 k).
Proof.
  intros Hlen. unfold Calendar.range_step, Calendar.len. rewrite Hlen.
  replace (Z.to_nat ((Z.of_nat (k * 7) - 0 + 7 - 1) / 7)) with k.
  2:{ replace (Z.of_nat (k * 7) - 0 + 7 - 1) with (6 + Z.of_nat k * 7) by lia.
      rewrite Z.div_add by lia. change (6 / 7) with 0. lia. }
  rewrite map_map. apply map_ext. intros j. unfold Calendar.slice.
  f_equal; [|f_equal]; lia.
Qed.

Lemma filter_repeat_zero (n : nat) : filter is_day (repeat 0 n) = [].
Proof. induction n; cbn; auto. Qed.

Lemma filter_range_days (a b : Z) :
  0 < a -> filter is_day (Calendar.range a b) = Calendar.range a b.
Proof.
  intros Ha. apply forallb_filter_id. apply forallb_forall.
  intros x Hx. apply in_range in Hx. unfold is_day.
  destruct (Z.eqb_spec x 0); [lia|reflexivity].
Qed.

Lemma range_nth (a b : Z) (i : nat) :
  (i < Z.to_nat (b - a))%nat ->
  nth_error (Calendar.range a b) i = Some (a + Z.of_nat i).
Proof.
  intros Hi. unfold Calendar.range.
  rewrite nth_error_map, nth_error_seq.
  replace (i <? Z.to_nat (b - a))%nat with true
    by (symmetry; apply Nat.ltb_lt; exact Hi).
  reflexivity.
Qed.

Lemma ymd2ord_day (y m d : Z) : ymd2ord y m d = ymd2ord y m 1 + (d - 1).
Proof. unfold ymd2ord. lia. Qed.

End CalendarGrid.
Section MonthGrid.
Import Datetime.

(** The grid of a month, for any year: the days in rows of seven. *)
Lemma monthdayscalendar_ok (y m : Z) :
  1 <= m <= 12 ->
  exists (day1 : Z) (before after : nat) (grid : list (list Z)),
    Calendar.monthdayscalendar 6 y m = Ok grid
    /\ 0 <= day1 < 7
    /\ (1 <= y <= 9999 -> day1 = date_weekday (mkdate y m 1))
    /\ Z.of_nat before = (day1 - 6) mod 7
    /\ (after < 7)%nat
    /\ Forall (fun row => length row = 7%nat) grid
    /\ concat grid
       = repeat 0 before ++ Calendar.range 1 (days_in_month y m + 1)
         ++ repeat 0 after.
Proof.
  intros Hm. destruct (monthrange_ok y m Hm) as (day1 & Hmr & Hd1 & Hwd).
  pose proof (days_in_month_range y m Hm) as Hn.
  set (ndays := days_in_month y m) in *.
  set (before := Z.to_nat ((day1 - 6) mod 7)).
  set (after := Z.to_nat ((6 - day1 - ndays) mod 7)).
  set (days := repeat 0 before ++ Calendar.range 1 (ndays + 1) ++ repeat 0 after).
  pose proof (Z.mod_pos_bound (day1 - 6) 7 ltac:(lia)) as Hb.
  pose proof (Z.mod_pos_bound (6 - day1 - ndays) 7 ltac:(lia)) as Ha.
  assert (Hlen : exists k, length days = (k * 7)%nat).
  { exists (Z.to_nat ((Z.of_nat before + ndays + Z.of_nat after) / 7)).
    unfold days. rewrite !length_app, !repeat_length, range_length.
    pose proof (Z.div_mod (day1 - 6) 7 ltac:(lia)).
    pose proof (Z.div_mod (6 - day1 - ndays) 7 ltac:(lia)).
    assert (Hsum : Z.of_nat before + ndays + Z.of_nat after
                   = 7 * (- ((day1 - 6) / 7) - (6 - day1 - ndays) / 7))
      by (unfold before, after; lia).
    rewrite Hsum. rewrite Z.mul_comm, Z.div_mul by lia.
    unfold before, after in *. lia. }
  destruct Hlen as [k Hlen].
  exists day1, before, after,
    (map (fun j => firstn 7 (skipn (j * 7) days)) (seq 0 k)).
  split; [|split; [exact Hd1|split; [exact Hwd|split; [|split; [|split]]]]].
  - unfold Calendar.monthdayscalendar, Calendar.itermonthdays.
    rewrite Hmr. cbn [rbind]. fold ndays before after days.
    now rewrite (monthdayscalendar_rows days k Hlen).
  - unfold before. lia.
  - unfold after. lia.
  - apply pieces_length. lia.
  - rewrite pieces_concat. cbn [Nat.mul skipn]. rewrite <- Hlen.
    apply firstn_all.
Qed.

(** The length of a month is the distance to the first of the next. *)
Lemma days_in_month_is_month_length (y m : Z) :
  1 <= m <= 12 -> days_in_month y m = month_length y m.
Proof.
  intros Hm. unfold month_length, ymd2ord, days_in_month, days_before_month.
  assert (Hc : m = 1 \/ m = 2 \/ m = 3 \/ m = 4 \/ m = 5 \/ m = 6 \/ m = 7
               \/ m = 8 \/ m = 9 \/ m = 10 \/ m = 11 \/ m = 12) by lia.
  pose proof (days_before_year_succ y) as Hs.
  destruct (is_leap y);
    repeat (destruct Hc as [-> | Hc];
            [cbn [Z.eqb Z.add Pos.eqb Pos.add Pos.succ]; table_values; lia|]);
    subst; cbn [Z.eqb Z.add Pos.eqb Pos.add Pos.succ]; table_values; lia.
Qed.

End MonthGrid.

Section CalendarPage.
Import Datetime.

Lemma normalize_month_range (year month : Z) :
  1 <= snd (normalize_month year month) <= 12.
Proof.
  unfold normalize_month.
  destruct (Z.ltb_spec 12 month); [cbn; lia|].
  destruct (Z.ltb_spec month 1); cbn; lia.
Qed.

Lemma month_name_ok (m : Z) :
  1 <= m <= 12 -> exists name, py_index Calendar.month_name m = Ok name.
Proof.
  intros Hm.
  assert (Hc : m = 1 \/ m = 2 \/ m = 3 \/ m = 4 \/ m = 5 \/ m = 6 \/ m = 7
               \/ m = 8 \/ m = 9 \/ m = 10 \/ m = 11 \/ m = 12) by lia.
  repeat (destruct Hc as [-> | Hc]; [eexists; reflexivity|]).
  subst. eexists; reflexivity.
Qed.

Lemma datetime_new_ok (y m : Z) :
  1 <= y <= 9999 -> 1 <= m <= 12 ->
  datetime_new y m 1 = Ok (mkdatetime y m 1 0 0 0 0).
Proof.
  intros Hy Hm. pose proof (days_in_month_range y m Hm).
  apply datetime_new_valid. apply check_date_fields_true; lia.
Qed.

(** A year outside 1..9999: ValueError when it fits a C [int],
    OverflowError when it does not. *)
Lemma datetime_new_bad_year (y m : Z) :
  ~ 1 <= y <= 9999 -> 1 <= m <= 12 ->
  datetime_new y m 1
  = Raise (if fits_c_int y then ValueError else OverflowError).
Proof.
  intros Hy Hm. unfold datetime_new. rewrite check_date_fields_year by exact Hy.
  replace (fits_c_int m) with true
    by (symmetry; unfold fits_c_int; apply andb_true_iff; split; lia).
  change (fits_c_int 1) with true. rewrite !andb_true_r.
  now destruct (fits_c_int y).
Qed.

(** The last day of a month: the day before the first of the next. *)
Lemma last_day_ok (y m : Z) :
  1 <= y <= 9999 -> 1 <= m <= 12 ->
  date_add_days (mkdate y m 1) (-1)
  = (if (m =? 1) && (y =? 1) then Raise OverflowError
     else Ok (date_fromordinal (ymd2ord y m 1 - 1))).
Proof.
  intros Hy Hm. unfold date_add_days, date_toordinal. cbn [d_year d_month d_day].
  pose proof (days_in_month_range y m Hm) as Hr.
  pose proof (ymd2ord_bounds y m 1 (check_date_fields_true y m 1 Hy Hm ltac:(lia)))
    as (Hb & Hlo & _).
  destruct (Z.eqb_spec m 1) as [->|Hm1]; cbn [andb].
  - destruct (Z.eqb_spec y 1) as [->|Hy1].
    + reflexivity.
    + specialize (Hlo ltac:(lia)).
      replace ((0 <? ymd2ord y 1 1 + -1) && (ymd2ord y 1 1 + -1 <=? MAXORDINAL))
        with true by (symmetry; apply andb_true_iff; split; lia).
      reflexivity.
  - assert (Hprev : ymd2ord y m 1 = ymd2ord y (m - 1) 1 + days_in_month y (m - 1)).
    { rewrite (days_in_month_is_month_length y (m - 1)) by lia.
      unfold month_length. replace (m - 1 =? 12) with false by (symmetry; lia).
      replace (m - 1 + 1) with m by lia. lia. }
    pose proof (days_in_month_range y (m - 1) ltac:(lia)) as Hr'.
    pose proof (ymd2ord_bounds y (m - 1) 1
                  (check_date_fields_true y (m - 1) 1 Hy ltac:(lia) ltac:(lia)))
      as (Hb' & _).
    replace ((0 <? ymd2ord y m 1 + -1) && (ymd2ord y m 1 + -1 <=? MAXORDINAL))
      with true by (symmetry; apply andb_true_iff; split; lia).
    reflexivity.
Qed.

(** What [calendar_page] does, by the year and month it works with. *)
Lemma calendar_page_outcome (w : world) (year_arg month_arg : option Z) :
  forall y m, requested w year_arg month_arg = (y, m) ->
  exists grid,
    Calendar.monthdayscalendar 6 y m = Ok grid
    /\ (month_in_range y m ->
        exists ctx w',
          runs (calendar_page year_arg month_arg) w ctx w'
          /\ cal_year ctx = y /\ cal_month ctx = m
          /\ cal_month_days ctx = grid
          /\ cal_first_day ctx = mkdate y m 1
          /\ db w' = db w)
    /\ (~ month_in_range y m ->
        calendar_page year_arg month_arg w
        = (Raise (if fits_c_int y then ValueError else OverflowError),
           tick (tick w))).
Proof.
  intros y m Hreq. unfold requested in Hreq.
  pose proof (normalize_month_range
                match year_arg with
                | Some y => y
                | None => year (local (clock w (ticks w)))
                end
                match month_arg with
                | Some m => m
                | None => month (local (clock w (S (ticks w))))
                end) as Hm.
  rewrite Hreq in Hm. cbn [snd] in Hm.
  destruct (monthdayscalendar_ok y m Hm) as (day1 & bf & af & grid & Hgrid & _).
  destruct (month_name_ok m Hm) as [name Hname].
  exists grid. split; [exact Hgrid|].
  assert (Hstart : forall r : result calendar_ctx * world,
    (let '(year, month) := (y, m) in
      month_days <- lift (Calendar.monthdayscalendar 6 year month) ;;
      month_name <- lift (py_index Calendar.month_name month) ;;
      first <- lift (Datetime.datetime_new year month 1) ;;
      let first_day := Datetime.to_date first in
      last_day <-
        (if month =? 12 then
           next <- lift (Datetime.datetime_new (year + 1) 1 1) ;;
           lift (Datetime.date_add_days (Datetime.to_date next) (-1))
         else
           next <- lift (Datetime.datetime_new year (month + 1) 1) ;;
           lift (Datetime.date_add_days (Datetime.to_date next) (-1))) ;;
      today <- datetime_now ;;
      ret (mkcalendar year month month_name month_days first_day last_day
             (Datetime.to_date today))) (tick (tick w)) = r ->
    calendar_page year_arg month_arg w = r).
  { intros r <-. unfold calendar_page.
    unfold bind at 1. cbn [datetime_now]. unfold bind at 1. cbn [datetime_now].
    cbn [tick ticks clock]. rewrite Hreq. reflexivity. }
  split.
  - intros [Hy Hlast].
    assert (Hnext : exists last,
      (if m =? 12 then
         next <- lift (Datetime.datetime_new (y + 1) 1 1) ;;
         lift (Datetime.date_add_days (Datetime.to_date next) (-1))
       else
         next <- lift (Datetime.datetime_new y (m + 1) 1) ;;
         lift (Datetime.date_add_days (Datetime.to_date next) (-1)))
        (tick (tick w)) = (Ok last, tick (tick w))).
    { destruct (Z.eqb_spec m 12) as [->|Hm12].
      - unfold bind, lift. rewrite datetime_new_ok by lia.
        unfold to_date. cbn [year month day].
        rewrite last_day_ok by lia.
        replace (y + 1 =? 1) with false by (symmetry; lia).
        cbn [andb Z.eqb]. eexists; reflexivity.
      - unfold bind, lift. rewrite datetime_new_ok by lia.
        unfold to_date. cbn [year month day].
        rewrite last_day_ok by lia.
        replace (m + 1 =? 1) with false by (symmetry; lia).
        cbn [andb]. eexists; reflexivity. }
    destruct Hnext as [last Hnext].
    eexists _, _. split.
    { unfold runs. apply Hstart.
      cbv beta iota. unfold bind at 1. unfold lift at 1. rewrite Hgrid.
      unfold bind at 1. unfold lift at 1. rewrite Hname.
      unfold bind at 1. unfold lift at 1. rewrite datetime_new_ok by lia.
      unfold bind at 1. rewrite Hnext. reflexivity. }
    cbn. repeat split; reflexivity.
  - intros Hbad. apply Hstart.
    cbv beta iota. unfold bind at 1. unfold lift at 1. rewrite Hgrid.
    unfold bind at 1. unfold lift at 1. rewrite Hname.
    unfold bind at 1. unfold lift at 1.
    destruct (Z_le_dec 1 y) as [Hy1|Hy1]; [destruct (Z_le_dec y 9999) as [Hy2|Hy2]|].
    + rewrite datetime_new_ok by lia.
      assert (y = 9999 /\ m = 12) as [-> ->] by (unfold month_in_range in Hbad; lia).
      reflexivity.
    + rewrite datetime_new_bad_year by lia. reflexivity.
    + rewrite datetime_new_bad_year by lia. reflexivity.
Qed.

End CalendarPage.

Section GridClaims.
Import Datetime.

Lemma range_NoDup (a b : Z) : NoDup (Calendar.range a b).
Proof.
  unfold Calendar.range. apply Finite.Injective_map_NoDup.
  - intros i j H. lia.
  - apply seq_NoDup.
Qed.

Lemma in_range_iff (a b x : Z) : In x (Calendar.range a b) <-> a <= x < b.
Proof.
  split; [apply in_range|]. intros H. unfold Calendar.range.
  apply in_map_iff. exists (Z.to_nat (x - a)). split; [lia|].
  apply in_seq. lia.
Qed.

Lemma count_occ_days (before after : nat) (n d : Z) :
  1 <= d <= n ->
  count_occ Z.eq_dec
    (repeat 0 before ++ Calendar.range 1 (n + 1) ++ repeat 0 after) d = 1%nat.
Proof.
  intros Hd. rewrite !count_occ_app.
  rewrite !count_occ_repeat_neq by lia.
  pose proof (proj1 (NoDup_count_occ' Z.eq_dec _) (range_NoDup 1 (n + 1)) d) as H.
  rewrite H by (apply in_range_iff; lia). reflexivity.
Qed.

(** The column of a day: Sunday is column 0. *)
Lemma column_of_day (o d before : Z) :
  before = ((o + 6) mod 7 - 6) mod 7 ->
  (before + (d - 1)) mod 7 = ((o + (d - 1) + 6) mod 7 + 1) mod 7.
Proof.
  intros ->.
  pose proof (Z.div_mod (o + 6) 7 ltac:(lia)).
  pose proof (Z.mod_pos_bound (o + 6) 7 ltac:(lia)).
  pose proof (Z.div_mod ((o + 6) mod 7 - 6) 7 ltac:(lia)).
  pose proof (Z.mod_pos_bound ((o + 6) mod 7 - 6) 7 ltac:(lia)).
  pose proof (Z.div_mod (o + (d - 1) + 6) 7 ltac:(lia)).
  pose proof (Z.mod_pos_bound (o + (d - 1) + 6) 7 ltac:(lia)).
  pose proof (Z.div_mod (((o + 6) mod 7 - 6) mod 7 + (d - 1)) 7 ltac:(lia)).
  pose proof (Z.mod_pos_bound (((o + 6) mod 7 - 6) mod 7 + (d - 1)) 7 ltac:(lia)).
  pose proof (Z.div_mod ((o + (d - 1) + 6) mod 7 + 1) 7 ltac:(lia)).
  pose proof (Z.mod_pos_bound ((o + (d - 1) + 6) mod 7 + 1) 7 ltac:(lia)).
  lia.
Qed.

End GridClaims.

(** C3.  For a year of 1..9999 and a month of 1..12 the grid of the
    calendar page is a list of rows of seven cells whose cells, read row
    by row, are fewer than seven zeros, the day numbers 1..daysInMonth in
    order, and fewer than seven zeros: the cells that are not padding are
    exactly the days of the month, each once, the padding cells hold 0,
    and a day stands in column 0 exactly when it is a Sunday.  The page
    hands out this grid for every such month the date library has both
    bounds for. *)
Theorem month_grid_holds_each_day_once (year month : Z) :
  1 <= year <= 9999 -> 1 <= month <= 12 ->
  exists (grid : list (list Z)) (before after : nat),
    Calendar.monthdayscalendar 6 year month = Ok grid
    /\ Forall (fun row => length row = 7%nat) grid
    /\ (before < 7)%nat /\ (after < 7)%nat
    /\ concat grid
       = repeat 0 before
         ++ Calendar.range 1 (Datetime.days_in_month year month + 1)
         ++ repeat 0 after
    /\ filter is_day (concat grid)
       = Calendar.range 1 (Datetime.days_in_month year month + 1)
    /\ (forall d, 1 <= d <= Datetime.days_in_month year month ->
          count_occ Z.eq_dec (concat grid) d = 1%nat
          /\ exists r c,
               cell grid r c = Some d
               /\ Z.of_nat c
                  = (Datetime.date_weekday (Datetime.mkdate year month d) + 1)
                    mod 7)
    /\ Datetime.days_in_month year month = month_length year month
    /\ (forall w, month_in_range year month ->
          exists ctx w',
            runs (calendar_page (Some year) (Some month)) w ctx w'
            /\ cal_month_days ctx = grid).
Proof.
  intros Hy Hm.
  destruct (monthdayscalendar_ok year month Hm)
    as (day1 & before & after & grid & Hgrid & Hd1 & Hwd & Hbefore & Hafter
        & Hrows & Hflat).
  specialize (Hwd Hy).
  exists grid, before, after.
  split; [exact Hgrid|]. split; [exact Hrows|].
  split; [pose proof (Z.mod_pos_bound (day1 - 6) 7 ltac:(lia)); lia|].
  split; [exact Hafter|]. split; [exact Hflat|].
  split; [|split; [|split]].
  - rewrite Hflat, !filter_app, !filter_repeat_zero, filter_range_days by lia.
    now rewrite app_nil_r.
  - intros d Hd. split.
    + rewrite Hflat. now apply count_occ_days.
    + set (p := (before + Z.to_nat (d - 1))%nat).
      exists (p / 7)%nat, (p mod 7)%nat. split.
      * unfold cell.
        rewrite <- (concat_cell 7 grid (p / 7) (p mod 7) Hrows)
          by (apply Nat.mod_upper_bound; lia).
        replace (p / 7 * 7 + p mod 7)%nat with p
          by (pose proof (Nat.div_mod_eq p 7); lia).
        rewrite Hflat. unfold p.
        rewrite nth_error_app2 by (rewrite repeat_length; lia).
        rewrite repeat_length.
        replace (before + Z.to_nat (d - 1) - before)%nat
          with (Z.to_nat (d - 1)) by lia.
        rewrite nth_error_app1 by (rewrite range_length; lia).
        rewrite range_nth by lia. f_equal. lia.
      * rewrite Nat2Z.inj_mod. unfold p. rewrite Nat2Z.inj_add, Z2Nat.id by lia.
        unfold Datetime.date_weekday, Datetime.date_toordinal.
        cbn [Datetime.d_year Datetime.d_month Datetime.d_day].
        rewrite (ymd2ord_day year month d).
        apply column_of_day. rewrite Hbefore, Hwd. reflexivity.
  - now apply days_in_month_is_month_length.
  - intros w Hin.
    destruct (calendar_page_outcome w (Some year) (Some month) year month)
      as (grid' & Hgrid' & Hok & _).
    { unfold requested, normalize_month.
      replace (12 <? month) with false by (symmetry; lia).
      replace (month <? 1) with false by (symmetry; lia). reflexivity. }
    destruct (Hok Hin) as (ctx & w' & Hrun & _ & _ & Hdays & _).
    exists ctx, w'. split; [exact Hrun|]. congruence.
Qed.

Lemma month_grid_holds_each_day_once_witness :
  exists (grid : list (list Z)) (before after : nat),
    Calendar.monthdayscalendar 6 2024 2 = Ok grid
    /\ Forall (fun row => length row = 7%nat) grid
    /\ (before < 7)%nat /\ (after < 7)%nat
    /\ concat grid
       = repeat 0 before
         ++ Calendar.range 1 (Datetime.days_in_month 2024 2 + 1)
         ++ repeat 0 after
    /\ filter is_day (concat grid)
       = Calendar.range 1 (Datetime.days_in_month 2024 2 + 1)
    /\ (forall d, 1 <= d <= Datetime.days_in_month 2024 2 ->
          count_occ Z.eq_dec (concat grid) d = 1%nat
          /\ exists r c,
               cell grid r c = Some d
               /\ Z.of_nat c
                  = (Datetime.date_weekday (Datetime.mkdate 2024 2 d) + 1)
                    mod 7)
    /\ Datetime.days_in_month 2024 2 = month_length 2024 2
    /\ (forall w, month_in_range 2024 2 ->
          exists ctx w',
            runs (calendar_page (Some 2024) (Some 2)) w ctx w'
            /\ cal_month_days ctx = grid).
Proof. apply (month_grid_holds_each_day_once 2024 2); lia. Defined.

(** C4, counterexample.  Month 25 is outside 1..12 also after wrapping by
    one unit, and month -12 likewise, yet the page is built, for January
    of the next year and for December of the year before. *)
Lemma month_overflow_not_rejected :
  spec_still_invalid 2024 25 = true
  /\ spec_still_invalid 2024 (-12) = true
  /\ (exists ctx w',
        runs (calendar_page (Some 2024) (Some 25)) (sample_world 0 empty_db) ctx w'
        /\ cal_year ctx = 2025 /\ cal_month ctx = 1)
  /\ (exists ctx w',
        runs (calendar_page (Some 2024) (Some (-12))) (sample_world 0 empty_db)
             ctx w'
        /\ cal_year ctx = 2023 /\ cal_month ctx = 12).
Proof.
  split; [reflexivity|]. split; [reflexivity|].
  split; eexists _, _; (split; [unfold runs; lazy; reflexivity|]);
    split; reflexivity.
Qed.

(** C4, as amended.  The overflow handling leaves a month of 1..12 for
    every input: a month above 12 becomes January of the next year and a
    month below 1 December of the year before, by however much it is out
    of range.  The page then fails, with the date library's exception
    and the database untouched, exactly when the year it arrives at is
    outside 1..9999 or the month is December 9999, whose end the date
    type cannot hold: with ValueError when that year fits a C [int], with
    OverflowError when it does not.  In every other case the page is
    built for that year and month. *)
Theorem calendar_page_fails_only_on_date_overflow
        (w : world) (year month : Z) :
  exists y m,
    normalize_month year month = (y, m)
    /\ 1 <= m <= 12
    /\ (12 < month -> y = year + 1 /\ m = 1)
    /\ (month < 1 -> y = year - 1 /\ m = 12)
    /\ (1 <= month <= 12 -> y = year /\ m = month)
    /\ (month_in_range y m ->
        exists ctx w',
          runs (calendar_page (Some year) (Some month)) w ctx w'
          /\ cal_year ctx = y /\ cal_month ctx = m /\ db w' = db w)
    /\ (~ month_in_range y m -> - 2147483648 <= y <= 2147483647 ->
        fst (calendar_page (Some year) (Some month) w) = Raise ValueError
        /\ db (snd (calendar_page (Some year) (Some month) w)) = db w)
    /\ (~ - 2147483648 <= y <= 2147483647 ->
        fst (calendar_page (Some year) (Some month) w) = Raise OverflowError
        /\ db (snd (calendar_page (Some year) (Some month) w)) = db w).
Proof.
  destruct (normalize_month year month) as [y m] eqn:En.
  exists y, m. split; [reflexivity|].
  pose proof (normalize_month_range year month) as Hm. rewrite En in Hm.
  cbn [snd] in Hm. split; [exact Hm|].
  assert (Hcases : (12 < month -> y = year + 1 /\ m = 1)
                   /\ (month < 1 -> y = year - 1 /\ m = 12)
                   /\ (1 <= month <= 12 -> y = year /\ m = month)).
  { unfold normalize_month in En.
    destruct (Z.ltb_spec 12 month); [inversion En; lia|].
    destruct (Z.ltb_spec month 1); inversion En; lia. }
  destruct Hcases as (H1 & H2 & H3).
  split; [exact H1|]. split; [exact H2|]. split; [exact H3|].
  destruct (calendar_page_outcome w (Some year) (Some month) y m En)
    as (grid & _ & Hok & Hbad).
  split; [|split].
  - intros Hin. destruct (Hok Hin) as (ctx & w' & Hrun & Hy & Hmo & _ & _ & Hdb).
    exists ctx, w'. auto.
  - intros Hout Hfit. rewrite (Hbad Hout).
    replace (Datetime.fits_c_int y) with true
      by (symmetry; unfold Datetime.fits_c_int; apply andb_true_iff; split; lia).
    split; reflexivity.
  - intros Hbig.
    assert (Hout : ~ month_in_range y m) by (unfold month_in_range; lia).
    rewrite (Hbad Hout).
    replace (Datetime.fits_c_int y) with false
      by (symmetry; unfold Datetime.fits_c_int; apply andb_false_iff; lia).
    split; reflexivity.
Qed.

(** The years and months at which the page fails: a year outside 1..9999,
    reached directly or through the overflow handling, and December 9999;
    a year that does not fit a C [int] fails otherwise. *)
Example calendar_page_failures :
  fst (calendar_page (Some 10000) (Some 3) (sample_world 0 empty_db))
  = Raise ValueError
  /\ fst (calendar_page (Some 0) (Some 3) (sample_world 0 empty_db))
     = Raise ValueError
  /\ fst (calendar_page (Some 9999) (Some 13) (sample_world 0 empty_db))
     = Raise ValueError
  /\ fst (calendar_page (Some 1) (Some 0) (sample_world 0 empty_db))
     = Raise ValueError
  /\ fst (calendar_page (Some 9999) (Some 12) (sample_world 0 empty_db))
     = Raise ValueError
  /\ fst (calendar_page (Some 2147483647) (Some 3) (sample_world 0 empty_db))
     = Raise ValueError
  /\ fst (calendar_page (Some 2147483648) (Some 3) (sample_world 0 empty_db))
     = Raise OverflowError
  /\ fst (calendar_page (Some 2147483647) (Some 13) (sample_world 0 empty_db))
     = Raise OverflowError
  /\ is_ok (fst (calendar_page (Some 9999) (Some 11) (sample_world 0 empty_db)))
     = true.
Proof. repeat split; vm_compute; reflexivity. Qed.

(** ** Days and midnights *)

Section ValidDates.
Import Datetime.








End ValidDates.

(** ** Counting sessions *)

Section Counting.
Context {A : Type}.




Lemma count_where_all (p : A -> bool) (rows : list A) :
  Forall (fun x => p x = true) rows -> count_where p rows = count rows.
Proof.
  intros H. unfold count_where. f_equal. apply forallb_filter_id.
  apply forallb_forall. now apply Forall_forall.
Qed.


End Counting.

Section Windows.
Import Datetime.






End Windows.

(** ** The dashboard and the pomodoro pages *)

Section Dashboard.
Import Datetime.


Lemma reads_eq_now (w : world) (now : datetime) :
  reads w (eq now) -> local (clock w (ticks w)) = now.
Proof. intros H. symmetry. apply H. lia. Qed.



Lemma pomodoro_runs (w : world) (now : datetime) :
  reads w (eq now) ->
  runs pomodoro w
    (mkpomodoro (count_where (since (midnight now)) (sessions (db w)))
       (count (sessions (db w))) (sum_durations (sessions (db w)) / 60))
    (tick w).
Proof.
  intros Hreads. unfold runs, pomodoro, bind. cbn.
  now rewrite (reads_eq_now _ _ Hreads).
Qed.

Lemma get_pomodoro_stats_runs (w : world) (now : datetime) :
  reads w (eq now) ->
  runs get_pomodoro_stats w
    (mkpomodoro (count_where (since (midnight now)) (sessions (db w)))
       (count (sessions (db w))) (sum_durations (sessions (db w)) / 60))
    (tick w).
Proof.
  intros Hreads. unfold runs, get_pomodoro_stats, bind. cbn.
  now rewrite (reads_eq_now _ _ Hreads).
Qed.

End Dashboard.

(** ** The weekly chart *)

Section SessionClaims.
Import Datetime.






End SessionClaims.



(** The spec's example: at 15:00 on 10 June 2024, with a session of that
    morning and one of 3 June, the chart counts the first in its last
    entry and leaves the second out, the total is 2 and the hours are 1. *)
Example weekly_histogram_example :
  exists ctx w1 stats w2,
    runs dashboard example_world ctx w1
    /\ runs get_pomodoro_stats example_world stats w2
    /\ map wk_sessions (dc_weekly_data ctx) = [0; 0; 0; 0; 0; 0; 1]
    /\ map wk_day (dc_weekly_data ctx)
       = ["Tue"; "Wed"; "Thu"; "Fri"; "Sat"; "Sun"; "Mon"]%string
    /\ dc_today_sessions ctx = 1
    /\ stats = mkpomodoro 1 2 1.
Proof.
  eexists _, _, _, _. unfold runs.
  split; [lazy; reflexivity|]. split; [lazy; reflexivity|].
  cbn. repeat split; reflexivity.
Qed.

(** ** Today's sessions *)


(** The dashboard keeps the clock's microseconds in its threshold: half a
    second after 15:00 it leaves out a session stamped at midnight sharp,
    which the pomodoro page counts. *)
Example dashboard_threshold_keeps_microseconds :
  (exists ctx w', runs dashboard half_second_world ctx w'
                  /\ dc_today_sessions ctx = 0)
  /\ (exists p w', runs pomodoro half_second_world p w'
                   /\ today_sessions p = 1).
Proof.
  split; eexists _, _; unfold runs; (split; [lazy; reflexivity|reflexivity]).
Qed.



(** ** Rows by id *)

Section Store.
Context {A : Type} (key : A -> Z).

Lemma next_id_above (ids : list Z) (i : Z) : In i ids -> i < next_id ids.
Proof.
  unfold next_id. induction ids as [|j ids IH]; cbn [fold_right In]; [tauto|].
  intros [-> | H]; [lia|]. specialize (IH H). lia.
Qed.

Lemma next_id_absent (rows : list A) : absent key rows (next_id (map key rows)).
Proof.
  intros r Hr. pose proof (next_id_above (map key rows) (key r) (in_map key _ _ Hr)). lia.
Qed.

Lemma next_id_fresh (rows : list A) : ~ In (next_id (map key rows)) (map key rows).
Proof. intros H. apply next_id_above in H. lia. Qed.

Lemma find_absent (rows : list A) (i : Z) :
  absent key rows i <-> find (fun r => key r =? i) rows = None.
Proof.
  split.
  - intros H. induction rows as [|r rows IH]; [reflexivity|]. cbn [find].
    destruct (Z.eqb_spec (key r) i) as [E|E].
    + exfalso. exact (H r (or_introl eq_refl) E).
    + apply IH. intros r' Hr'. apply H. now right.
  - intros H r Hr E. 
    pose proof (find_none _ _ H r Hr) as Hn. cbv beta in Hn. lia.
Qed.

Lemma find_last (rows : list A) (x : A) (i : Z) :
  absent key rows i -> key x = i ->
  find (fun r => key r =? i) (rows ++ [x]) = Some x.
Proof.
  intros H Hx. induction rows as [|r rows IH]; cbn [app find].
  - now rewrite Hx, Z.eqb_refl.
  - destruct (Z.eqb_spec (key r) i) as [E|E].
    + exfalso. exact (H r (or_introl eq_refl) E).
    + apply IH. intros r' Hr'. apply H. now right.
Qed.

Lemma find_app_old (rows : list A) (x : A) (i : Z) :
  key x <> i ->
  find (fun r => key r =? i) (rows ++ [x]) = find (fun r => key r =? i) rows.
Proof.
  intros Hx. induction rows as [|r rows IH]; cbn [app find].
  - now replace (key x =? i) with false by (symmetry; lia).
  - destruct (key r =? i); [reflexivity|exact IH].
Qed.

Lemma find_removed (rows : list A) (i : Z) :
  find (fun r => key r =? i) (filter (fun r => negb (key r =? i)) rows) = None.
Proof.
  induction rows as [|r rows IH]; [reflexivity|]. cbn [filter].
  destruct (key r =? i) eqn:E; cbn [negb]; [exact IH|].
  cbn [find]. now rewrite E.
Qed.

Lemma find_other_removed (rows : list A) (i j : Z) :
  j <> i ->
  find (fun r => key r =? j) (filter (fun r => negb (key r =? i)) rows)
  = find (fun r => key r =? j) rows.
Proof.
  intros Hj. induction rows as [|r rows IH]; [reflexivity|]. cbn [filter find].
  destruct (Z.eqb_spec (key r) i) as [E|E]; cbn [negb].
  - replace (key r =? j) with false by (symmetry; lia). exact IH.
  - cbn [find]. destruct (key r =? j); [reflexivity|exact IH].
Qed.

Lemma find_other_replaced (rows : list A) (x : A) (i j : Z) :
  j <> i -> key x = i ->
  find (fun r => key r =? j) (map (fun r => if key r =? i then x else r) rows)
  = find (fun r => key r =? j) rows.
Proof.
  intros Hj Hx. induction rows as [|r rows IH]; [reflexivity|]. cbn [map find].
  destruct (Z.eqb_spec (key r) i) as [E|E].
  - replace (key x =? j) with false by (symmetry; lia).
    replace (key r =? j) with false by (symmetry; lia). exact IH.
  - destruct (key r =? j); [reflexivity|exact IH].
Qed.

Lemma find_replaced (rows : list A) (x r0 : A) (i : Z) :
  key x = i -> find (fun r => key r =? i) rows = Some r0 ->
  find (fun r => key r =? i) (map (fun r => if key r =? i then x else r) rows)
  = Some x.
Proof.
  intros Hx. induction rows as [|r rows IH]; [discriminate|]. cbn [map find].
  destruct (Z.eqb_spec (key r) i) as [E|E].
  - intros _. now rewrite Hx, Z.eqb_refl.
  - replace (key r =? i) with false by (symmetry; lia). exact IH.
Qed.

Lemma keys_replaced (rows : list A) (x : A) (i : Z) :
  key x = i ->
  map key (map (fun r => if key r =? i then x else r) rows) = map key rows.
Proof.
  intros Hx. rewrite map_map. apply map_ext. intros r.
  destruct (Z.eqb_spec (key r) i); congruence.
Qed.

Lemma keys_removed_NoDup (rows : list A) (p : A -> bool) :
  NoDup (map key rows) -> NoDup (map key (filter p rows)).
Proof.
  induction rows as [|r rows IH]; cbn [map filter]; [auto|].
  intros H. inversion H as [|? ? Hn Hd]; subst.
  destruct (p r); [|auto]. cbn [map]. constructor; [|auto].
  intros Hin. apply Hn. apply in_map_iff in Hin. destruct Hin as (r' & E & Hr').
  apply filter_In in Hr'. apply in_map_iff. exists r'. tauto.
Qed.

Lemma keys_added_NoDup (rows : list A) (x : A) :
  key x = next_id (map key rows) ->
  NoDup (map key rows) -> NoDup (map key (rows ++ [x])).
Proof.
  intros Hx H. rewrite map_app. cbn [map].
  apply NoDup_app; [exact H|repeat constructor; auto| ].
  intros k Hk [<- | []]. rewrite Hx in Hk. now apply next_id_fresh in Hk.
Qed.

Lemma get_or_404_found (rows : list A) (i : Z) (r : A) (w : world) :
  find (fun r => key r =? i) rows = Some r ->
  get_or_404 key rows i w = (Ok r, w).
Proof. unfold get_or_404. now intros ->. Qed.

Lemma get_or_404_absent (rows : list A) (i : Z) (w : world) :
  absent key rows i -> get_or_404 key rows i w = (Raise NotFound, w).
Proof. intros H. apply find_absent in H. unfold get_or_404. now rewrite H. Qed.

Lemma found_key (rows : list A) (i : Z) (r : A) :
  find (fun r => key r =? i) rows = Some r -> key r = i /\ In r rows.
Proof. intros H. apply find_some in H. cbv beta in H. split; [lia|tauto]. Qed.
End Store.

(** ** Ids stay unique *)

Section Unique.

Lemma keys_replaced_NoDup {A : Type} (key : A -> Z) (rows : list A) (x : A) (i : Z) :
  key x = i -> NoDup (map key rows) ->
  NoDup (map key (map (fun r => if key r =? i then x else r) rows)).
Proof. intros Hx H. now rewrite keys_replaced. Qed.

Lemma unique_after_bind {A B : Type} (c : M A) (k : A -> M B) (w : world) :
  unique_ids (db (snd (c w))) ->
  (forall a w1, unique_ids (db w1) -> unique_ids (db (snd (k a w1)))) ->
  unique_ids (db (snd (bind c k w))).
Proof.
  exact (bind_keeps (fun w => unique_ids (db w)) c k w).
Qed.

Lemma add_todo_unique (data : TodoData.t) (w : world) :
  unique_ids (db w) -> unique_ids (db (snd (add_todo data w))).
Proof.
  intros (Ht & Hn & He & Hs). cbn. repeat split; auto.
  now apply keys_added_NoDup.
Qed.

Lemma update_todo_unique (i : Z) (data : TodoPatch.t) (w : world) :
  unique_ids (db w) -> unique_ids (db (snd (update_todo i data w))).
Proof.
  intros (Ht & Hn & He & Hs). unfold update_todo, bind, get_db, get_or_404, set_todos.
  destruct (find (fun r => Todo.id r =? i) (todos (db w))) as [todo|] eqn:Ef;
    cbn; repeat split; auto.
  apply (found_key Todo.id) in Ef. destruct Ef as [Ek _].
  now apply (keys_replaced_NoDup Todo.id).
Qed.

Lemma delete_todo_unique (i : Z) (w : world) :
  unique_ids (db w) -> unique_ids (db (snd (delete_todo i w))).
Proof.
  intros (Ht & Hn & He & Hs). unfold delete_todo, bind, get_db, get_or_404, set_todos.
  destruct (find (fun r => Todo.id r =? i) (todos (db w))) as [todo|] eqn:Ef;
    cbn; repeat split; auto.
  now apply keys_removed_NoDup.
Qed.

Lemma insert_note_unique (title : string) (content : option string)
      (color : string) (w : world) :
  unique_ids (db w) -> unique_ids (db (snd (insert_note title content color w))).
Proof.
  intros (Ht & Hn & He & Hs). cbn. repeat split; auto.
  now apply keys_added_NoDup.
Qed.

Lemma update_note_unique (i : Z) (data : NoteData.t) (w : world) :
  unique_ids (db w) -> unique_ids (db (snd (update_note i data w))).
Proof.
  intros (Ht & Hn & He & Hs).
  destruct (find (fun r => Note.id r =? i) (notes (db w))) as [note|] eqn:Ef.
  2:{ unfold update_note, bind, get_db, get_or_404. rewrite Ef.
      cbn. repeat split; auto. }
  pose proof (found_key Note.id _ _ _ Ef) as [Ek _].
  destruct (update_note_found i data w note Ef)
    as [(_ & ->)|[(_ & _ & ->)|(_ & _ & _ & ->)]];
    cbn; repeat split; auto;
    now apply (keys_replaced_NoDup Note.id).
Qed.

Lemma delete_note_unique (i : Z) (w : world) :
  unique_ids (db w) -> unique_ids (db (snd (delete_note i w))).
Proof.
  intros (Ht & Hn & He & Hs). unfold delete_note, bind, get_db, get_or_404, set_notes.
  destruct (find (fun r => Note.id r =? i) (notes (db w))) as [note|] eqn:Ef;
    cbn; repeat split; auto.
  now apply keys_removed_NoDup.
Qed.

Lemma init_sample_notes_unique (w : world) :
  unique_ids (db w) -> unique_ids (db (snd (init_sample_notes w))).
Proof.
  intros H. unfold init_sample_notes.
  apply unique_after_bind; [exact H|]. intros d w1 H1.
  destruct (count (notes d) =? 0); [|exact H1].
  apply unique_after_bind; [now apply insert_note_unique|]. intros _ w2 H2.
  apply unique_after_bind; [now apply insert_note_unique|]. intros _ w3 H3.
  apply unique_after_bind; [now apply insert_note_unique|]. intros _ w4 H4.
  exact H4.
Qed.

Lemma serve_unique (r : note_request) (w : world) :
  unique_ids (db w) -> unique_ids (db (serve r w)).
Proof.
  intros H. destruct r as [data|i|i data|i|]; cbn [serve].
  - now apply insert_note_unique.
  - now rewrite get_note_world.
  - now apply update_note_unique.
  - now apply delete_note_unique.
  - now apply init_sample_notes_unique.
Qed.

Lemma add_event_unique (data : EventData.t) (w : world) :
  unique_ids (db w) -> unique_ids (db (snd (add_event data w))).
Proof.
  intros (Ht & Hn & He & Hs). unfold add_event, bind, lift, dict_item, set_events.
  destruct (EventData.date data) as [text|]; [|cbn; repeat split; auto].
  destruct (Strptime.strptime text) as [parsed|e]; cbn; repeat split; auto.
  now apply keys_added_NoDup.
Qed.

Lemma update_event_unique (i : Z) (data : EventData.t) (w : world) :
  unique_ids (db w) -> unique_ids (db (snd (update_event i data w))).
Proof.
  intros (Ht & Hn & He & Hs). unfold update_event, bind, get_db, get_or_404, set_events.
  destruct (find (fun r => Event.id r =? i) (events (db w))) as [event|] eqn:Ef;
    [|cbn; repeat split; auto].
  apply (found_key Event.id) in Ef. destruct Ef as [Ek _].
  unfold ret at 1.
  destruct (EventData.date data) as [text|].
  - unfold lift. destruct (Strptime.strptime text) as [parsed|e];
      cbn; repeat split; auto.
    now apply (keys_replaced_NoDup Event.id).
  - cbn. repeat split; auto.
    now apply (keys_replaced_NoDup Event.id).
Qed.

Lemma delete_event_unique (i : Z) (w : world) :
  unique_ids (db w) -> unique_ids (db (snd (delete_event i w))).
Proof.
  intros (Ht & Hn & He & Hs). unfold delete_event, bind, get_db, get_or_404, set_events.
  destruct (find (fun r => Event.id r =? i) (events (db w))) as [event|] eqn:Ef;
    cbn; repeat split; auto.
  now apply keys_removed_NoDup.
Qed.

Lemma complete_pomodoro_unique (data : PomodoroData.t) (w : world) :
  unique_ids (db w) -> unique_ids (db (snd (complete_pomodoro data w))).
Proof.
  intros (Ht & Hn & He & Hs).
  unfold complete_pomodoro, bind, get_db, datetime_utcnow.
  destruct (fits_int64 _); cbn; repeat split; auto.
  now apply keys_added_NoDup.
Qed.

Lemma handle_unique (r : request) (w : world) :
  unique_ids (db w) -> unique_ids (db (handle r w)).
Proof.
  intros H. destruct r; cbn [handle].
  - now apply add_todo_unique.
  - now apply update_todo_unique.
  - now apply delete_todo_unique.
  - now apply serve_unique.
  - now apply add_event_unique.
  - now apply update_event_unique.
  - now apply delete_event_unique.
  - now apply complete_pomodoro_unique.
Qed.

End Unique.

(** X1.  Ids stay unique: if no two rows of a table share an id, this is
    still so after any sequence of create, update and delete requests on
    todos, notes, events and pomodoro sessions (and of sample-note
    seeding), whether the requests succeed or fail. *)
Theorem ids_stay_unique (w : world) (rs : list request) :
  unique_ids (db w) -> unique_ids (db (handle_all rs w)).
Proof.
  revert w. induction rs as [|r rs IH]; intros w H; [exact H|].
  cbn [handle_all fold_left]. apply IH. now apply handle_unique.
Qed.

Lemma ids_stay_unique_witness :
  unique_ids (db (handle_all sample_requests (sample_world 0 empty_db)))
  /\ map Todo.id (todos (db (handle_all sample_requests (sample_world 0 empty_db)))) = [2]
  /\ map Note.id (notes (db (handle_all sample_requests (sample_world 0 empty_db)))) = [1; 3]
  /\ map Event.id (events (db (handle_all sample_requests (sample_world 0 empty_db)))) = [1].
Proof.
  split.
  - apply (ids_stay_unique (sample_world 0 empty_db) sample_requests).
    cbn. repeat split; constructor.
  - vm_compute. repeat split; reflexivity.
Defined.
(** X2.  A note that has been created can be fetched back: [add_note]
    answers 201 with a note whose id no stored note had, the note is
    appended to the table, [get_note] on that id returns the same note,
    its fields are the ones sent (or the defaults "Untitled", the empty
    text and "primary"), and every note that could be fetched before
    still can. *)
Theorem added_note_is_retrievable (data : NoteData.t) (w : world) :
  exists note w',
    runs (add_note data) w (note, 201) w'
    /\ runs (get_note (Note.id note)) w' note w'
    /\ notes (db w') = notes (db w) ++ [note]
    /\ absent Note.id (notes (db w)) (Note.id note)
    /\ Note.title note = dict_get (NoteData.title data) "Untitled"%string
    /\ Note.content note = Some (dict_get (NoteData.content data) EmptyString)
    /\ Note.color note = dict_get (NoteData.color data) "primary"%string
    /\ (forall i n, runs (get_note i) w n w -> runs (get_note i) w' n w').
Proof.
  eexists _, _. split; [reflexivity|]. cbn [db notes set_notes].
  pose proof (next_id_absent Note.id (notes (db w))) as Hfresh.
  split; [|split; [reflexivity|split; [exact Hfresh|]]].
  - unfold runs, get_note, bind, get_db. cbn [db notes set_notes Note.id].
    apply get_or_404_found. now apply find_last.
  - repeat split. intros i n Hrun.
    unfold runs, get_note, bind, get_db in *. cbn [db notes set_notes].
    unfold get_or_404 in Hrun.
    destruct (find (fun r => Note.id r =? i) (notes (db w))) as [n0|] eqn:Ef;
      [|unfold lift in Hrun; discriminate].
    assert (n0 = n) as -> by (unfold ret in Hrun; congruence).
    apply get_or_404_found. rewrite find_app_old; [exact Ef|].
    cbn [Note.id]. apply (found_key Note.id) in Ef. destruct Ef as [Ek Hin].
    intros E. apply (Hfresh n Hin). congruence.
Qed.

(** X3.  A deleted note is gone: if [get_note] finds a note under an id,
    [delete_note] succeeds on it, after which [get_note] and a second
    [delete_note] on that id fail with NotFound and change nothing; every
    other id is answered as before and the other tables are untouched. *)
Theorem deleted_note_is_gone (i : Z) (w : world) (note : Note.t) :
  runs (get_note i) w note w ->
  exists w',
    runs (delete_note i) w tt w'
    /\ fails_untouched (get_note i) w' NotFound
    /\ fails_untouched (delete_note i) w' NotFound
    /\ (forall j, j <> i -> fst (get_note j w') = fst (get_note j w))
    /\ todos (db w') = todos (db w) /\ events (db w') = events (db w)
    /\ sessions (db w') = sessions (db w).
Proof.
  intros Hrun. pose proof (get_note_find i w note) as Hf.
  rewrite Hrun in Hf. specialize (Hf eq_refl).
  eexists. split.
  { unfold runs, delete_note, bind, get_db.
    rewrite (get_or_404_found Note.id _ _ _ _ Hf). reflexivity. }
  cbn [db notes set_notes todos events sessions].
  assert (Habs : absent Note.id
                   (filter (fun n => negb (Note.id n =? i)) (notes (db w))) i).
  { apply find_absent. apply find_removed. }
  split; [|split; [|split]].
  - unfold fails_untouched, get_note, bind, get_db. cbn [db notes set_notes].
    now apply get_or_404_absent.
  - unfold fails_untouched, delete_note, bind, get_db. cbn [db notes set_notes].
    rewrite (get_or_404_absent Note.id _ i _ Habs). reflexivity.
  - intros j Hj. unfold get_note, bind, get_db, get_or_404.
    cbn [db notes set_notes]. rewrite (find_other_removed Note.id) by exact Hj.
    destruct (find (fun r => Note.id r =? j) _); reflexivity.
  - repeat split.
Qed.

Lemma deleted_note_is_gone_witness :
  exists w',
    runs (delete_note 2) (serve InitSampleNotes ticking_world) tt w'
    /\ fails_untouched (get_note 2) w' NotFound
    /\ fails_untouched (delete_note 2) w' NotFound
    /\ (forall j, j <> 2 ->
        fst (get_note j w') = fst (get_note j (serve InitSampleNotes ticking_world)))
    /\ todos (db w') = todos (db (serve InitSampleNotes ticking_world))
    /\ events (db w') = events (db (serve InitSampleNotes ticking_world))
    /\ sessions (db w') = sessions (db (serve InitSampleNotes ticking_world)).
Proof.
  eapply (deleted_note_is_gone 2 (serve InitSampleNotes ticking_world)).
  unfold runs. vm_compute. reflexivity.
Defined.

(** X4.  An update touches the fields it sends and the update time only:
    if [get_note] finds a note under an id, [update_note] returns a note
    with the same id and creation time and with each of title, content
    and colour taken from the request when the key is present and kept
    otherwise; [get_note] then returns that note, the other ids are
    answered as before and the table keeps its length.  The update time
    is the reading of the UTC clock the handler assigns when that differs
    from the stored one (one reading is taken); when it equals the stored
    one and the request changes a column, it is the next reading (two are
    taken); when it equals the stored one and no column changes, one
    reading is taken and the note and the store stay as they are. *)
Theorem update_note_keeps_the_rest (i : Z) (data : NoteData.t) (w : world)
        (note : Note.t) :
  runs (get_note i) w note w ->
  exists note' w',
    runs (update_note i data) w note' w'
    /\ runs (get_note i) w' note' w'
    /\ Note.id note' = i
    /\ Note.created_at note' = Note.created_at note
    /\ Note.title note' = dict_get (NoteData.title data) (Note.title note)
    /\ Note.content note'
       = match NoteData.content data with
         | Some c => Some c
         | None => Note.content note
         end
    /\ Note.color note' = dict_get (NoteData.color data) (Note.color note)
    /\ (Note.updated_at note <> Some (utc (clock w (ticks w))) ->
        Note.updated_at note' = Some (utc (clock w (ticks w)))
        /\ ticks w' = S (ticks w))
    /\ (Note.updated_at note = Some (utc (clock w (ticks w))) ->
        ~ same_columns note data ->
        Note.updated_at note' = Some (utc (clock w (S (ticks w))))
        /\ ticks w' = S (S (ticks w)))
    /\ (Note.updated_at note = Some (utc (clock w (ticks w))) ->
        same_columns note data ->
        note' = note /\ w' = tick w)
    /\ (forall j, j <> i -> fst (get_note j w') = fst (get_note j w))
    /\ List.length (notes (db w')) = List.length (notes (db w)).
Proof.
  intros Hrun. pose proof (get_note_find i w note) as Hf.
  rewrite Hrun in Hf. specialize (Hf eq_refl).
  destruct (found_key Note.id _ _ _ Hf) as [Ek _].
  assert (Hfound : forall k t,
             runs (get_note i) (note_stored w k i (note_with note data t))
                  (note_with note data t)
                  (note_stored w k i (note_with note data t))).
  { intros k t. unfold runs, get_note, bind, get_db. cbn [db notes set_notes note_stored].
    apply get_or_404_found. eapply (find_replaced Note.id); [exact Ek|exact Hf]. }
  assert (Hother : forall k t j, j <> i ->
             fst (get_note j (note_stored w k i (note_with note data t)))
             = fst (get_note j w)).
  { intros k t j Hj. unfold get_note, bind, get_db, get_or_404.
    cbn [db notes set_notes note_stored].
    erewrite (find_other_replaced Note.id); [|exact Hj|exact Ek].
    destruct (find (fun r => Note.id r =? j) _); reflexivity. }
  destruct (update_note_found i data w note Hf)
    as [(Hne & E)|[(He & Hch & E)|(He & Hsame & Hnote & E)]].
  - eexists _, _. split; [exact E|]. split; [apply Hfound|].
    split; [exact Ek|]. do 4 (split; [reflexivity|]).
    split; [intros _; split; reflexivity|].
    split; [intros H; now elim Hne|]. split; [intros H; now elim Hne|].
    split; [apply Hother|]. cbn. apply length_map.
  - eexists _, _. split; [exact E|]. split; [apply Hfound|].
    split; [exact Ek|]. do 4 (split; [reflexivity|]).
    split; [intros H; now elim H|].
    split; [intros _ _; split; reflexivity|].
    split; [intros _ H; now elim Hch|].
    split; [apply Hother|]. cbn. apply length_map.
  - exists note, (tick w). split; [exact E|]. split.
    { unfold runs, get_note, bind, get_db. cbn [db tick].
      now apply get_or_404_found. }
    split; [exact Ek|]. split; [reflexivity|].
    destruct Hsame as (Ht & Hc & Hk).
    split; [now rewrite Ht|]. split; [now rewrite Hc|]. split; [now rewrite Hk|].
    split; [intros H; now elim H|].
    split; [intros _ H; elim H; now repeat split|].
    split; [intros _ _; split; reflexivity|].
    split; [|reflexivity]. intros j _.
    unfold get_note, bind, get_db, get_or_404. cbn [db tick].
    destruct (find (fun r => Note.id r =? j) _); reflexivity.
Qed.

Lemma update_note_keeps_the_rest_witness :
  exists note' w',
    runs (update_note 3 (NoteData.mk None None (Some "info"%string)))
         (serve InitSampleNotes ticking_world) note' w'
    /\ Note.title note' = "Ideas"%string
    /\ Note.color note' = "info"%string
    /\ Note.created_at note' = Some (Datetime.mkdatetime 2024 6 10 15 0 4 0)
    /\ Note.updated_at note' = Some (Datetime.mkdatetime 2024 6 10 15 0 6 0).
Proof.
  destruct (update_note_keeps_the_rest 3 (NoteData.mk None None (Some "info"%string))
              (serve InitSampleNotes ticking_world)
              (Note.mk 3 "Ideas"%string
                 (Some (String.concat (PyStr.chr PyStr.LF)
                    ["- Add dark mode"; "- Mobile responsive design";
                     "- Pomodoro timer"; "- Calendar integration"]%string))
                 "warning"%string
                 (Some (Datetime.mkdatetime 2024 6 10 15 0 4 0))
                 (Some (Datetime.mkdatetime 2024 6 10 15 0 5 0))))
    as (note' & w' & Hrun & _ & _ & Hc & Ht & _ & Hcol & Hu & _).
  { unfold runs. vm_compute. reflexivity. }
  exists note', w'. split; [exact Hrun|]. split; [exact Ht|].
  split; [exact Hcol|]. split; [exact Hc|].
  apply Hu. vm_compute. discriminate.
Defined.

(** With the clock standing still the reading assigned equals the stored
    [updated_at]: a change of colour is stored after a second reading,
    and a request that changes nothing leaves the note as it is. *)
Example update_note_on_a_still_clock :
  ticks (snd (update_note 3 (NoteData.mk None None (Some "info"%string))
                (serve InitSampleNotes (sample_world 0 empty_db))))
  = 8%nat
  /\ ticks (snd (update_note 3 (NoteData.mk None None (Some "warning"%string))
                   (serve InitSampleNotes (sample_world 0 empty_db))))
     = 7%nat
  /\ db (snd (update_note 3 (NoteData.mk None None (Some "warning"%string))
                (serve InitSampleNotes (sample_world 0 empty_db))))
     = db (serve InitSampleNotes (sample_world 0 empty_db)).
Proof. repeat split; vm_compute; reflexivity. Qed.

(** ** Todos and the dashboard's counters *)

Section Replace.
Context {A : Type} (key : A -> Z).

Lemma replace_absent (rows : list A) (x : A) (i : Z) :
  absent key rows i ->
  map (fun r => if key r =? i then x else r) rows = rows.
Proof.
  intros H. induction rows as [|r rows IH]; [reflexivity|]. cbn [map].
  replace (key r =? i) with false
    by (symmetry; apply Z.eqb_neq; apply H; now left).
  f_equal. apply IH. intros r' Hr'. apply H. now right.
Qed.

Lemma remove_absent (rows : list A) (i : Z) :
  absent key rows i ->
  filter (fun r => negb (key r =? i)) rows = rows.
Proof.
  intros H. induction rows as [|r rows IH]; [reflexivity|]. cbn [filter].
  replace (key r =? i) with false
    by (symmetry; apply Z.eqb_neq; apply H; now left).
  cbn [negb]. f_equal. apply IH. intros r' Hr'. apply H. now right.
Qed.

Lemma NoDup_tail_absent (r : A) (rows : list A) :
  NoDup (map key (r :: rows)) -> absent key rows (key r).
Proof.
  intros H r' Hr' E. inversion H as [|? ? Hn _]; subst.
  apply Hn. rewrite <- E. now apply in_map.
Qed.

Lemma count_where_replaced (p : A -> bool) (rows : list A) (x r0 : A) (i : Z) :
  NoDup (map key rows) ->
  find (fun r => key r =? i) rows = Some r0 ->
  count_where p (map (fun r => if key r =? i then x else r) rows)
  = count_where p rows + (if p x then 1 else 0) - (if p r0 then 1 else 0).
Proof.
  induction rows as [|r rows IH]; [discriminate|]. intros Hd Hf.
  cbn [find map] in *. destruct (Z.eqb_spec (key r) i) as [E|E].
  - assert (r = r0) as -> by congruence.
    rewrite replace_absent by (rewrite <- E; now apply NoDup_tail_absent).
    unfold count_where, count. cbn [filter].
    destruct (p x), (p r0); cbn [length]; lia.
  - inversion Hd; subst. specialize (IH ltac:(assumption) Hf).
    unfold count_where, count in *. cbn [filter].
    destruct (p r); cbn [length]; lia.
Qed.

Lemma count_where_removed (p : A -> bool) (rows : list A) (r0 : A) (i : Z) :
  NoDup (map key rows) ->
  find (fun r => key r =? i) rows = Some r0 ->
  count_where p (filter (fun r => negb (key r =? i)) rows)
  = count_where p rows - (if p r0 then 1 else 0).
Proof.
  induction rows as [|r rows IH]; [discriminate|]. intros Hd Hf.
  cbn [find filter] in *. destruct (Z.eqb_spec (key r) i) as [E|E]; cbn [negb].
  - assert (r = r0) as -> by congruence.
    rewrite remove_absent by (rewrite <- E; now apply NoDup_tail_absent).
    unfold count_where, count. cbn [filter].
    destruct (p r0); cbn [length]; lia.
  - inversion Hd; subst. specialize (IH ltac:(assumption) Hf).
    unfold count_where, count in *. cbn [filter].
    destruct (p r); cbn [length]; lia.
Qed.

Lemma count_as_count_where (rows : list A) :
  count rows = count_where (fun _ => true) rows.
Proof. symmetry. apply count_where_all. now apply Forall_forall. Qed.

End Replace.

(** X5.  With unique ids, a PUT on an existing todo changes that row
    only: the todo keeps its id and creation time and takes each of
    [completed] and [task] from the request when the key is present; the
    number of todos is unchanged and the number of completed ones (the
    two counters of the dashboard) moves by one exactly when the flag
    changes.  The clock is not read. *)
Theorem todo_update_moves_one_count (i : Z) (data : TodoPatch.t) (w : world)
        (todo : Todo.t) :
  NoDup (map Todo.id (todos (db w))) ->
  find (fun t => Todo.id t =? i) (todos (db w)) = Some todo ->
  exists todo' w',
    runs (update_todo i data) w todo' w'
    /\ Todo.id todo' = i
    /\ Todo.created_at todo' = Todo.created_at todo
    /\ Todo.completed todo'
       = dict_get (TodoPatch.completed data) (Todo.completed todo)
    /\ Todo.task todo' = dict_get (TodoPatch.task data) (Todo.task todo)
    /\ find (fun t => Todo.id t =? i) (todos (db w')) = Some todo'
    /\ count (todos (db w')) = count (todos (db w))
    /\ count_where Todo.completed (todos (db w'))
       = count_where Todo.completed (todos (db w))
         + (if Todo.completed todo' then 1 else 0)
         - (if Todo.completed todo then 1 else 0)
    /\ ticks w' = ticks w.
Proof.
  intros Hd Hf. destruct (found_key Todo.id _ _ _ Hf) as [Ek _].
  eexists _, _. split.
  { unfold runs, update_todo, bind, get_db.
    rewrite (get_or_404_found Todo.id _ _ _ _ Hf). reflexivity. }
  cbn [db todos set_todos ticks Todo.id Todo.task Todo.completed Todo.created_at].
  split; [exact Ek|]. do 3 (split; [reflexivity|]).
  split; [eapply (find_replaced Todo.id); [exact Ek|exact Hf]|].
  split; [unfold count; now rewrite length_map|].
  split; [|reflexivity].
  now rewrite (count_where_replaced Todo.id Todo.completed _ _ todo i Hd Hf).
Qed.

Lemma todo_update_moves_one_count_witness :
  exists todo' w',
    runs (update_todo 1 (TodoPatch.mk (Some true) None))
         (handle (AddTodo (TodoData.mk (Some "Water the plants"%string)))
                 (sample_world 0 empty_db)) todo' w'
    /\ Todo.task todo' = "Water the plants"%string
    /\ count_where Todo.completed (todos (db w')) = 1.
Proof.
  destruct (todo_update_moves_one_count 1 (TodoPatch.mk (Some true) None)
              (handle (AddTodo (TodoData.mk (Some "Water the plants"%string)))
                      (sample_world 0 empty_db))
              (Todo.mk 1 "Water the plants"%string false (Some sample_now)))
    as (todo' & w' & Hrun & _ & _ & _ & Ht & _ & _ & Hc & _).
  - vm_compute. repeat constructor. intros [].
  - reflexivity.
  - exists todo', w'. split; [exact Hrun|]. split; [exact Ht|].
    rewrite Hc. unfold runs in Hrun. vm_compute in Hrun.
    injection Hrun as <- _. reflexivity.
Defined.

(** X6.  With unique ids, deleting an existing todo removes that row
    only: afterwards no todo has the id, every other todo is still
    stored, the number of todos is one less and the number of completed
    ones is one less exactly when the deleted todo was completed. *)
Theorem todo_delete_removes_one (i : Z) (w : world) (todo : Todo.t) :
  NoDup (map Todo.id (todos (db w))) ->
  find (fun t => Todo.id t =? i) (todos (db w)) = Some todo ->
  exists w',
    runs (delete_todo i) w tt w'
    /\ absent Todo.id (todos (db w')) i
    /\ (forall t, In t (todos (db w)) -> Todo.id t <> i -> In t (todos (db w')))
    /\ count (todos (db w')) = count (todos (db w)) - 1
    /\ count_where Todo.completed (todos (db w'))
       = count_where Todo.completed (todos (db w))
         - (if Todo.completed todo then 1 else 0).
Proof.
  intros Hd Hf.
  eexists. split.
  { unfold runs, delete_todo, bind, get_db.
    rewrite (get_or_404_found Todo.id _ _ _ _ Hf). reflexivity. }
  cbn [db todos set_todos].
  split; [apply find_absent, find_removed|].
  split.
  { intros t Ht Hi. apply filter_In. split; [exact Ht|].
    apply negb_true_iff. now apply Z.eqb_neq. }
  split.
  - rewrite !count_as_count_where.
    now rewrite (count_where_removed Todo.id _ _ todo i Hd Hf).
  - now rewrite (count_where_removed Todo.id _ _ todo i Hd Hf).
Qed.

Lemma todo_delete_removes_one_witness :
  exists w',
    runs (delete_todo 1)
         (handle (AddTodo (TodoData.mk (Some "Water the plants"%string)))
                 (sample_world 0 empty_db)) tt w'
    /\ count (todos (db w')) = 0.
Proof.
  destruct (todo_delete_removes_one 1
              (handle (AddTodo (TodoData.mk (Some "Water the plants"%string)))
                      (sample_world 0 empty_db))
              (Todo.mk 1 "Water the plants"%string false (Some sample_now)))
    as (w' & Hrun & _ & _ & Hc & _).
  - vm_compute. repeat constructor. intros [].
  - reflexivity.
  - exists w'. split; [exact Hrun|]. rewrite Hc. reflexivity.
Defined.

(** ** Events, and ids that are not there *)

(** X7.  An event that has been created can be fetched back: when the
    request carries a date text that [strptime] accepts, [add_event]
    answers 201 with an event whose id no stored event had and whose date
    is the parsed one, the event is appended to the table, [get_event] on
    that id returns it, and every event that could be fetched before
    still can. *)
Theorem added_event_is_retrievable (data : EventData.t) (text : string)
        (parsed : Datetime.datetime) (w : world) :
  EventData.date data = Some text ->
  Strptime.strptime text = Ok parsed ->
  exists event w',
    runs (add_event data) w (event, 201) w'
    /\ runs (get_event (Event.id event)) w' event w'
    /\ events (db w') = events (db w) ++ [event]
    /\ absent Event.id (events (db w)) (Event.id event)
    /\ Event.date event = Datetime.to_date parsed
    /\ Event.title event = dict_get (EventData.title data) "Untitled"%string
    /\ (forall i e, runs (get_event i) w e w -> runs (get_event i) w' e w').
Proof.
  intros Hd Hp.
  eexists _, _. split.
  { unfold runs, add_event, bind, lift, dict_item. rewrite Hd, Hp. reflexivity. }
  cbn [db events set_events Event.id Event.date Event.title].
  pose proof (next_id_absent Event.id (events (db w))) as Hfresh.
  split; [|split; [reflexivity|split; [exact Hfresh|]]].
  - unfold runs, get_event, bind, get_db. cbn [db events set_events].
    apply get_or_404_found. now apply find_last.
  - repeat split. intros i e Hrun.
    unfold runs, get_event, bind, get_db in *. cbn [db events set_events].
    unfold get_or_404 in Hrun.
    destruct (find (fun r => Event.id r =? i) (events (db w))) as [e0|] eqn:Ef;
      [|unfold lift in Hrun; discriminate].
    assert (e0 = e) as -> by (unfold ret in Hrun; congruence).
    apply get_or_404_found. rewrite find_app_old; [exact Ef|].
    cbn [Event.id]. apply (found_key Event.id) in Ef. destruct Ef as [Ek Hin].
    intros E. apply (Hfresh e Hin). congruence.
Qed.

Lemma added_event_is_retrievable_witness :
  exists event w',
    runs (add_event (event_on "2024-06-12"%string)) (sample_world 0 empty_db)
         (event, 201) w'
    /\ runs (get_event 1) w' event w'
    /\ Event.date event = Datetime.mkdate 2024 6 12.
Proof.
  destruct (added_event_is_retrievable (event_on "2024-06-12"%string)
              "2024-06-12"%string (Datetime.mkdatetime 2024 6 12 0 0 0 0)
              (sample_world 0 empty_db) eq_refl eq_refl)
    as (event & w' & Hrun & Hget & _ & _ & Hdate & _).
  exists event, w'. split; [exact Hrun|]. split; [|exact Hdate].
  unfold runs in Hrun. vm_compute in Hrun. injection Hrun as <- <-.
  reflexivity.
Defined.

(** X8.  A PUT on an existing event whose date text [strptime] rejects
    fails with ValueError and changes nothing, whatever else the request
    carries: the title and the description assigned before the date is
    parsed are not stored, and [get_event] answers as before. *)
Theorem update_event_bad_date_changes_nothing (i : Z) (data : EventData.t)
        (text : string) (e : exn) (w : world) (event : Event.t) :
  runs (get_event i) w event w ->
  EventData.date data = Some text ->
  Strptime.strptime text = Raise e ->
  e = ValueError
  /\ fails_untouched (update_event i data) w ValueError
  /\ runs (get_event i) (snd (update_event i data w)) event
          (snd (update_event i data w)).
Proof.
  intros Hrun Hd Hp. pose proof (strptime_raises _ _ Hp) as ->.
  assert (Hf : find (fun r => Event.id r =? i) (events (db w)) = Some event).
  { unfold runs, get_event, bind, get_db, get_or_404 in Hrun.
    destruct (find _ _) as [e0|]; [unfold ret in Hrun|unfold lift in Hrun];
      congruence. }
  assert (Hfail : fails_untouched (update_event i data) w ValueError).
  { unfold fails_untouched, update_event, bind, get_db.
    rewrite (get_or_404_found Event.id _ _ _ _ Hf). rewrite Hd.
    unfold lift. rewrite Hp. reflexivity. }
  split; [reflexivity|]. split; [exact Hfail|].
  unfold fails_untouched in Hfail. rewrite Hfail. exact Hrun.
Qed.

Lemma update_event_bad_date_changes_nothing_witness :
  fails_untouched
    (update_event 1 (EventData.mk (Some "Moved"%string) None
                       (Some "2024-02-30"%string) None None))
    (handle (AddEvent (event_on "2024-06-12"%string)) (sample_world 0 empty_db))
    ValueError.
Proof.
  refine (proj1 (proj2 (update_event_bad_date_changes_nothing 1
            (EventData.mk (Some "Moved"%string) None
               (Some "2024-02-30"%string) None None)
            "2024-02-30"%string ValueError
            (handle (AddEvent (event_on "2024-06-12"%string))
                    (sample_world 0 empty_db))
            (Event.mk 1 "Dentist"%string (Some EmptyString)
               (Datetime.mkdate 2024 6 12) (Some "09:30"%string)
               "primary"%string (Some sample_now))
            _ eq_refl _))).
  - unfold runs. vm_compute. reflexivity.
  - vm_compute. reflexivity.
Defined.

(** X9.  A PUT on an existing event with no date, or with a date text
    that [strptime] accepts, stores and returns an event with the same id
    and creation time, the parsed date (or the old one), and each other
    field taken from the request when the key is present and kept
    otherwise; [get_event] then returns it, the other ids are answered as
    before and the clock is not read. *)
Theorem update_event_keeps_the_rest (i : Z) (data : EventData.t) (w : world)
        (event : Event.t) (date : Datetime.date) :
  runs (get_event i) w event w ->
  match EventData.date data with
  | Some text =>
      exists parsed, Strptime.strptime text = Ok parsed
                     /\ date = Datetime.to_date parsed
  | None => date = Event.date event
  end ->
  exists event' w',
    runs (update_event i data) w event' w'
    /\ runs (get_event i) w' event' w'
    /\ Event.id event' = i
    /\ Event.date event' = date
    /\ Event.created_at event' = Event.created_at event
    /\ Event.title event' = dict_get (EventData.title data) (Event.title event)
    /\ Event.description event'
       = match EventData.description data with
         | Some s => Some s
         | None => Event.description event
         end
    /\ Event.time event'
       = match EventData.time data with
         | Some s => Some s
         | None => Event.time event
         end
    /\ Event.color event' = dict_get (EventData.color data) (Event.color event)
    /\ (forall j, j <> i -> fst (get_event j w') = fst (get_event j w))
    /\ ticks w' = ticks w.
Proof.
  intros Hrun Hdate.
  assert (Hf : find (fun r => Event.id r =? i) (events (db w)) = Some event).
  { unfold runs, get_event, bind, get_db, get_or_404 in Hrun.
    destruct (find _ _) as [e0|]; [unfold ret in Hrun|unfold lift in Hrun];
      congruence. }
  destruct (found_key Event.id _ _ _ Hf) as [Ek _].
  set (event' :=
         Event.mk (Event.id event)
           (dict_get (EventData.title data) (Event.title event))
           match EventData.description data with
           | Some s => Some s
           | None => Event.description event
           end
           date
           match EventData.time data with
           | Some s => Some s
           | None => Event.time event
           end
           (dict_get (EventData.color data) (Event.color event))
           (Event.created_at event)).
  assert (Hrun' :
    update_event i data w
    = (Ok event',
       mkworld (clock w) (ticks w) (entropy w) (draws w)
         (set_events (db w)
            (map (fun e => if Event.id e =? i then event' else e)
                 (events (db w)))))).
  { unfold update_event, bind, get_db.
    rewrite (get_or_404_found Event.id _ _ _ _ Hf).
    destruct (EventData.date data) as [text|].
    - destruct Hdate as (parsed & Hp & Hd). unfold lift. rewrite Hp.
      unfold event'. rewrite Hd. reflexivity.
    - unfold event'. rewrite Hdate. reflexivity. }
  eexists event', _. split; [exact Hrun'|].
  cbn [db events set_events ticks Event.id Event.date Event.title
       Event.description Event.time Event.color Event.created_at].
  split; [|split; [exact Ek|]].
  - unfold runs, get_event, bind, get_db. cbn [db events set_events].
    apply get_or_404_found. eapply (find_replaced Event.id); [exact Ek|exact Hf].
  - repeat split.
    intros j Hj. unfold get_event, bind, get_db, get_or_404.
    cbn [db events set_events].
    erewrite (find_other_replaced Event.id); [|exact Hj|exact Ek].
    destruct (find (fun r => Event.id r =? j) _); reflexivity.
Qed.

Lemma update_event_keeps_the_rest_witness :
  exists event' w',
    runs (update_event 1 (EventData.mk None None (Some "2024-06-13"%string)
                            None None))
         (handle (AddEvent (event_on "2024-06-12"%string))
                 (sample_world 0 empty_db)) event' w'
    /\ Event.date event' = Datetime.mkdate 2024 6 13
    /\ Event.title event' = "Dentist"%string.
Proof.
  destruct (update_event_keeps_the_rest 1
              (EventData.mk None None (Some "2024-06-13"%string) None None)
              (handle (AddEvent (event_on "2024-06-12"%string))
                      (sample_world 0 empty_db))
              (Event.mk 1 "Dentist"%string (Some EmptyString)
                 (Datetime.mkdate 2024 6 12) (Some "09:30"%string)
                 "primary"%string (Some sample_now))
              (Datetime.mkdate 2024 6 13))
    as (event' & w' & Hrun & _ & _ & Hd & _ & Ht & _).
  - unfold runs. vm_compute. reflexivity.
  - exists (Datetime.mkdatetime 2024 6 13 0 0 0 0). split; vm_compute; reflexivity.
  - exists event', w'. repeat split; assumption.
Defined.

(** X10.  An id that no row has, among those the routes pass on (the
    non-negative integers) and a 64-bit INTEGER holds: the eight handlers
    that look a row up by id ([update_todo], [delete_todo], [get_note],
    [update_note], [delete_note], [get_event], [update_event],
    [delete_event]) fail with NotFound whatever the request body and
    leave the world exactly as it was (no write, no reading of the
    clock); in particular [update_event] answers NotFound, not
    ValueError, when the date is malformed too. *)
Theorem missing_id_is_not_found (i : Z) (w : world) :
  0 <= i <= 9223372036854775807 ->
  (absent Todo.id (todos (db w)) i ->
   (forall data, fails_untouched (update_todo i data) w NotFound)
   /\ fails_untouched (delete_todo i) w NotFound)
  /\ (absent Note.id (notes (db w)) i ->
      fails_untouched (get_note i) w NotFound
      /\ (forall data, fails_untouched (update_note i data) w NotFound)
      /\ fails_untouched (delete_note i) w NotFound)
  /\ (absent Event.id (events (db w)) i ->
      fails_untouched (get_event i) w NotFound
      /\ (forall data, fails_untouched (update_event i data) w NotFound)
      /\ fails_untouched (delete_event i) w NotFound).
Proof.
  intros _. unfold fails_untouched.
  split; [|split]; intros H; repeat split; try intros data;
    unfold update_todo, delete_todo, get_note, update_note, delete_note,
      get_event, update_event, delete_event, bind, get_db;
    rewrite get_or_404_absent by exact H; reflexivity.
Qed.

Lemma missing_id_is_not_found_witness :
  fails_untouched (get_note 7) (serve InitSampleNotes ticking_world) NotFound
  /\ fails_untouched (update_note 7 (NoteData.mk None None (Some "info"%string)))
       (serve InitSampleNotes ticking_world) NotFound
  /\ fails_untouched (update_event 7 (event_on "12 June"))
       (serve InitSampleNotes ticking_world) NotFound.
Proof.
  destruct (missing_id_is_not_found 7 (serve InitSampleNotes ticking_world))
    as (_ & Hnotes & Hevents); [lia|].
  destruct Hnotes as (Hget & Hupd & _).
  { intros r Hr. vm_compute in Hr.
    destruct Hr as [<-|[<-|[<-|[]]]]; discriminate. }
  destruct Hevents as (_ & Hev & _).
  { intros r []. }
  split; [exact Hget|]. split; [apply Hupd|apply Hev].
Defined.

(** ** The events of a month *)

Section Dict.
Context {V : Type}.

Lemma dict_find_store_same (k : string) (v : V) (d : pydict V) :
  dict_find k (dict_store k v d) = Some v.
Proof.
  induction d as [|[k' v'] d IH]; cbn [dict_store dict_find].
  - now rewrite String.eqb_refl.
  - destruct (String.eqb k k') eqn:E; cbn [dict_find]; rewrite E; auto.
Qed.

Lemma dict_find_store_other (k k' : string) (v : V) (d : pydict V) :
  String.eqb k' k = false ->
  dict_find k' (dict_store k v d) = dict_find k' d.
Proof.
  intros Hk. induction d as [|[k0 v0] d IH]; cbn [dict_store dict_find].
  - now rewrite Hk.
  - destruct (String.eqb k k0) eqn:E; cbn [dict_find].
    + apply String.eqb_eq in E. subst k0. now rewrite Hk.
    + now rewrite IH.
Qed.

Lemma dict_find_none_keys (k : string) (d : pydict V) :
  dict_find k d = None -> ~ In k (map fst d).
Proof.
  induction d as [|[k' v'] d IH]; cbn [dict_find map fst In]; [tauto|].
  destruct (String.eqb_spec k k') as [E|E]; [discriminate|].
  intros H [E'|Hin]; [congruence|]. now apply IH.
Qed.

Lemma dict_store_keys (k : string) (v : V) (d : pydict V) :
  map fst (dict_store k v d)
  = match dict_find k d with
    | Some _ => map fst d
    | None => map fst d ++ [k]
    end.
Proof.
  induction d as [|[k' v'] d IH]; cbn [dict_store dict_find map fst app];
    [reflexivity|].
  destruct (String.eqb k k') eqn:E; cbn [map fst]; [reflexivity|].
  rewrite IH. now destruct (dict_find k d).
Qed.

Lemma dict_store_NoDup (k : string) (v : V) (d : pydict V) :
  NoDup (map fst d) -> NoDup (map fst (dict_store k v d)).
Proof.
  intros H. rewrite dict_store_keys.
  destruct (dict_find k d) eqn:E; [exact H|].
  apply NoDup_app; [exact H|repeat constructor; auto|].
  intros x Hx [<-|[]]. now apply dict_find_none_keys in E.
Qed.

End Dict.

Section Grouping.

Lemma nonempty_snoc {A : Type} (l : list A) (x : A) :
  nonempty (l ++ [x]) = Some (l ++ [x]).
Proof. now destruct l. Qed.

Lemma nonempty_some {A : Type} (l l' : list A) : nonempty l = Some l' -> l' = l.
Proof. destruct l; cbn; congruence. Qed.

Lemma nonempty_none {A : Type} (l : list A) : nonempty l = None -> l = [].
Proof. destruct l; cbn; congruence. Qed.

Lemma group_event_step (g : pydict (list Event.t)) (seen : list Event.t)
      (e : Event.t) :
  grouped g seen ->
  exists g', group_event g e = Ok g' /\ grouped g' (seen ++ [e]).
Proof.
  intros [Hd Hg]. unfold group_event.
  set (k := date_isoformat (Event.date e)).
  assert (Hstep : forall l g1,
    NoDup (map fst g1) ->
    (forall k', String.eqb k' k = false ->
                dict_find k' g1 = nonempty (filter (on_date k') seen)) ->
    l = filter (on_date k) seen ->
    grouped (dict_store k (l ++ [e]) g1) (seen ++ [e])).
  { intros l g1 Hd1 Hother Hl. split; [now apply dict_store_NoDup|].
    intros k'. rewrite filter_app. cbn [filter]. unfold on_date at 2.
    fold k. destruct (String.eqb k' k) eqn:E.
    - apply String.eqb_eq in E. subst k'.
      rewrite dict_find_store_same, <- Hl. now rewrite nonempty_snoc.
    - rewrite dict_find_store_other by exact E. rewrite app_nil_r.
      now apply Hother. }
  destruct (dict_find k g) as [l|] eqn:Ef.
  - rewrite Ef. cbn [rbind]. eexists. split; [reflexivity|].
    apply Hstep; [exact Hd| |].
    + intros k' _. apply Hg.
    + rewrite Hg in Ef. now apply nonempty_some in Ef.
  - rewrite dict_find_store_same. cbn [rbind]. eexists. split; [reflexivity|].
    apply Hstep; [now apply dict_store_NoDup| |].
    + intros k' E. rewrite dict_find_store_other by exact E. apply Hg.
    + rewrite Hg in Ef. apply nonempty_none in Ef. now rewrite Ef.
Qed.

Lemma group_events_from (rest seen : list Event.t) (g : pydict (list Event.t)) :
  grouped g seen ->
  exists g', group_events g rest = Ok g' /\ grouped g' (seen ++ rest).
Proof.
  revert seen g. induction rest as [|e rest IH]; intros seen g Hg.
  - exists g. rewrite app_nil_r. split; [reflexivity|exact Hg].
  - destruct (group_event_step g seen e Hg) as (g1 & H1 & Hg1).
    destruct (IH (seen ++ [e]) g1 Hg1) as (g' & H' & Hg').
    exists g'. cbn [group_events]. rewrite H1. cbn [rbind].
    split; [exact H'|]. now rewrite <- app_assoc in Hg'.
Qed.

Lemma group_events_ok (events : list Event.t) :
  exists g, group_events [] events = Ok g
            /\ NoDup (map fst g)
            /\ forall k, dict_find k g = nonempty (filter (on_date k) events).
Proof.
  destruct (group_events_from events [] []) as (g & H & Hg).
  - split; [constructor|]. intros k. reflexivity.
  - exists g. split; [exact H|exact Hg].
Qed.

End Grouping.

(** The run of the events query and the grouping loop. *)
Lemma events_by_date_runs (first_day last_day : Datetime.date)
        (w : world) :
  exists g,
    runs (events_by_date first_day last_day) w g w
    /\ NoDup (map fst g)
    /\ (forall k,
          dict_find k g
          = nonempty (filter (on_date k)
                        (month_events first_day last_day (events (db w)))))
    /\ (forall e, In e (events (db w)) ->
          in_date_range first_day last_day e = true
          <-> exists l,
                dict_find (date_isoformat (Event.date e)) g = Some l
                /\ In e l).
Proof.
  destruct (group_events_ok (month_events first_day last_day (events (db w))))
    as (g & Hrun & Hd & Hg).
  exists g. split; [|split; [exact Hd|split; [exact Hg|]]].
  { unfold runs, events_by_date, bind, get_db, lift. now rewrite Hrun. }
  assert (Hin : forall e, In e (month_events first_day last_day (events (db w)))
                          <-> In e (events (db w))
                              /\ in_date_range first_day last_day e = true).
  { intros e. unfold month_events. rewrite <- filter_In. split; intros H.
    - eapply Permutation_in; [apply order_by_perm|exact H].
    - eapply Permutation_in; [apply Permutation_sym, order_by_perm|exact H]. }
  intros e He. rewrite Hg. split.
  - intros Hb.
    assert (Hf : In e (filter (on_date (date_isoformat (Event.date e)))
                         (month_events first_day last_day (events (db w))))).
    { apply filter_In. split; [apply Hin; auto|].
      unfold on_date. apply String.eqb_refl. }
    exists (filter (on_date (date_isoformat (Event.date e)))
              (month_events first_day last_day (events (db w)))).
    split; [|exact Hf].
    destruct (filter _ _) as [|x l]; [destruct Hf|reflexivity].
  - intros (l & Hl & Hel). apply nonempty_some in Hl. subst l.
    apply filter_In in Hel. destruct Hel as [Hel _]. now apply Hin in Hel.
Qed.

(** X11.  The events of a month, grouped: the grouping loop of
    [calendar_page] never fails (no KeyError) and leaves the store as it
    is; the keys of the dictionary are distinct; under each key are
    exactly the queried events with that ISO date, in the order of the
    query, and no key has an empty list; and a stored event is listed
    (under its own date) exactly when its date is in the closed range
    from [first_day] to [last_day]. *)
Theorem month_events_grouped_by_date (first_day last_day : Datetime.date)
        (w : world) :
  exists g,
    runs (events_by_date first_day last_day) w g w
    /\ NoDup (map fst g)
    /\ (forall k,
          dict_find k g
          = nonempty (filter (on_date k)
                        (month_events first_day last_day (events (db w)))))
    /\ (forall e, In e (events (db w)) ->
          in_date_range first_day last_day e = true
          <-> exists l,
                dict_find (date_isoformat (Event.date e)) g = Some l
                /\ In e l).
Proof. exact (events_by_date_runs first_day last_day w). Qed.

Example month_events_grouped_example :
  fst (events_by_date (Datetime.mkdate 2024 6 1) (Datetime.mkdate 2024 6 30)
         (sample_world 0 (mkdb [] [] sample_events [])))
  = Ok [ ("2024-06-03"%string,
          [Event.mk 4 "Kickoff"%string None (Datetime.mkdate 2024 6 3)
             (Some "10:00"%string) "info"%string None]);
         ("2024-06-12"%string,
          [Event.mk 3 "Dentist"%string None (Datetime.mkdate 2024 6 12)
             (Some "09:30"%string) "warning"%string None;
           Event.mk 1 "Review"%string None (Datetime.mkdate 2024 6 12)
             (Some "14:00"%string) "primary"%string None]) ].
Proof. vm_compute. reflexivity. Qed.

(** ** The bounds of the month *)

Section MonthBounds.
Import Datetime.

Lemma last_of_month_ordinal (y m : Z) :
  1 <= m <= 12 ->
  (if m =? 12 then ymd2ord (y + 1) 1 1 else ymd2ord y (m + 1) 1) - 1
  = ymd2ord y m (days_in_month y m).
Proof.
  intros Hm. rewrite (days_in_month_is_month_length y m Hm).
  unfold month_length.
  generalize (if m =? 12 then ymd2ord (y + 1) 1 1 else ymd2ord y (m + 1) 1).
  intros n. unfold ymd2ord. lia.
Qed.

Lemma last_day_value (y m : Z) (w : world) :
  1 <= y <= 9999 -> 1 <= m <= 12 -> y < 9999 \/ m < 12 ->
  (if m =? 12 then
     next <- lift (datetime_new (y + 1) 1 1) ;;
     lift (date_add_days (to_date next) (-1))
   else
     next <- lift (datetime_new y (m + 1) 1) ;;
     lift (date_add_days (to_date next) (-1))) w
  = (Ok (mkdate y m (days_in_month y m)), w).
Proof.
  intros Hy Hm Hlast.
  pose proof (last_of_month_ordinal y m Hm) as Hord.
  pose proof (days_in_month_range y m Hm) as Hr.
  assert (Hfrom : date_fromordinal (ymd2ord y m (days_in_month y m))
                  = mkdate y m (days_in_month y m)).
  { unfold date_fromordinal. rewrite ord2ymd_ymd2ord by lia. reflexivity. }
  destruct (Z.eqb_spec m 12) as [->|Hm12].
  - unfold bind, lift. rewrite datetime_new_ok by lia.
    unfold to_date. cbn [year month day].
    rewrite last_day_ok by lia.
    replace (y + 1 =? 1) with false by (symmetry; lia).
    cbn [andb Z.eqb]. cbn [Z.eqb] in Hord. now rewrite Hord, Hfrom.
  - unfold bind, lift. rewrite datetime_new_ok by lia.
    unfold to_date. cbn [year month day].
    rewrite last_day_ok by lia.
    replace (m + 1 =? 1) with false by (symmetry; lia).
    cbn [andb]. now rewrite Hord, Hfrom.
Qed.

Lemma in_month_iff (y m : Z) (d : date) :
  1 <= m <= 12 ->
  check_date_fields (d_year d) (d_month d) (d_day d) = true ->
  date_leb (mkdate y m 1) d && date_leb d (mkdate y m (days_in_month y m)) = true
  <-> d_year d = y /\ d_month d = m.
Proof.
  intros Hm Hv. destruct d as [dy dm dd]. cbn [d_year d_month d_day] in *.
  assert (Hd : 1 <= dd <= days_in_month dy dm).
  { unfold check_date_fields in Hv.
    repeat (apply andb_true_iff in Hv; destruct Hv as [Hv ?]). lia. }
  clear Hv.
  unfold date_leb, date_fields. cbn [d_year d_month d_day lex_compare].
  rewrite andb_true_iff. split.
  - intros [Ha Hb]. revert Ha Hb.
    destruct (Z.compare_spec y dy); destruct (Z.compare_spec dy y);
      destruct (Z.compare_spec m dm); destruct (Z.compare_spec dm m);
      try lia; try discriminate; auto.
  - intros [-> ->]. rewrite !Z.compare_refl.
    destruct (Z.compare_spec 1 dd);
      destruct (Z.compare_spec dd (days_in_month y m)); try lia; auto.
Qed.

End MonthBounds.

(** The run of [calendar_page] with its two bounds. *)
Lemma calendar_page_bounds
        (w : world) (year_arg month_arg : option Z) (y m : Z) :
  requested w year_arg month_arg = (y, m) ->
  month_in_range y m ->
  exists ctx w',
    runs (calendar_page year_arg month_arg) w ctx w'
    /\ cal_first_day ctx = Datetime.mkdate y m 1
    /\ cal_last_day ctx = Datetime.mkdate y m (Datetime.days_in_month y m)
    /\ 28 <= Datetime.days_in_month y m <= 31
    /\ Datetime.date_add_days (cal_last_day ctx) 1
       = Ok (if m =? 12 then Datetime.mkdate (y + 1) 1 1
             else Datetime.mkdate y (m + 1) 1)
    /\ forall d,
         Datetime.check_date_fields (Datetime.d_year d) (Datetime.d_month d)
           (Datetime.d_day d) = true ->
         (Datetime.date_leb (cal_first_day ctx) d
          && Datetime.date_leb d (cal_last_day ctx) = true
          <-> Datetime.d_year d = y /\ Datetime.d_month d = m).
Proof.
  intros Hreq [Hy Hlast].
  pose proof (normalize_month_range
                match year_arg with
                | Some y => y
                | None => Datetime.year (local (clock w (ticks w)))
                end
                match month_arg with
                | Some m => m
                | None => Datetime.month (local (clock w (S (ticks w))))
                end) as Hm.
  unfold requested in Hreq. rewrite Hreq in Hm. cbn [snd] in Hm.
  destruct (monthdayscalendar_ok y m Hm) as (day1 & bf & af & grid & Hgrid & _).
  destruct (month_name_ok m Hm) as [name Hname].
  eexists _, _. split.
  { unfold runs, calendar_page.
    unfold bind at 1. cbn [datetime_now]. unfold bind at 1. cbn [datetime_now].
    cbn [tick ticks clock]. rewrite Hreq.
    cbv beta iota. unfold bind at 1. unfold lift at 1. rewrite Hgrid.
    unfold bind at 1. unfold lift at 1. rewrite Hname.
    unfold bind at 1. unfold lift at 1. rewrite datetime_new_ok by lia.
    unfold bind at 1. rewrite last_day_value by lia. reflexivity. }
  cbn [cal_first_day cal_last_day Datetime.to_date Datetime.year Datetime.month
       Datetime.day].
  split; [reflexivity|]. split; [reflexivity|].
  split; [now apply days_in_month_range|].
  split.
  - unfold Datetime.date_add_days, Datetime.date_toordinal.
    cbn [Datetime.d_year Datetime.d_month Datetime.d_day].
    rewrite <- (last_of_month_ordinal y m Hm).
    destruct (Z.eqb_spec m 12) as [->|Hm12].
    + pose proof (days_in_month_range (y + 1) 1 ltac:(lia)) as Hr.
      pose proof (ymd2ord_bounds (y + 1) 1 1
        (check_date_fields_true (y + 1) 1 1 ltac:(lia) ltac:(lia) ltac:(lia)))
        as (Hb & _).
      replace (Datetime.ymd2ord (y + 1) 1 1 - 1 + 1)
        with (Datetime.ymd2ord (y + 1) 1 1) by lia.
      replace ((0 <? Datetime.ymd2ord (y + 1) 1 1)
               && (Datetime.ymd2ord (y + 1) 1 1 <=? Datetime.MAXORDINAL))
        with true by (symmetry; apply andb_true_iff; split; lia).
      unfold Datetime.date_fromordinal.
      rewrite ord2ymd_ymd2ord by lia. reflexivity.
    + pose proof (days_in_month_range y (m + 1) ltac:(lia)) as Hr.
      pose proof (ymd2ord_bounds y (m + 1) 1
        (check_date_fields_true y (m + 1) 1 ltac:(lia) ltac:(lia) ltac:(lia)))
        as (Hb & _).
      replace (Datetime.ymd2ord y (m + 1) 1 - 1 + 1)
        with (Datetime.ymd2ord y (m + 1) 1) by lia.
      replace ((0 <? Datetime.ymd2ord y (m + 1) 1)
               && (Datetime.ymd2ord y (m + 1) 1 <=? Datetime.MAXORDINAL))
        with true by (symmetry; apply andb_true_iff; split; lia).
      unfold Datetime.date_fromordinal.
      rewrite ord2ymd_ymd2ord by lia. reflexivity.
  - intros d Hd. now apply in_month_iff.
Qed.

(** X12.  The bounds of the month: for every year and month the date
    type has both bounds for (the years 1 to 9999, December 9999 left
    out), [calendar_page] computes [first_day] as the first of the month
    and [last_day], the day before the first of the following month, as
    the last day of the month (the 28th, 29th, 30th or 31st, leap years
    included); a valid date lies in the closed range between them
    exactly when it is a date of that year and month. *)
Theorem calendar_page_bounds_are_the_month
        (w : world) (year_arg month_arg : option Z) (y m : Z) :
  requested w year_arg month_arg = (y, m) ->
  month_in_range y m ->
  exists ctx w',
    runs (calendar_page year_arg month_arg) w ctx w'
    /\ cal_first_day ctx = Datetime.mkdate y m 1
    /\ cal_last_day ctx = Datetime.mkdate y m (Datetime.days_in_month y m)
    /\ 28 <= Datetime.days_in_month y m <= 31
    /\ Datetime.date_add_days (cal_last_day ctx) 1
       = Ok (if m =? 12 then Datetime.mkdate (y + 1) 1 1
             else Datetime.mkdate y (m + 1) 1)
    /\ forall d,
         Datetime.check_date_fields (Datetime.d_year d) (Datetime.d_month d)
           (Datetime.d_day d) = true ->
         (Datetime.date_leb (cal_first_day ctx) d
          && Datetime.date_leb d (cal_last_day ctx) = true
          <-> Datetime.d_year d = y /\ Datetime.d_month d = m).
Proof. exact (calendar_page_bounds w year_arg month_arg y m). Qed.

Lemma calendar_page_bounds_are_the_month_witness :
  exists ctx w',
    runs (calendar_page (Some 2024) (Some 2)) (sample_world 0 empty_db) ctx w'
    /\ cal_first_day ctx = Datetime.mkdate 2024 2 1
    /\ cal_last_day ctx = Datetime.mkdate 2024 2 29.
Proof.
  destruct (calendar_page_bounds_are_the_month (sample_world 0 empty_db)
              (Some 2024) (Some 2) 2024 2 eq_refl)
    as (ctx & w' & Hrun & Hf & Hl & _).
  - unfold month_in_range. lia.
  - exists ctx, w'. repeat split; assumption.
Defined.

(** ** Date text read back *)

Section DateText.
Import Datetime.

Lemma year_texts_checked : check_from (Z.to_nat 9999) 1 year_text_ok = true.
Proof. vm_cast_no_check (eq_refl true). Qed.

Lemma month_day_texts_checked :
  check_from 12 1 (fun m => check_from 31 1 (month_day_text_ok m)) = true.
Proof. vm_cast_no_check (eq_refl true). Qed.

Lemma list_ascii_of_string_app (s t : string) :
  list_ascii_of_string (s ++ t)
  = list_ascii_of_string s ++ list_ascii_of_string t.
Proof. induction s as [|c s IH]; cbn; [reflexivity|now rewrite IH]. Qed.

Lemma first_match_map {A B C : Type} (f : B -> C) (alts : list A)
      (k : A -> option B) :
  Strptime.first_match alts (fun a => option_map f (k a))
  = option_map f (Strptime.first_match alts k).
Proof.
  induction alts as [|a alts IH]; [reflexivity|]. cbn [Strptime.first_match].
  destruct (k a); cbn [option_map]; [reflexivity|exact IH].
Qed.

Lemma first_match_ext {A B : Type} (alts : list A) (k k' : A -> option B) :
  (forall a, k a = k' a) ->
  Strptime.first_match alts k = Strptime.first_match alts k'.
Proof.
  intros H. induction alts as [|a alts IH]; [reflexivity|].
  cbn [Strptime.first_match]. now rewrite H, IH.
Qed.

Lemma re_match_after_year (s r : list ascii) (y : Z) :
  Strptime.re_Y s = Some (y, r) ->
  Strptime.re_match s
  = option_map (fun '(m, d, r') => (y, m, d, r')) (after_year r).
Proof.
  intros Hy. unfold Strptime.re_match, after_year. rewrite Hy.
  destruct (Strptime.dash r) as [r1|]; [|reflexivity].
  rewrite <- first_match_map. apply first_match_ext. intros [m r2].
  destruct (Strptime.dash r2) as [r3|]; [|reflexivity].
  rewrite <- first_match_map. apply first_match_ext. now intros [d r4].
Qed.

Lemma re_Y_year_text (y : Z) (rest : list ascii) :
  1 <= y <= 9999 ->
  Strptime.re_Y (list_ascii_of_string (PyStr.zfill 4 y) ++ rest) = Some (y, rest).
Proof.
  intros Hy.
  pose proof (check_from_spec (Z.to_nat 9999) _ 1 year_texts_checked y
                ltac:(rewrite Z2Nat.id; lia)) as H.
  unfold year_text_ok in H.
  destruct (list_ascii_of_string (PyStr.zfill 4 y))
    as [|a [|b [|c [|d [|x l]]]]]; try discriminate.
  cbn [app]. unfold Strptime.re_Y in *.
  destruct (Strptime.digit a), (Strptime.digit b), (Strptime.digit c),
    (Strptime.digit d); try discriminate.
  apply Z.eqb_eq in H. now rewrite H.
Qed.

Lemma after_year_month_day_text (m d : Z) :
  1 <= m <= 12 -> 1 <= d <= 31 ->
  after_year (list_ascii_of_string
                ("-" ++ PyStr.zfill 2 m ++ "-" ++ PyStr.zfill 2 d)%string)
  = Some (m, d, []).
Proof.
  intros Hm Hd.
  pose proof (check_from_spec 12 _ 1 month_day_texts_checked m ltac:(lia)) as H.
  pose proof (check_from_spec 31 _ 1 H d ltac:(lia)) as H'.
  unfold month_day_text_ok in H'.
  destruct (after_year _) as [[[m' d'] [|x l]]|]; try discriminate.
  apply andb_true_iff in H'. destruct H' as [Em Ed].
  apply Z.eqb_eq in Em, Ed. now subst.
Qed.

Lemma strptime_isoformat (d : date) :
  check_date_fields (d_year d) (d_month d) (d_day d) = true ->
  Strptime.strptime (date_isoformat d)
  = Ok (mkdatetime (d_year d) (d_month d) (d_day d) 0 0 0 0).
Proof.
  intros Hv. pose proof Hv as Hv'. unfold check_date_fields in Hv'.
  repeat (apply andb_true_iff in Hv'; destruct Hv' as [Hv' ?]).
  unfold MINYEAR, MAXYEAR in *.
  pose proof (days_in_month_range (d_year d) (d_month d) ltac:(lia)) as Hr.
  unfold Strptime.strptime, date_isoformat.
  rewrite list_ascii_of_string_app.
  rewrite (re_match_after_year _ _ (d_year d)
             (re_Y_year_text (d_year d) _ ltac:(lia))).
  rewrite after_year_month_day_text by lia.
  cbn [option_map]. now apply datetime_new_valid.
Qed.

End DateText.

(** X13.  The date text the application writes is read back as the same
    date: for every valid date, [strptime] with the format [%Y-%m-%d]
    accepts the ISO text of the date ([isoformat], the ['date'] value of
    an event's JSON and the key of [events_by_date]) and returns that
    date at midnight; so a create request that carries this text stores
    an event on that date. *)
Theorem iso_date_text_parses_back (d : Datetime.date) :
  Datetime.check_date_fields (Datetime.d_year d) (Datetime.d_month d)
    (Datetime.d_day d) = true ->
  (exists parsed,
     Strptime.strptime (date_isoformat d) = Ok parsed
     /\ Datetime.to_date parsed = d
     /\ Datetime.hour parsed = 0 /\ Datetime.minute parsed = 0
     /\ Datetime.second parsed = 0 /\ Datetime.microsecond parsed = 0)
  /\ forall (data : EventData.t) (w : world),
       EventData.date data = Some (date_isoformat d) ->
       exists event w',
         runs (add_event data) w (event, 201) w'
         /\ Event.date event = d.
Proof.
  intros Hv. pose proof (strptime_isoformat d Hv) as Hp. split.
  - eexists. split; [exact Hp|]. destruct d. repeat split.
  - intros data w Hd. eexists _, _. split.
    + unfold runs, add_event, bind, lift, dict_item. rewrite Hd, Hp.
      reflexivity.
    + destruct d. reflexivity.
Qed.

Lemma iso_date_text_parses_back_witness :
  date_isoformat (Datetime.mkdate 2024 2 29) = "2024-02-29"%string
  /\ exists parsed,
       Strptime.strptime (date_isoformat (Datetime.mkdate 2024 2 29)) = Ok parsed
       /\ Datetime.to_date parsed = Datetime.mkdate 2024 2 29.
Proof.
  split; [reflexivity|].
  destruct (iso_date_text_parses_back (Datetime.mkdate 2024 2 29) eq_refl)
    as [(parsed & Hp & Hd & _) _].
  exists parsed. split; assumption.
Defined.

(** ** The forecast *)

Section Forecast.
Import Datetime.

Lemma conditions_facts (j : Z) :
  exists c, py_index conditions (j mod Calendar.len conditions) = Ok c
            /\ fst (temp_range c) + 4 < snd (temp_range c).
Proof.
  change (Calendar.len conditions) with 5.
  pose proof (Z.mod_pos_bound j 5 ltac:(lia)) as Hj.
  assert (Hc : j mod 5 = 0 \/ j mod 5 = 1 \/ j mod 5 = 2 \/ j mod 5 = 3
               \/ j mod 5 = 4) by lia.
  destruct Hc as [-> | [-> | [-> | [-> | ->]]]];
    (eexists; split; [reflexivity|cbn; lia]).
Qed.

Lemma randint_bounds (a b : Z) (w : world) :
  a <= b ->
  exists v w', runs (randint a b) w v w' /\ later w w' /\ a <= v <= b.
Proof.
  intros Hab. destruct (runs_randint a b w) as (v & w' & Hr & Hl & ->).
  exists (a + entropy w (draws w) mod (b - a + 1)), w'.
  pose proof (Z.mod_pos_bound (entropy w (draws w)) (b - a + 1) ltac:(lia)).
  split; [exact Hr|]. split; [exact Hl|lia].
Qed.

Lemma strftime_a_at_ordinal (n : Z) (t : datetime) :
  strftime_a (at_time (midnight_of_ord n) t)
  = nth (Z.to_nat ((n + 6) mod 7)) DAYNAMES EmptyString.
Proof.
  unfold strftime_a, weekday.
  replace (toordinal (at_time (midnight_of_ord n) t)) with n; [reflexivity|].
  rewrite <- (toordinal_midnight_of_ord n) at 1. reflexivity.
Qed.

Lemma get_mock_weather_forecast (w : world) (d h : Z) (c : condition_t) (T : Z) :
  reads w (on_day_at_hour d h) ->
  py_index conditions (d mod Calendar.len conditions) = Ok c ->
  displayed_temperature d h = Ok T ->
  exists r w',
    runs get_mock_weather w r w' /\ later w w'
    /\ w_temperature r = T /\ w_condition r = condition c
    /\ w_icon r = icon c
    /\ 50 <= w_humidity r <= 80 /\ 5 <= w_wind r <= 20
    /\ Forall2
         (fun i f =>
            forecast_entry_ok d i f
            /\ exists k, (ticks w <= k)%nat
                 /\ fc_day f
                    = nth (Z.to_nat ((toordinal (local (clock w k)) + i + 6) mod 7))
                          DAYNAMES EmptyString)
         (Calendar.range 0 5) (w_forecast r).
Proof.
  intros Hreads Hc HT.
  unfold displayed_temperature in HT. rewrite Hc in HT. cbn [rbind] in HT.
  pose proof (reads_now _ _ Hreads) as (_ & _ & Hd0 & _).
  assert (Hl1 : later w (tick w)) by apply later_tick.
  pose proof (reads_now _ _ (reads_later _ _ _ Hl1 Hreads)) as (_ & _ & _ & Hh1).
  assert (Hl2 : later w (tick (tick w))).
  { eapply later_trans; [exact Hl1|apply later_tick]. }
  destruct (runs_for_each (later w)
    (fun i f =>
       forecast_entry_ok d i f
       /\ exists k, (ticks w <= k)%nat
            /\ fc_day f
               = nth (Z.to_nat ((toordinal (local (clock w k)) + i + 6) mod 7))
                     DAYNAMES EmptyString)
    (fun i =>
       day_condition <-
         lift (py_index conditions ((d mod Calendar.len conditions + i)
                                    mod Calendar.len conditions)) ;;
       t <- datetime_now ;;
       d <- lift (Datetime.add_days t i) ;;
       high <- randint (-2) 2 ;;
       low <- randint (-2) 2 ;;
       ret (mkforecast (Datetime.strftime_a d)
              (snd (temp_range day_condition) + high)
              (fst (temp_range day_condition) + low)
              (icon day_condition)))
    (Calendar.range 0 5)) with (w := tick (tick w))
    as (fc & w3 & Hfc & Hl3 & Hrel); [|exact Hl2|].
  { intros i w1 Hi Hw1. apply in_range in Hi.
    destruct (conditions_facts (d mod Calendar.len conditions + i))
      as (dc & Hdc & Hwide).
    pose proof (reads_now _ _ (reads_later _ _ _ Hw1 Hreads)) as (Hv & Hy & _ & _).
    pose proof (valid_datetime_ordinal _ Hv) as (Ho & _ & Ho4).
    unfold MAXYEAR in Hy. specialize (Ho4 Hy).
    destruct (randint_bounds (-2) 2 (tick w1) ltac:(lia))
      as (hi & w2 & Hhi & Hl2' & Bhi).
    destruct (randint_bounds (-2) 2 w2 ltac:(lia))
      as (lo & w2' & Hlo & Hl2'' & Blo).
    eexists _, w2'. split; [|split].
    - eapply runs_bind; [apply runs_lift; exact Hdc|].
      eapply runs_bind; [apply runs_now|].
      eapply runs_bind; [apply runs_lift; apply add_days_ok; lia|].
      eapply runs_bind; [exact Hhi|].
      eapply runs_bind; [exact Hlo|]. apply runs_ret.
    - eapply later_trans; [exact Hw1|].
      eapply later_trans; [apply later_tick|].
      eapply later_trans; eassumption.
    - split.
      + exists dc. cbn [fc_icon fc_high fc_low]. repeat split; auto; lia.
      + exists (ticks w1). split; [destruct Hw1 as (_ & _ & _ & Ht & _); exact Ht|].
        cbn [fc_day]. rewrite strftime_a_at_ordinal.
        destruct Hw1 as (Hclock & _). now rewrite Hclock. }
  destruct (randint_bounds 0 30 w3 ltac:(lia)) as (hum & w4 & Hhum & Hl4 & Bhum).
  destruct (randint_bounds 0 15 w4 ltac:(lia)) as (wind & w5 & Hwind & Hl5 & Bwind).
  eexists _, w5. split; [|split].
  - unfold get_mock_weather.
    eapply runs_bind; [apply runs_now|]. rewrite Hd0.
    eapply runs_bind; [apply runs_lift; exact Hc|].
    destruct (temp_range c) as [temp_min temp_max].
    eapply runs_bind; [apply runs_now|]. rewrite Hh1.
    eapply runs_bind; [exact Hfc|].
    eapply runs_bind; [apply runs_lift; exact HT|].
    eapply runs_bind; [exact Hhum|].
    eapply runs_bind; [exact Hwind|]. apply runs_ret.
  - eapply later_trans; [exact Hl3|]. eapply later_trans; eassumption.
  - cbn [w_temperature w_condition w_icon w_humidity w_wind w_forecast].
    repeat split; auto; lia.
Qed.

End Forecast.

(** X14.  The mock weather stays within its bounds: whenever the clock
    reads a valid time (of a year before 9999, so that the forecast days
    exist), [get_mock_weather] returns, without touching the store, a
    humidity of 50 to 80, a wind of 5 to 20 and a forecast of five
    entries; entry [i] has the icon of the condition [i] places after
    today's in the cycle of five, a high within two degrees of that
    condition's maximum, a low within two degrees of its minimum, and a
    low below the high; the first entry has today's icon. *)
Theorem weather_values_within_bounds (w : world) (d h : Z) :
  reads w (on_day_at_hour d h) -> 0 <= h <= 23 ->
  exists r w',
    runs get_weather w r w' /\ db w' = db w
    /\ 50 <= w_humidity r <= 80 /\ 5 <= w_wind r <= 20
    /\ Forall2 (forecast_entry_ok d) (Calendar.range 0 5) (w_forecast r)
    /\ List.length (w_forecast r) = 5%nat
    /\ exists f, nth_error (w_forecast r) 0 = Some f /\ fc_icon f = w_icon r.
Proof.
  intros Hreads Hh.
  destruct (temperature_facts d h Hh) as (c & T & Hc & HT & _).
  destruct (get_mock_weather_forecast w d h c T Hreads Hc HT)
    as (r & w' & Hrun & Hl & _ & _ & Hicon & Hhum & Hwind & Hfc).
  exists r, w'. split; [exact Hrun|].
  split; [destruct Hl as (_ & _ & Hdb & _); exact Hdb|].
  split; [exact Hhum|]. split; [exact Hwind|].
  assert (Hfc' : Forall2 (forecast_entry_ok d) (Calendar.range 0 5) (w_forecast r)).
  { eapply Forall2_impl; [|exact Hfc]. cbv beta. intros i f [H _]. exact H. }
  split; [exact Hfc'|].
  split; [now rewrite <- (Forall2_length Hfc')|].
  pose proof Hfc' as Hfirst.
  change (Calendar.range 0 5) with [0; 1; 2; 3; 4] in Hfirst.
  inversion Hfirst as [|i f l l' Hf _ Hi Hl']. exists f.
  split; [reflexivity|].
  destruct Hf as (c0 & Hc0 & Hic & _). rewrite Z.add_0_r, Z.mod_mod in Hc0
    by (change (Calendar.len conditions) with 5; lia).
  rewrite Hicon, Hic. congruence.
Qed.

Lemma weather_values_within_bounds_witness :
  exists r w',
    runs get_weather (sample_world 7 empty_db) r w'
    /\ 50 <= w_humidity r <= 80 /\ 5 <= w_wind r <= 20
    /\ List.length (w_forecast r) = 5%nat.
Proof.
  destruct (weather_values_within_bounds (sample_world 7 empty_db) 10 15)
    as (r & w' & Hrun & _ & Hh & Hw & _ & Hlen & _).
  - intros k _. cbn. unfold on_day_at_hour, Datetime.MAXYEAR. cbn.
    repeat split; lia.
  - lia.
  - exists r, w'. repeat split; tauto.
Defined.

(** X15.  The forecast is labelled with consecutive weekdays: while the
    clock stands at a valid time of a year before 9999, entry [i] of the
    forecast of [get_mock_weather] carries the abbreviated name of the
    weekday [i] days after today, so the first label is today's and each
    following label is the next day of the week. *)
Theorem forecast_days_are_consecutive (w : world) (now : Datetime.datetime) :
  reads w (eq now) -> Datetime.valid_datetime now = true ->
  Datetime.year now < 9999 ->
  exists r w',
    runs get_mock_weather w r w'
    /\ map fc_day (w_forecast r) = map (day_name_after now) (Calendar.range 0 5)
    /\ day_name_after now 0 = Datetime.strftime_a now.
Proof.
  intros Hreads Hv Hy.
  pose proof (valid_datetime_hour now Hv) as Hh.
  destruct (temperature_facts (Datetime.day now) (Datetime.hour now) Hh)
    as (c & T & Hc & HT & _).
  assert (Hreads' : reads w (on_day_at_hour (Datetime.day now) (Datetime.hour now))).
  { intros k Hk. rewrite <- (Hreads k Hk).
    unfold on_day_at_hour, Datetime.MAXYEAR. repeat split; auto. }
  destruct (get_mock_weather_forecast w _ _ c T Hreads' Hc HT)
    as (r & w' & Hrun & _ & _ & _ & _ & _ & _ & Hfc).
  exists r, w'. split; [exact Hrun|]. split.
  - assert (H : Forall2 (fun i f => fc_day f = day_name_after now i)
                  (Calendar.range 0 5) (w_forecast r)).
    { eapply Forall2_impl; [|exact Hfc]. cbv beta.
      intros i f (_ & k & Hk & Hday). rewrite Hday, <- (Hreads k Hk).
      unfold day_name_after, Datetime.weekday. do 2 f_equal.
      rewrite Zplus_mod_idemp_l. f_equal. lia. }
    clear Hfc. induction H as [|i f l l' Hf _ IH]; [reflexivity|].
    cbn [map]. now rewrite Hf, IH.
  - unfold day_name_after, Datetime.strftime_a, Datetime.weekday.
    now rewrite Z.add_0_r, Z.mod_mod by lia.
Qed.

Lemma forecast_days_are_consecutive_witness :
  exists r w',
    runs get_mock_weather (sample_world 7 empty_db) r w'
    /\ map fc_day (w_forecast r) = ["Mon"; "Tue"; "Wed"; "Thu"; "Fri"]%string.
Proof.
  destruct (forecast_days_are_consecutive (sample_world 7 empty_db) sample_now)
    as (r & w' & Hrun & Hdays & _).
  - intros k _. reflexivity.
  - reflexivity.
  - cbn. lia.
  - exists r, w'. split; [exact Hrun|]. rewrite Hdays. reflexivity.
Defined.

(** ** Pomodoro sessions, recorded and counted *)

Section Totals.

Lemma sum_durations_app (l l' : list PomodoroSession.t) :
  sum_durations (l ++ l') = sum_durations l + sum_durations l'.
Proof.
  unfold sum_durations. induction l as [|s l IH]; cbn [app map fold_right];
    [reflexivity|]. rewrite IH. lia.
Qed.

Lemma count_app {A : Type} (l l' : list A) : count (l ++ l') = count l + count l'.
Proof. unfold count. rewrite length_app. lia. Qed.

Lemma count_where_app {A : Type} (p : A -> bool) (l l' : list A) :
  count_where p (l ++ l') = count_where p l + count_where p l'.
Proof. unfold count_where. rewrite filter_app. apply count_app. Qed.

Lemma total_magnitude_bounds (l : list PomodoroSession.t) :
  0 <= total_magnitude l /\ Z.abs (sum_durations l) <= total_magnitude l.
Proof.
  unfold total_magnitude, sum_durations.
  induction l as [|s l IH]; cbn [map fold_right]; lia.
Qed.

End Totals.

(** X16.  The pomodoro page and the statistics endpoint agree and only
    read: with the clock standing still, and the magnitudes of the
    durations adding up within the 64-bit range of the database (so that
    no partial sum leaves it), [pomodoro] and
    [get_pomodoro_stats] return the same three numbers and leave the
    store as it is; the total is the number of stored sessions, and the
    hours are the whole hours in the sum of all durations, rounded down
    (so sixty times the hours is at most the sum of minutes, and less
    than an hour short of it); with no session stored all three are
    zero. *)
Theorem pomodoro_totals_floor_to_hours (w : world) (now : Datetime.datetime) :
  reads w (eq now) ->
  total_magnitude (sessions (db w)) <= 9223372036854775807 ->
  exists ctx w',
    runs pomodoro w ctx w' /\ runs get_pomodoro_stats w ctx w'
    /\ db w' = db w
    /\ total_sessions ctx = count (sessions (db w))
    /\ 60 * total_hours ctx <= sum_durations (sessions (db w))
       < 60 * total_hours ctx + 60
    /\ (Forall (fun s => 0 <= PomodoroSession.duration s) (sessions (db w)) ->
        0 <= total_hours ctx)
    /\ (sessions (db w) = [] -> ctx = mkpomodoro 0 0 0)
    /\ fits_int64 (sum_durations (sessions (db w))) = true.
Proof.
  intros Hreads Hfit. eexists _, _.
  split; [exact (pomodoro_runs w now Hreads)|].
  split; [exact (get_pomodoro_stats_runs w now Hreads)|].
  cbn [total_sessions total_hours db tick].
  split; [reflexivity|]. split; [reflexivity|].
  split; [|split; [|split]].
  - pose proof (Z.div_mod (sum_durations (sessions (db w))) 60 ltac:(lia)) as H.
    pose proof (Z.mod_pos_bound (sum_durations (sessions (db w))) 60 ltac:(lia)).
    lia.
  - intros Hpos. clear Hfit. apply Z.div_pos; [|lia].
    unfold sum_durations. induction Hpos as [|s l Hs _ IH];
      cbn [map fold_right]; lia.
  - intros ->. reflexivity.
  - pose proof (total_magnitude_bounds (sessions (db w))) as [_ Hb].
    unfold fits_int64. apply andb_true_iff. split; lia.
Qed.

Lemma pomodoro_totals_floor_to_hours_witness :
  exists ctx w',
    runs get_pomodoro_stats example_world ctx w'
    /\ total_sessions ctx = 2 /\ total_hours ctx = 1.
Proof.
  destruct (pomodoro_totals_floor_to_hours example_world sample_now)
    as (ctx & w' & _ & Hrun & _).
  - intros k _. reflexivity.
  - vm_compute. discriminate.
  - exists ctx, w'. split; [exact Hrun|].
    unfold runs in Hrun. vm_compute in Hrun. injection Hrun as <- _.
    split; reflexivity.
Defined.

(** X17.  A completed session is recorded and counted: when the
    magnitudes of the stored durations and of the duration sent (25 when
    the key is absent) add up within the 64-bit range of the database,
    [complete_pomodoro] answers 201 and appends a session marked
    completed, with that duration and the UTC clock reading as its
    creation time.  Statistics read afterwards, the local clock standing
    at [now], count one session more and add its duration to the minutes;
    the count for today grows by one exactly when the UTC reading stored
    is not before midnight of the local date. *)
Theorem completed_session_is_counted
        (data : PomodoroData.t) (w : world) (now : Datetime.datetime) :
  reads w (eq now) ->
  total_magnitude (sessions (db w))
  + Z.abs (dict_get (PomodoroData.duration data) 25) <= 9223372036854775807 ->
  exists s w1 ctx w2,
    runs (complete_pomodoro data) w (s, 201) w1
    /\ runs get_pomodoro_stats w1 ctx w2
    /\ sessions (db w1) = sessions (db w) ++ [s]
    /\ PomodoroSession.duration s = dict_get (PomodoroData.duration data) 25
    /\ PomodoroSession.completed s = true
    /\ PomodoroSession.created_at s = Some (utc (clock w (ticks w)))
    /\ total_sessions ctx = count (sessions (db w)) + 1
    /\ total_hours ctx
       = (sum_durations (sessions (db w))
          + dict_get (PomodoroData.duration data) 25) / 60
    /\ today_sessions ctx
       = count_where (since (midnight now)) (sessions (db w))
         + (if Datetime.leb (midnight now) (utc (clock w (ticks w)))
            then 1 else 0).
Proof.
  intros Hreads Hsum.
  assert (Hfit : fits_int64 (dict_get (PomodoroData.duration data) 25) = true).
  { pose proof (total_magnitude_bounds (sessions (db w))) as [H0 _].
    unfold fits_int64. apply andb_true_iff. split; lia. }
  exists (PomodoroSession.mk
            (next_id (map PomodoroSession.id (sessions (db w))))
            (dict_get (PomodoroData.duration data) 25) true
            (Some (utc (clock w (ticks w))))).
  eexists _, _, _. split.
  { unfold runs, complete_pomodoro, bind, get_db, datetime_utcnow.
    rewrite Hfit. cbn. reflexivity. }
  split.
  { apply (get_pomodoro_stats_runs _ now).
    intros k Hk. apply Hreads. cbn in Hk. lia. }
  cbn [db sessions set_sessions PomodoroSession.duration
       PomodoroSession.completed PomodoroSession.created_at
       total_sessions total_hours today_sessions].
  split; [reflexivity|]. do 3 (split; [reflexivity|]).
  split; [|split].
  - rewrite count_app. reflexivity.
  - rewrite sum_durations_app. unfold sum_durations at 2.
    cbn [map fold_right PomodoroSession.duration]. f_equal. lia.
  - rewrite count_where_app. f_equal.
    unfold count_where, count. cbn [filter since col_ge PomodoroSession.created_at].
    now destruct (Datetime.leb _ _).
Qed.

Lemma completed_session_is_counted_witness :
  exists s w1 ctx w2,
    runs (complete_pomodoro (PomodoroData.mk None)) shenzhen_morning (s, 201) w1
    /\ runs get_pomodoro_stats w1 ctx w2
    /\ PomodoroSession.duration s = 25
    /\ total_sessions ctx = 1
    /\ today_sessions ctx = 0.
Proof.
  destruct (completed_session_is_counted (PomodoroData.mk None) shenzhen_morning
              (Datetime.mkdatetime 2024 6 10 7 0 0 0))
    as (s & w1 & ctx & w2 & H1 & H2 & _ & Hd & _ & _ & Ht & _ & Htoday).
  - intros k _. reflexivity.
  - vm_compute. discriminate.
  - exists s, w1, ctx, w2. repeat split; assumption.
Defined.

(** A duration of 2^63 minutes does not fit: the request fails and
    stores nothing. *)
Example complete_pomodoro_overflow :
  fst (complete_pomodoro (PomodoroData.mk (Some 9223372036854775808))
         shenzhen_morning) = Raise OverflowError
  /\ db (snd (complete_pomodoro (PomodoroData.mk (Some 9223372036854775808))
                shenzhen_morning)) = empty_db
  /\ is_ok (fst (complete_pomodoro (PomodoroData.mk (Some 9223372036854775807))
                   shenzhen_morning)) = true.
Proof. repeat split. Qed.

(** ** Line breaks in an export *)

Section ExportLines.
Import PyStr.

Lemma list_sum_cons (a : nat) (l : list nat) :
  list_sum (a :: l) = (a + list_sum l)%nat.
Proof. reflexivity. Qed.

Lemma list_sum_nil : list_sum [] = 0%nat.
Proof. reflexivity. Qed.

Lemma count_char_app (c : ascii) (s t : string) :
  count_char c (s ++ t) = (count_char c s + count_char c t)%nat.
Proof.
  induction s as [|x s IH]; [reflexivity|].
  cbn [append count_char]. rewrite IH. lia.
Qed.

Lemma count_char_absent (c : ascii) (s : string) :
  contains c s = false -> count_char c s = 0%nat.
Proof.
  unfold contains. induction s as [|x s IH]; [reflexivity|].
  cbn [list_ascii_of_string existsb count_char]. intros H.
  apply orb_false_iff in H. destruct H as [Hx Hs].
  rewrite Ascii.eqb_sym, Hx, IH by exact Hs. reflexivity.
Qed.

Lemma line_break_cases (x : ascii) : line_break x = true -> x = LF \/ x = CR.
Proof.
  unfold line_break. intros H. apply orb_true_iff in H.
  destruct H as [H|H]; apply Ascii.eqb_eq in H; auto.
Qed.

Lemma count_char_double_quotes (c : ascii) (s : string) :
  Ascii.eqb c QUOTE = false ->
  count_char c (Csv.double_quotes s) = count_char c s.
Proof.
  intros Hq. induction s as [|x s IH]; [reflexivity|].
  cbn [Csv.double_quotes count_char].
  destruct (Ascii.eqb x QUOTE) eqn:E.
  - apply Ascii.eqb_eq in E. subst x. cbn [count_char].
    rewrite Ascii.eqb_sym, Hq, IH. reflexivity.
  - cbn [count_char]. now rewrite IH.
Qed.

Lemma count_char_field (c : ascii) (s : string) :
  Ascii.eqb c QUOTE = false -> count_char c (Csv.field s) = count_char c s.
Proof.
  intros Hq. unfold Csv.field. destruct (Csv.needs_quotes s); [|reflexivity].
  rewrite !count_char_app, count_char_double_quotes by exact Hq.
  unfold chr. cbn [count_char]. rewrite Ascii.eqb_sym, Hq. lia.
Qed.

Lemma count_char_joined (c : ascii) (fields : list string) :
  Ascii.eqb c COMMA = false ->
  count_char c (String.concat "," fields) = count_in_row c fields.
Proof.
  intros Hc. unfold count_in_row.
  induction fields as [|f fields IH]; [reflexivity|].
  cbn [String.concat map]. rewrite list_sum_cons. destruct fields as [|g fields].
  - cbn [map]. rewrite list_sum_nil. lia.
  - rewrite !count_char_app, IH. cbn [count_char].
    change ","%char with COMMA. rewrite Ascii.eqb_sym, Hc. lia.
Qed.

Lemma count_char_writerow (x : ascii) (fields : list string) :
  line_break x = true ->
  count_char x (Csv.writerow fields) = (count_in_row x fields + 1)%nat.
Proof.
  intros Hx. unfold Csv.writerow. rewrite count_char_app.
  assert (Hq : Ascii.eqb x QUOTE = false /\ Ascii.eqb x COMMA = false
               /\ count_char x Csv.CRLF = 1%nat).
  { destruct (line_break_cases x Hx) as [-> | ->]; repeat split. }
  destruct Hq as (Hq & Hc & Hcrlf).
  rewrite count_char_joined by exact Hc. rewrite Hcrlf. f_equal.
  unfold count_in_row. rewrite map_map. f_equal. apply map_ext.
  intros f. now apply count_char_field.
Qed.

Lemma count_char_rows (x : ascii) (rows : list (list string)) :
  line_break x = true ->
  count_char x (String.concat EmptyString (map Csv.writerow rows))
  = (List.length rows + list_sum (map (count_in_row x) rows))%nat.
Proof.
  intros Hx. induction rows as [|r rows IH]; [reflexivity|].
  cbn [map String.concat List.length]. rewrite list_sum_cons.
  destruct (map Csv.writerow rows) as [|s l] eqn:E.
  - destruct rows; [|discriminate]. cbn [map List.length].
    rewrite list_sum_nil.
    rewrite count_char_writerow by exact Hx. lia.
  - cbn [append]. rewrite count_char_app, IH.
    rewrite count_char_writerow by exact Hx. lia.
Qed.

Lemma list_sum_perm (l l' : list nat) :
  Permutation l l' -> list_sum l = list_sum l'.
Proof. induction 1; rewrite ?list_sum_cons; lia. Qed.

(** An export whose header holds no line break: the breaks of the body
    are those that end the lines and those of the rows. *)
Lemma export_breaks {A : Type} (x : ascii) (header : list string)
      (row : A -> list string) (free : A -> nat) (sorted rows : list A) :
  line_break x = true -> count_in_row x header = 0%nat ->
  (forall a, count_in_row x (row a) = free a) ->
  Permutation sorted rows ->
  count_char x (write_rows header (map row sorted))
  = (1 + List.length rows + list_sum (map free rows))%nat.
Proof.
  intros Hx Hh Hrow Hperm. unfold write_rows.
  rewrite count_char_app, count_char_writerow, count_char_rows by exact Hx.
  rewrite Hh, length_map, map_map.
  rewrite (Permutation_length Hperm).
  rewrite (list_sum_perm _ (map free rows)).
  - lia.
  - rewrite (map_ext _ free) by exact Hrow. now apply Permutation_map.
Qed.

Lemma digits_no_break (x : ascii) (u : Decimal.uint) :
  line_break x = true -> count_char x (NilEmpty.string_of_uint u) = 0%nat.
Proof.
  intros Hx.
  destruct (line_break_cases x Hx) as [-> | ->];
    induction u; cbn [NilEmpty.string_of_uint count_char]; auto.
Qed.

Lemma of_int_no_break (x : ascii) (z : Z) :
  line_break x = true -> count_char x (of_int z) = 0%nat.
Proof.
  intros Hx. unfold of_int, NilZero.string_of_int, NilZero.string_of_uint.
  pose proof (digits_no_break x) as Hd.
  assert (H0 : count_char x "0" = 0%nat /\ Ascii.eqb "-" x = false).
  { destruct (line_break_cases x Hx) as [-> | ->]; split; reflexivity. }
  destruct H0 as [H0 Hminus].
  destruct (Z.to_int z) as [u|u]; destruct u; cbn [count_char];
    rewrite ?Hminus; try exact H0;
    try (apply (Hd _ Hx)); cbn [Nat.add]; try (apply (Hd _ Hx)); exact H0.
Qed.

Lemma zfill_no_break (x : ascii) (k : nat) (z : Z) :
  line_break x = true -> count_char x (zfill k z) = 0%nat.
Proof.
  intros Hx. unfold zfill. rewrite count_char_app, of_int_no_break by exact Hx.
  generalize (k - String.length (of_int z))%nat. intros n.
  assert (H0 : Ascii.eqb "0" x = false).
  { destruct (line_break_cases x Hx) as [-> | ->]; reflexivity. }
  induction n as [|n IH]; [reflexivity|].
  cbn [repeat string_of_list_ascii count_char]. rewrite H0. exact IH.
Qed.

Lemma stamp_no_break (x : ascii) (t : option Datetime.datetime) :
  line_break x = true -> count_char x (stamp_or_na t) = 0%nat.
Proof.
  intros Hx. destruct t as [t|].
  - unfold stamp_or_na, strftime_datetime.
    rewrite !count_char_app, !zfill_no_break, of_int_no_break by exact Hx.
    destruct (line_break_cases x Hx) as [-> | ->]; reflexivity.
  - destruct (line_break_cases x Hx) as [-> | ->]; reflexivity.
Qed.

Lemma date_no_break (x : ascii) (d : Datetime.date) :
  line_break x = true -> count_char x (strftime_date d) = 0%nat.
Proof.
  intros Hx. unfold strftime_date.
  rewrite !count_char_app, !zfill_no_break, of_int_no_break by exact Hx.
  destruct (line_break_cases x Hx) as [-> | ->]; reflexivity.
Qed.

Lemma one_line_count (x : ascii) (text : option string) :
  line_break x = true -> count_char x (one_line text) = 0%nat.
Proof. intros Hx. now apply count_char_absent, one_line_no_break. Qed.

End ExportLines.

(** X18.  One record per line, as far as the exports go: in the body of
    each CSV export, a line break character (CR or LF) occurs once for
    the header line, once for every exported row, and once for each of
    its occurrences in the free-text columns that are written as they
    are: the task of a todo, the title and colour of a note, the title,
    time and colour of an event.  The content of a note and the
    description of an event never add one.  So the body has exactly one
    line per record when those columns hold no line break, and not
    otherwise. *)
Theorem csv_exports_line_breaks_counted (w : world) (x : ascii) :
  line_break x = true ->
  (exists r,
     runs export_todos_csv w r (tick w)
     /\ count_char x (body r)
        = (1 + List.length (todos (db w))
           + count_in_column x Todo.task (todos (db w)))%nat)
  /\ (exists r,
        runs export_notes_csv w r (tick w)
        /\ count_char x (body r)
           = (1 + List.length (notes (db w))
              + (count_in_column x Note.title (notes (db w))
                 + count_in_column x Note.color (notes (db w))))%nat)
  /\ (exists r,
        runs export_calendar_csv w r (tick w)
        /\ count_char x (body r)
           = (1 + List.length (events (db w))
              + (count_in_column x Event.title (events (db w))
                 + count_in_column x time_text (events (db w))
                 + count_in_column x Event.color (events (db w))))%nat).
Proof.
  intros Hx.
  assert (Hsum2 : forall (A : Type) (f g : A -> nat) (l : list A),
            list_sum (map (fun a => (f a + g a)%nat) l)
            = (list_sum (map f l) + list_sum (map g l))%nat).
  { intros A f g l. induction l as [|a l IH]; cbn [map];
      rewrite ?list_sum_cons, ?list_sum_nil; lia. }
  split; [|split]; eexists;
    (split; [unfold runs, export_todos_csv, export_notes_csv,
               export_calendar_csv, bind, get_db, datetime_now, ret;
             cbv zeta; reflexivity|]); cbn [body].
  - unfold count_in_column.
    apply (export_breaks x _ todo_row
             (fun t => count_char x (Todo.task t))); auto.
    + destruct (line_break_cases x Hx) as [-> | ->]; reflexivity.
    + intros t. unfold count_in_row, todo_row. cbn [map].
      rewrite !list_sum_cons, list_sum_nil.
      rewrite of_int_no_break, stamp_no_break by exact Hx.
      destruct (Todo.completed t);
        destruct (line_break_cases x Hx) as [-> | ->]; cbn [count_char]; cbn; lia.
    + apply order_by_perm.
  - unfold count_in_column. rewrite <- Hsum2.
    apply (export_breaks x _ note_row); auto.
    + destruct (line_break_cases x Hx) as [-> | ->]; reflexivity.
    + intros n. unfold count_in_row, note_row. cbn [map].
      rewrite !list_sum_cons, list_sum_nil.
      rewrite of_int_no_break, one_line_count, !stamp_no_break by exact Hx. lia.
    + apply order_by_perm.
  - unfold count_in_column. rewrite <- !Hsum2.
    apply (export_breaks x _ event_row); auto.
    + destruct (line_break_cases x Hx) as [-> | ->]; reflexivity.
    + intros e. unfold count_in_row, event_row, time_text. cbn [map].
      rewrite !list_sum_cons, list_sum_nil.
      rewrite of_int_no_break, one_line_count, date_no_break by exact Hx. lia.
    + apply order_by_perm.
Qed.

Lemma csv_exports_line_breaks_counted_witness :
  exists r,
    runs export_notes_csv (sample_world 0 (mkdb [] [two_line_title] [] [])) r
         (tick (sample_world 0 (mkdb [] [two_line_title] [] [])))
    /\ count_char PyStr.LF (body r) = 3%nat.
Proof.
  destruct (csv_exports_line_breaks_counted
              (sample_world 0 (mkdb [] [two_line_title] [] [])) PyStr.LF eq_refl)
    as (_ & (r & Hrun & Hcount) & _).
  exists r. split; [exact Hrun|]. rewrite Hcount. reflexivity.
Defined.

(** ** Listings in order *)

Section Sorting.
Context {A : Type} (le : A -> A -> bool).
Hypothesis le_total : forall a b, le a b = false -> le b a = true.
Hypothesis le_trans : forall a b c, le a b = true -> le b c = true -> le a c = true.

Lemma insert_by_in_order (x : A) (l : list A) :
  in_order le l -> in_order le (insert_by le x l).
Proof.
  induction l as [|y l IH]; intros H.
  - cbn. split; [intros b []|exact I].
  - cbn [insert_by]. destruct H as [Hy Hl]. destruct (le x y) eqn:E.
    + split; [|split; assumption].
      intros b [<-|Hb]; [exact E|]. exact (le_trans _ _ _ E (Hy b Hb)).
    + split; [|exact (IH Hl)].
      intros b Hb.
      apply (Permutation_in b (insert_by_perm le x l)) in Hb.
      destruct Hb as [<-|Hb]; [now apply le_total|now apply Hy].
Qed.

Lemma order_by_in_order (l : list A) : in_order le (order_by le l).
Proof.
  induction l as [|x l IH]; [exact I|]. cbn [order_by fold_right].
  now apply insert_by_in_order.
Qed.

End Sorting.

Section Newest.
Import Datetime.

Lemma leb_total (a b : datetime) : leb a b = false -> leb b a = true.
Proof.
  intros H. apply ltb_leb. rewrite ltb_negb_leb. now rewrite H.
Qed.

Lemma opt_leb_total (a b : option datetime) :
  opt_leb a b = false -> opt_leb b a = true.
Proof.
  destruct a as [a|], b as [b|]; cbn; try congruence. apply leb_total.
Qed.

Lemma opt_leb_trans (a b c : option datetime) :
  opt_leb a b = true -> opt_leb b c = true -> opt_leb a c = true.
Proof.
  destruct a as [a|], b as [b|], c as [c|]; cbn; try congruence.
  apply leb_trans.
Qed.

End Newest.

(** X19.  Listings come newest first and complete: [get_notes] and
    [notes_page] return every stored note, each once, ordered so that no
    note is followed by one updated later (a note without an update time
    goes last); [get_todos] returns every stored todo in the same way by
    creation time.  None of them changes anything. *)
Theorem listings_are_newest_first (w : world) :
  (exists l,
     runs get_notes w l w /\ runs notes_page w l w
     /\ Permutation l (notes (db w)) /\ in_order note_newer l)
  /\ (exists l,
        runs get_todos w l w
        /\ Permutation l (todos (db w)) /\ in_order todo_newer l).
Proof.
  split; eexists; repeat split.
  - apply order_by_perm.
  - apply order_by_in_order.
    + intros a b. apply opt_leb_total.
    + intros a b c Hab Hbc. unfold note_newer in *.
      exact (opt_leb_trans _ _ _ Hbc Hab).
  - apply order_by_perm.
  - apply order_by_in_order.
    + intros a b. apply opt_leb_total.
    + intros a b c Hab Hbc. exact (opt_leb_trans _ _ _ Hbc Hab).
Qed.

(** X20.  A quote is always served: whatever the random source yields,
    [get_quote] returns one of the eighteen quotes of the list, draws
    once and leaves the store and the clock alone. *)
Theorem get_quote_returns_a_listed_quote (w : world) :
  exists q w',
    runs get_quote w q w'
    /\ In q MOTIVATIONAL_QUOTES
    /\ List.length MOTIVATIONAL_QUOTES = 18%nat
    /\ db w' = db w /\ ticks w' = ticks w /\ draws w' = S (draws w).
Proof.
  unfold get_quote, choice.
  pose proof (Z.mod_pos_bound (entropy w (draws w))
                (Calendar.len MOTIVATIONAL_QUOTES) ltac:(reflexivity)) as Hi.
  destruct (nth_error MOTIVATIONAL_QUOTES
              (Z.to_nat (entropy w (draws w) mod Calendar.len MOTIVATIONAL_QUOTES)))
    as [q|] eqn:En.
  2:{ apply nth_error_None in En.
      change (List.length MOTIVATIONAL_QUOTES) with 18%nat in En.
      change (Calendar.len MOTIVATIONAL_QUOTES) with 18 in *. lia. }
  exists q. eexists. split.
  - eapply runs_bind; [reflexivity|]. apply runs_lift. unfold py_index.
    replace (entropy w (draws w) mod Calendar.len MOTIVATIONAL_QUOTES <? 0)
      with false by (symmetry; lia).
    now rewrite En.
  - split; [exact (nth_error_In _ _ En)|]. repeat split.
Qed.

(** X21.  Seeding the notes is idempotent: [init_sample_data]'s note
    part never fails, leaves a non-empty table untouched (without even
    reading the clock), fills an empty one with the three sample notes
    under the ids 1, 2 and 3, and so changes nothing when it is run a
    second time. *)
Theorem seeding_notes_is_idempotent (w : world) :
  runs init_sample_notes w tt (snd (init_sample_notes w))
  /\ notes (db (snd (init_sample_notes w))) <> []
  /\ (notes (db w) <> [] -> snd (init_sample_notes w) = w)
  /\ snd (init_sample_notes (snd (init_sample_notes w)))
     = snd (init_sample_notes w)
  /\ (notes (db w) = [] ->
      map Note.id (notes (db (snd (init_sample_notes w)))) = [1; 2; 3]
      /\ map Note.title (notes (db (snd (init_sample_notes w))))
         = ["Flask Tips"; "Meeting Notes"; "Ideas"]%string
      /\ todos (db (snd (init_sample_notes w))) = todos (db w)
      /\ events (db (snd (init_sample_notes w))) = events (db w)
      /\ sessions (db (snd (init_sample_notes w))) = sessions (db w)).
Proof.
  assert (Hfull : forall w0, notes (db w0) <> [] ->
                             init_sample_notes w0 = (Ok tt, w0)).
  { intros w0 H. unfold init_sample_notes, bind, get_db.
    replace (count (notes (db w0)) =? 0) with false; [reflexivity|].
    symmetry. apply Z.eqb_neq. unfold count.
    destruct (notes (db w0)); [congruence|cbn [List.length]; lia]. }
  destruct (notes (db w)) as [|n l] eqn:E.
  - assert (Hrun : exists w1,
              init_sample_notes w = (Ok tt, w1)
              /\ map Note.id (notes (db w1)) = [1; 2; 3]
              /\ map Note.title (notes (db w1))
                 = ["Flask Tips"; "Meeting Notes"; "Ideas"]%string
              /\ todos (db w1) = todos (db w) /\ events (db w1) = events (db w)
              /\ sessions (db w1) = sessions (db w)).
    { eexists. unfold init_sample_notes, bind, get_db, count. rewrite E.
      cbn. rewrite E. cbn. repeat split. }
    destruct Hrun as (w1 & Hrun & Hids & Htitles & Ht & He & Hs).
    rewrite Hrun. cbn [snd].
    assert (Hne : notes (db w1) <> []).
    { intros H. rewrite H in Hids. discriminate. }
    split; [exact Hrun|]. split; [exact Hne|].
    split; [congruence|]. split; [now rewrite (Hfull w1 Hne)|].
    intros _. repeat split; assumption.
  - assert (Hne : notes (db w) <> []) by (rewrite E; discriminate).
    rewrite (Hfull w Hne). cbn [snd]. rewrite (Hfull w Hne). cbn [snd].
    split; [exact (Hfull w Hne)|]. split; [exact Hne|].
    split; [reflexivity|]. split; [reflexivity|]. rewrite E. discriminate.
Qed.

(** X22.  A todo just added is listed first: when every stored todo was
    created before the present reading of the UTC clock (or has no
    creation time), [add_todo] answers 201 with a todo that is not
    completed, carries the task sent (the empty text when the key is
    absent) and that reading as its creation time, and [get_todos] then
    lists it first, followed by the todos stored before. *)
Theorem added_todo_is_listed_first (data : TodoData.t) (w : world) :
  (forall t, In t (todos (db w)) ->
     match Todo.created_at t with
     | Some c => Datetime.ltb c (utc (clock w (ticks w))) = true
     | None => True
     end) ->
  exists todo w1 l,
    runs (add_todo data) w (todo, 201) w1
    /\ runs get_todos w1 (todo :: l) w1
    /\ Permutation l (todos (db w))
    /\ Todo.task todo = dict_get (TodoData.task data) EmptyString
    /\ Todo.completed todo = false
    /\ Todo.created_at todo = Some (utc (clock w (ticks w))).
Proof.
  intros Hold.
  set (todo := Todo.mk (next_id (map Todo.id (todos (db w))))
                 (dict_get (TodoData.task data) EmptyString) false
                 (Some (utc (clock w (ticks w))))).
  assert (Hperm : Permutation (todos_newest_first (todos (db w) ++ [todo]))
                    (todo :: todos (db w))).
  { etransitivity; [apply order_by_perm|].
    apply Permutation_sym, Permutation_cons_append. }
  assert (Hord : in_order todo_newer (todos_newest_first (todos (db w) ++ [todo]))).
  { apply order_by_in_order.
    - intros a b. apply opt_leb_total.
    - intros a b c Hab Hbc. exact (opt_leb_trans _ _ _ Hbc Hab). }
  destruct (todos_newest_first (todos (db w) ++ [todo])) as [|y l] eqn:El.
  { apply Permutation_nil in Hperm. discriminate. }
  assert (Hy : y = todo).
  { assert (Hin : In y (todo :: todos (db w))).
    { apply (Permutation_in y Hperm). now left. }
    destruct Hin as [<-|Hin]; [reflexivity|]. exfalso.
    assert (Hne : y <> todo).
    { intros ->. apply (next_id_absent Todo.id (todos (db w)) todo Hin).
      reflexivity. }
    assert (Hl : In todo l).
    { assert (H : In todo (y :: l)).
      { apply (Permutation_in todo (Permutation_sym Hperm)). now left. }
      destruct H as [H|H]; [congruence|exact H]. }
    destruct Hord as [Hfirst _]. specialize (Hfirst todo Hl).
    unfold todo_newer in Hfirst. cbn [Todo.created_at todo opt_leb] in Hfirst.
    specialize (Hold y Hin). destruct (Todo.created_at y) as [c|].
    - rewrite ltb_negb_leb in Hold. unfold todo in Hfirst.
      cbn [Todo.created_at opt_leb] in Hfirst. rewrite Hfirst in Hold.
      discriminate.
    - unfold todo in Hfirst. cbn [Todo.created_at opt_leb] in Hfirst.
      discriminate. }
  subst y.
  exists todo. eexists. exists l. split; [unfold runs; cbn; reflexivity|].
  split.
  { unfold runs, get_todos, bind, get_db, ret. cbn [db todos set_todos].
    fold todo. now rewrite El. }
  split; [exact (Permutation_cons_inv Hperm)|]. repeat split.
Qed.

Lemma added_todo_is_listed_first_witness :
  exists todo w1 l,
    runs (add_todo (TodoData.mk (Some "Call home"%string)))
         (handle (AddTodo (TodoData.mk (Some "Water the plants"%string)))
                 ticking_world) (todo, 201) w1
    /\ runs get_todos w1 (todo :: l) w1
    /\ map Todo.task l = ["Water the plants"%string].
Proof.
  destruct (added_todo_is_listed_first (TodoData.mk (Some "Call home"%string))
              (handle (AddTodo (TodoData.mk (Some "Water the plants"%string)))
                      ticking_world))
    as (todo & w1 & l & Hadd & Hget & _).
  - intros t [<-|[]]. reflexivity.
  - exists todo, w1, l. split; [exact Hadd|]. split; [exact Hget|].
    unfold runs in Hadd. vm_compute in Hadd. injection Hadd as <- <-.
    unfold runs in Hget. vm_compute in Hget. injection Hget as <-.
    reflexivity.
Defined.

(** ** From a create request to the calendar page *)

(** X23.  An event created for a date shows on the calendar page of that
    date's month: for every valid date of a month the date type has both
    bounds for, after [add_event] with the ISO text of the date,
    [calendar_page] for the date's year and month succeeds, and the
    events grouped between its [first_day] and [last_day] hold the new
    event in the list under the date's ISO text. *)
Theorem created_event_shows_on_its_month
        (d : Datetime.date) (data : EventData.t) (w : world) :
  Datetime.check_date_fields (Datetime.d_year d) (Datetime.d_month d)
    (Datetime.d_day d) = true ->
  month_in_range (Datetime.d_year d) (Datetime.d_month d) ->
  EventData.date data = Some (date_isoformat d) ->
  exists event w1 ctx w2 g l,
    runs (add_event data) w (event, 201) w1
    /\ runs (calendar_page (Some (Datetime.d_year d)) (Some (Datetime.d_month d)))
            w1 ctx w2
    /\ runs (events_by_date (cal_first_day ctx) (cal_last_day ctx)) w2 g w2
    /\ Event.date event = d
    /\ dict_find (date_isoformat d) g = Some l
    /\ In event l.
Proof.
  intros Hv Hrange Hd.
  pose proof (strptime_isoformat d Hv) as Hp.
  assert (Hm : 1 <= Datetime.d_month d <= 12).
  { unfold Datetime.check_date_fields in Hv.
    repeat (apply andb_true_iff in Hv; destruct Hv as [Hv ?]). lia. }
  set (event :=
         Event.mk (next_id (map Event.id (events (db w))))
           (dict_get (EventData.title data) "Untitled"%string)
           (Some (dict_get (EventData.description data) EmptyString))
           d
           (Some (dict_get (EventData.time data) EmptyString))
           (dict_get (EventData.color data) "primary"%string)
           (Some (utc (clock w (ticks w))))).
  set (w1 := mkworld (clock w) (S (ticks w)) (entropy w) (draws w)
               (set_events (db w) (events (db w) ++ [event]))).
  assert (Hadd : runs (add_event data) w (event, 201) w1).
  { unfold runs, add_event, bind, lift, dict_item. rewrite Hd, Hp.
    unfold event, w1. destruct d. reflexivity. }
  destruct (calendar_page_bounds w1 (Some (Datetime.d_year d))
              (Some (Datetime.d_month d)) (Datetime.d_year d) (Datetime.d_month d))
    as (ctx & w2 & Hpage & Hfirst & Hlast & _ & _ & Hin); [|exact Hrange|].
  { unfold requested, normalize_month.
    replace (12 <? Datetime.d_month d) with false by (symmetry; lia).
    replace (Datetime.d_month d <? 1) with false by (symmetry; lia).
    reflexivity. }
  assert (Hdb : db w2 = db w1).
  { destruct (calendar_page_outcome w1 (Some (Datetime.d_year d))
                (Some (Datetime.d_month d)) (Datetime.d_year d) (Datetime.d_month d))
      as (grid & _ & Hok & _).
    - unfold requested, normalize_month.
      replace (12 <? Datetime.d_month d) with false by (symmetry; lia).
      replace (Datetime.d_month d <? 1) with false by (symmetry; lia).
      reflexivity.
    - destruct (Hok Hrange) as (ctx' & w2' & Hpage' & _ & _ & _ & _ & Hdb').
      unfold runs in Hpage, Hpage'. rewrite Hpage in Hpage'.
      injection Hpage' as _ ->. exact Hdb'. }
  destruct (events_by_date_runs (cal_first_day ctx) (cal_last_day ctx) w2)
    as (g & Hg & _ & _ & Hlisted).
  assert (Hstored : In event (events (db w2))).
  { rewrite Hdb. unfold w1. cbn [db events set_events].
    apply in_or_app. right. now left. }
  destruct (proj1 (Hlisted event Hstored)) as (l & Hl & Hel).
  { unfold in_date_range. cbn [Event.date event]. apply Hin; [exact Hv|].
    split; reflexivity. }
  exists event, w1, ctx, w2, g, l. repeat split; assumption.
Qed.

Lemma created_event_shows_on_its_month_witness :
  exists event w1 ctx w2 g l,
    runs (add_event (event_on "2024-02-29"%string)) (sample_world 0 empty_db)
         (event, 201) w1
    /\ runs (calendar_page (Some 2024) (Some 2)) w1 ctx w2
    /\ runs (events_by_date (cal_first_day ctx) (cal_last_day ctx)) w2 g w2
    /\ dict_find "2024-02-29"%string g = Some l
    /\ In event l.
Proof.
  destruct (created_event_shows_on_its_month (Datetime.mkdate 2024 2 29)
              (event_on "2024-02-29"%string) (sample_world 0 empty_db))
    as (event & w1 & ctx & w2 & g & l & H1 & H2 & H3 & _ & H4 & H5).
  - reflexivity.
  - unfold month_in_range. cbn. lia.
  - reflexivity.
  - exists event, w1, ctx, w2, g, l. repeat split; assumption.
Defined.

(** ** An updated note goes first *)

Section ReplacePerm.
Context {A : Type} (key : A -> Z).

Lemma replaced_perm (rows : list A) (x r0 : A) (i : Z) :
  NoDup (map key rows) ->
  find (fun r => key r =? i) rows = Some r0 ->
  Permutation (map (fun r => if key r =? i then x else r) rows)
              (x :: filter (fun r => negb (key r =? i)) rows).
Proof.
  induction rows as [|r rows IH]; [discriminate|]. intros Hd Hf.
  cbn [find map filter] in *. destruct (Z.eqb_spec (key r) i) as [E|E];
    cbn [negb].
  - rewrite (replace_absent key), (remove_absent key)
      by (rewrite <- E; now apply NoDup_tail_absent).
    reflexivity.
  - inversion Hd; subst. etransitivity.
    + apply perm_skip. apply IH; assumption.
    + apply perm_swap.
Qed.

Lemma replaced_by_itself (rows : list A) (r0 : A) (i : Z) :
  NoDup (map key rows) ->
  find (fun r => key r =? i) rows = Some r0 ->
  map (fun r => if key r =? i then r0 else r) rows = rows.
Proof.
  induction rows as [|r rows IH]; [discriminate|]. intros Hd Hf.
  cbn [find map] in *. destruct (Z.eqb_spec (key r) i) as [E|E].
  - injection Hf as <-. f_equal. apply (replace_absent key).
    rewrite <- E. now apply NoDup_tail_absent.
  - inversion Hd; subst. f_equal. now apply IH.
Qed.

End ReplacePerm.

Lemma newest_goes_first (rows others : list Note.t) (x : Note.t)
      (t : Datetime.datetime) :
  Permutation rows (x :: others) ->
  Note.updated_at x = Some t ->
  (forall n, In n others ->
     match Note.updated_at n with
     | Some u => Datetime.ltb u t = true
     | None => True
     end) ->
  exists l, notes_newest_first rows = x :: l /\ Permutation l others.
Proof.
  intros Hrows Hx Hold.
  assert (Hperm : Permutation (notes_newest_first rows) (x :: others)).
  { etransitivity; [apply order_by_perm|exact Hrows]. }
  assert (Hord : in_order note_newer (notes_newest_first rows)).
  { apply order_by_in_order.
    - intros a b. apply opt_leb_total.
    - intros a b c Hab Hbc. exact (opt_leb_trans _ _ _ Hbc Hab). }
  destruct (notes_newest_first rows) as [|y l] eqn:El.
  { apply Permutation_nil in Hperm. discriminate. }
  assert (Hy : y = x).
  { assert (Hin : In y (x :: others)).
    { apply (Permutation_in y Hperm). now left. }
    destruct Hin as [<-|Hin]; [reflexivity|].
    assert (H : In x (y :: l)).
    { apply (Permutation_in x (Permutation_sym Hperm)). now left. }
    destruct H as [H|Hl]; [exact H|]. exfalso.
    destruct Hord as [Hfirst _]. specialize (Hfirst x Hl).
    unfold note_newer in Hfirst. rewrite Hx in Hfirst.
    specialize (Hold y Hin). destruct (Note.updated_at y) as [u|].
    - cbn [opt_leb] in Hfirst. rewrite ltb_negb_leb, Hfirst in Hold. discriminate.
    - discriminate. }
  subst y. exists l. split; [reflexivity|].
  exact (Permutation_cons_inv Hperm).
Qed.

(** X24.  A note just updated is listed first: with unique ids, when
    every other stored note was last updated before the present reading
    of the UTC clock and before the next one (or has no update time),
    [update_note] on an existing note returns the note as stored, its
    update time one of those two readings, and [get_notes] then lists it
    first, followed by the other notes. *)
Theorem updated_note_is_listed_first
        (i : Z) (data : NoteData.t) (w : world) (note : Note.t) :
  NoDup (map Note.id (notes (db w))) ->
  runs (get_note i) w note w ->
  (forall n, In n (notes (db w)) -> Note.id n <> i ->
     match Note.updated_at n with
     | Some u => Datetime.ltb u (utc (clock w (ticks w))) = true
                 /\ Datetime.ltb u (utc (clock w (S (ticks w)))) = true
     | None => True
     end) ->
  exists note' w1 l,
    runs (update_note i data) w note' w1
    /\ runs get_notes w1 (note' :: l) w1
    /\ Permutation l (filter (fun n => negb (Note.id n =? i)) (notes (db w)))
    /\ Note.id note' = i
    /\ (Note.updated_at note' = Some (utc (clock w (ticks w)))
        \/ Note.updated_at note' = Some (utc (clock w (S (ticks w))))).
Proof.
  intros Hd Hrun Hold.
  pose proof (get_note_find i w note) as Hf.
  rewrite Hrun in Hf. specialize (Hf eq_refl).
  destruct (found_key Note.id _ _ _ Hf) as [Ek _].
  assert (Hothers : forall t,
             t = utc (clock w (ticks w)) \/ t = utc (clock w (S (ticks w))) ->
             forall n,
               In n (filter (fun n => negb (Note.id n =? i)) (notes (db w))) ->
               match Note.updated_at n with
               | Some u => Datetime.ltb u t = true
               | None => True
               end).
  { intros t Ht n Hn. apply filter_In in Hn. destruct Hn as [Hin Hid].
    apply negb_true_iff, Z.eqb_neq in Hid. specialize (Hold n Hin Hid).
    destruct (Note.updated_at n) as [u|]; [|exact I].
    destruct Hold as [H0 H1]. destruct Ht as [->| ->]; assumption. }
  assert (Hstored : forall k t,
             t = utc (clock w (ticks w)) \/ t = utc (clock w (S (ticks w))) ->
             exists l,
               runs get_notes (note_stored w k i (note_with note data t))
                    (note_with note data t :: l)
                    (note_stored w k i (note_with note data t))
               /\ Permutation l
                    (filter (fun n => negb (Note.id n =? i)) (notes (db w)))).
  { intros k t Ht.
    destruct (newest_goes_first
                (map (fun n => if Note.id n =? i then note_with note data t else n)
                     (notes (db w)))
                (filter (fun n => negb (Note.id n =? i)) (notes (db w)))
                (note_with note data t) t) as (l & El & Hl).
    - exact (replaced_perm Note.id _ _ note i Hd Hf).
    - reflexivity.
    - exact (Hothers t Ht).
    - exists l. split; [|exact Hl].
      unfold runs, get_notes, bind, get_db, ret.
      cbn [db notes set_notes note_stored]. now rewrite El. }
  destruct (update_note_found i data w note Hf)
    as [(Hne & E)|[(He & Hch & E)|(He & Hsame & Hnote & E)]].
  - destruct (Hstored 1%nat (utc (clock w (ticks w))) (or_introl eq_refl))
      as (l & Hget & Hl).
    eexists _, _, l. split; [exact E|]. split; [exact Hget|].
    split; [exact Hl|]. split; [exact Ek|]. now left.
  - destruct (Hstored 2%nat (utc (clock w (S (ticks w)))) (or_intror eq_refl))
      as (l & Hget & Hl).
    eexists _, _, l. split; [exact E|]. split; [exact Hget|].
    split; [exact Hl|]. split; [exact Ek|]. now right.
  - destruct (newest_goes_first (notes (db w))
                (filter (fun n => negb (Note.id n =? i)) (notes (db w)))
                note (utc (clock w (ticks w)))) as (l & El & Hl).
    + rewrite <- (replaced_by_itself Note.id (notes (db w)) note i Hd Hf) at 1.
      exact (replaced_perm Note.id _ _ note i Hd Hf).
    + exact He.
    + exact (Hothers _ (or_introl eq_refl)).
    + exists note, (tick w), l. split; [exact E|]. split.
      { unfold runs, get_notes, bind, get_db, ret. cbn [db tick]. now rewrite El. }
      split; [exact Hl|]. split; [exact Ek|]. now left.
Qed.

Lemma updated_note_is_listed_first_witness :
  exists note' w1 l,
    runs (update_note 1 (NoteData.mk None None (Some "info"%string)))
         (serve InitSampleNotes ticking_world) note' w1
    /\ runs get_notes w1 (note' :: l) w1
    /\ Note.title note' = "Flask Tips"%string
    /\ map Note.title l = ["Ideas"; "Meeting Notes"]%string.
Proof.
  destruct (updated_note_is_listed_first 1
              (NoteData.mk None None (Some "info"%string))
              (serve InitSampleNotes ticking_world)
              (Note.mk 1 "Flask Tips"%string
                 (Some "Remember to use blueprints for larger applications. Keep routes organized!"%string)
                 "primary"%string
                 (Some (Datetime.mkdatetime 2024 6 10 15 0 0 0))
                 (Some (Datetime.mkdatetime 2024 6 10 15 0 1 0))))
    as (note' & w1 & l & Hupd & Hget & _).
  - vm_compute. repeat constructor; cbn; intuition discriminate.
  - unfold runs. vm_compute. reflexivity.
  - intros n Hn Hid. vm_compute in Hn.
    destruct Hn as [<-|[<-|[<-|[]]]]; [now elim Hid| |]; split; reflexivity.
  - exists note', w1, l. split; [exact Hupd|]. split; [exact Hget|].
    unfold runs in Hupd. vm_compute in Hupd. injection Hupd as <- <-.
    unfold runs in Hget. vm_compute in Hget. injection Hget as <-.
    split; reflexivity.
Defined.
